(** * Strategy analysis engine and connection monitor of the bbc trading bot

    A shallow embedding of
    - [src/utils/decorators.py]         ([handle_errors], [log_execution_time],
      [retry], [safe_api_call]),
    - [src/strategy/base_strategy.py]   ([BaseStrategy.analyze], the signal
      cache and the multi-timeframe confirmation),
    - [src/strategy/donchian_strategy.py] (the channel-breakout strategy and
      its position sizing),
    - [src/api/websocket.py]            ([BybitWebSocket]: connection,
      monitor loop, subscriptions and dispatch),
    together with the properties the specification states about them.

    Number model.  The Python code computes with IEEE doubles (pandas columns
    and Python floats).  In the indicator and signal code finite doubles are
    modelled by exact rationals [Q]; the special values that the code can
    produce from finite data (a missing rolling value, a shifted-in hole, a
    division by zero) are modelled by the three extra constructors of
    [pyfloat], and rounding error is outside the model there.  Position
    sizing calls [round], whose result depends on the last bit of its
    argument, so its arithmetic is modelled with the rounding of every
    operation to the nearest double ([Float64.nearest]).  Overflow,
    subnormal numbers and the sign of zero are outside the model. *)

From stdpp Require Import gmap strings list sorting.
From Stdlib Require Import QArith Qpower Qminmax Qabs Qround Lqa Lia ZArith.

Close Scope Q_scope.

(* ===================================================================== *)
(** ** Python results: a value or a raised exception                      *)
(* ===================================================================== *)

Inductive PyExc : Type :=
  | AttributeError
  | TypeError
  | KeyError
  | IndexError
  | ValueError
  | ZeroDivisionError
  | RuntimeError.

Inductive result (A : Type) : Type :=
  | Raise (e : PyExc)
  | Return (a : A).
Arguments Raise {A} e.
Arguments Return {A} a.

#[global] Instance result_ret : MRet result := fun _ a => Return a.
#[global] Instance result_bind : MBind result := fun _ _ f r =>
  match r with
  | Raise e => Raise e
  | Return a => f a
  end.

(** [@handle_errors] ([decorators.py], lines 9-46): every exception of the
    wrapped call is caught (and logged) and the wrapper returns Python's
    [None]; a normal return is passed through. *)
Definition handle_errors {A} (r : result A) : result (option A) :=
  match r with
  | Raise _ => Return None
  | Return a => Return (Some a)
  end.

(** [@log_execution_time()] ([decorators.py], lines 115-146): the result is
    returned unchanged and an exception is re-raised. *)
Definition log_execution_time {A} (r : result A) : result A :=
  match r with
  | Raise e => Raise e
  | Return a => Return a
  end.

(* ===================================================================== *)
(** ** Floating-point values                                              *)
(* ===================================================================== *)

Inductive pyfloat : Type :=
  | Fin (q : Q)
  | PInf
  | NInf
  | NaN.

Definition Qltb (x y : Q) : bool := negb (Qle_bool y x).

Module PyFloat.

Definition is_nan (x : pyfloat) : bool :=
  match x with NaN => true | _ => false end.

(** Comparisons: every comparison with NaN is false. *)
Definition lt (x y : pyfloat) : bool :=
  match x, y with
  | NaN, _ | _, NaN => false
  | Fin a, Fin b => Qltb a b
  | NInf, NInf => false
  | NInf, _ => true
  | _, PInf => match x with PInf => false | _ => true end
  | _, _ => false
  end.

Definition le (x y : pyfloat) : bool :=
  match x, y with
  | NaN, _ | _, NaN => false
  | Fin a, Fin b => Qle_bool a b
  | NInf, _ => true
  | _, PInf => true
  | _, _ => false
  end.

Definition gt (x y : pyfloat) : bool := lt y x.
Definition ge (x y : pyfloat) : bool := le y x.

Definition neg (x : pyfloat) : pyfloat :=
  match x with
  | Fin a => Fin (- a)%Q
  | PInf => NInf
  | NInf => PInf
  | NaN => NaN
  end.

Definition abs (x : pyfloat) : pyfloat :=
  match x with
  | Fin a => Fin (Qabs a)
  | PInf | NInf => PInf
  | NaN => NaN
  end.

Definition add (x y : pyfloat) : pyfloat :=
  match x, y with
  | NaN, _ | _, NaN => NaN
  | Fin a, Fin b => Fin (a + b)%Q
  | PInf, NInf | NInf, PInf => NaN
  | PInf, _ | _, PInf => PInf
  | NInf, _ | _, NInf => NInf
  end.

Definition sub (x y : pyfloat) : pyfloat := add x (neg y).

(** Sign of a finite value, used for the products and quotients that
    involve an infinity. *)
Definition scale_inf (pos : bool) (a : Q) : pyfloat :=
  if Qeq_bool a 0 then NaN
  else if Qltb 0 a then (if pos then PInf else NInf)
  else (if pos then NInf else PInf).

Definition mul (x y : pyfloat) : pyfloat :=
  match x, y with
  | NaN, _ | _, NaN => NaN
  | Fin a, Fin b => Fin (a * b)%Q
  | PInf, Fin a | Fin a, PInf => scale_inf true a
  | NInf, Fin a | Fin a, NInf => scale_inf false a
  | PInf, PInf | NInf, NInf => PInf
  | PInf, NInf | NInf, PInf => NInf
  end.

(** Division as numpy performs it on float64: a zero divisor gives an
    infinity (or NaN for 0/0) instead of raising. *)
Definition div (x y : pyfloat) : pyfloat :=
  match x, y with
  | NaN, _ | _, NaN => NaN
  | Fin a, Fin b =>
      if Qeq_bool b 0 then scale_inf true a else Fin (a / b)%Q
  | Fin _, PInf | Fin _, NInf => Fin 0
  | PInf, Fin b => if Qltb b 0 then NInf else PInf
  | NInf, Fin b => if Qltb b 0 then PInf else NInf
  | _, _ => NaN
  end.

(** Python's builtin [min(a, b)]: [b] when [b < a], otherwise [a]. *)
Definition pymin (a b : pyfloat) : pyfloat := if lt b a then b else a.

(** [0 <= x <= 1] for a float: a finite value in the unit interval. *)
Definition in_unit_interval (x : pyfloat) : Prop :=
  match x with
  | Fin q => (0 <= q /\ q <= 1)%Q
  | _ => False
  end.

(** A float that is missing, or plus infinity, or finite and at least [b]. *)
Definition at_least (b : Q) (x : pyfloat) : Prop :=
  match x with
  | Fin q => (b <= q)%Q
  | NInf => False
  | PInf | NaN => True
  end.

(** Equality of floats up to the representation of the rational. *)
Definition eqv (x y : pyfloat) : Prop :=
  match x, y with
  | Fin a, Fin b => (a == b)%Q
  | PInf, PInf | NInf, NInf | NaN, NaN => True
  | _, _ => False
  end.

End PyFloat.

Notation "x +f y" := (PyFloat.add x y) (at level 50, left associativity).
Notation "x -f y" := (PyFloat.sub x y) (at level 50, left associativity).
Notation "x *f y" := (PyFloat.mul x y) (at level 40, left associativity).
Notation "x /f y" := (PyFloat.div x y) (at level 40, left associativity).
Notation "x <f y" := (PyFloat.lt x y) (at level 70, no associativity).
Notation "x <=f y" := (PyFloat.le x y) (at level 70, no associativity).
Notation "x >f y" := (PyFloat.gt x y) (at level 70, no associativity).
Notation "x >=f y" := (PyFloat.ge x y) (at level 70, no associativity).

(* ===================================================================== *)
(** ** Candle windows (pandas data frames of OHLCV bars)                  *)
(* ===================================================================== *)

Record Candle : Type := mkCandle {
  timestamp : Z;
  open : Q;
  high : Q;
  low : Q;
  close : Q;
  volume : Q
}.

(** A data frame with the columns timestamp, open, high, low, close and
    volume, one row per candle. *)
Definition CandleWindow : Type := list Candle.

Module Pandas.

(** [df.sort_values("timestamp", ascending=...)].  For pairwise distinct
    timestamps the sorted frame is unique.  Rows with equal timestamps keep
    the order in which they are given, in both directions: this is what the
    default sort does on the short frames used below (numpy sorts up to 16
    keys by insertion, and pandas sorts descending by reversing before and
    after); pandas promises no order for ties on longer frames. *)
Fixpoint insert_row (ascending : bool) (c : Candle) (df : CandleWindow)
  : CandleWindow :=
  match df with
  | [] => [c]
  | d :: df' =>
      if (if ascending then timestamp c <=? timestamp d
          else timestamp d <=? timestamp c)%Z
      then c :: df
      else d :: insert_row ascending c df'
  end.

Definition sort_values (ascending : bool) (df : CandleWindow) : CandleWindow :=
  foldr (insert_row ascending) [] df.

(** The order a frame sorted with [ascending] obeys. *)
Definition in_order (ascending : bool) (c d : Candle) : Prop :=
  if ascending then (timestamp c <= timestamp d)%Z
  else (timestamp d <= timestamp c)%Z.

(** [series.iloc[-1]] and [series.iloc[i]]: IndexError out of range. *)
Definition iloc_last {A} (xs : list A) : result A :=
  match last xs with
  | Some x => Return x
  | None => Raise IndexError
  end.

Definition iloc {A} (xs : list A) (i : nat) : result A :=
  match xs !! i with
  | Some x => Return x
  | None => Raise IndexError
  end.

(** [series.shift(n)] for [n >= 0]: [n] holes in front, same length. *)
Definition shift (n : nat) (xs : list pyfloat) : list pyfloat :=
  take (length xs) (replicate n NaN ++ xs).

Definition finite_values (xs : list pyfloat) : option (list Q) :=
  mapM (fun x => match x with Fin q => Some q | _ => None end) xs.

(** [series.rolling(window=n).agg()]: with the default
    [min_periods = window] the value at row [i] is defined only when the
    [n] rows ending at [i] exist and hold no missing value.  The code only
    rolls over finite series (columns and the true range); an infinite
    entry is treated like a missing one.  A window of size 0 gives a missing
    value here; the properties below are stated for positive periods
    ([Donchian.well_configured]). *)
Definition rolling (n : nat) (agg : list Q -> Q) (xs : list pyfloat)
  : list pyfloat :=
  fmap (fun i =>
         if (0 <? n) && (n <=? S i)
         then match finite_values (take n (drop (S i - n) xs)) with
              | Some w => Fin (agg w)
              | None => NaN
              end
         else NaN)
      (seq 0 (length xs)).

Definition qmax_list (w : list Q) : Q :=
  match w with
  | [] => 0%Q
  | x :: w' => foldl Qmax x w'
  end.

Definition qmin_list (w : list Q) : Q :=
  match w with
  | [] => 0%Q
  | x :: w' => foldl Qmin x w'
  end.

Definition qsum (w : list Q) : Q := foldl Qplus 0%Q w.

Definition qmean (w : list Q) : Q :=
  (qsum w / inject_Z (Z.of_nat (length w)))%Q.

(** Row-wise maximum of [pd.concat([a, b, c], axis=1).max(axis=1)]:
    missing values are skipped. *)
Definition nanmax2 (x y : pyfloat) : pyfloat :=
  match x, y with
  | NaN, _ => y
  | _, NaN => x
  | _, _ => if PyFloat.lt x y then y else x
  end.

Definition row_max3 (a b c : list pyfloat) : list pyfloat :=
  zip_with nanmax2 (zip_with nanmax2 a b) c.

End Pandas.

(* ===================================================================== *)
(** ** The channel-breakout (Donchian) strategy                            *)
(* ===================================================================== *)

Inductive SignalKind : Type :=
  | neutral | buy | sell | buy_weak | sell_weak | exit_long | exit_short.

#[global] Instance SignalKind_eq_dec : EqDecision SignalKind.
Proof. solve_decision. Defined.

Record DonchianStrategy : Type := mkDonchian {
  period : nat;
  exit_period : nat;
  atr_period : nat;
  atr_multiplier : Q;
  volume_threshold : Q
}.

(** The constructor's default arguments. *)
Definition default_donchian : DonchianStrategy :=
  {| period := 20; exit_period := 10; atr_period := 14;
     atr_multiplier := 2%Q; volume_threshold := 1.5%Q |}.

Record Indicators : Type := mkIndicators {
  highest_high : pyfloat;
  lowest_low : pyfloat;
  middle_line : pyfloat;
  exit_high : pyfloat;
  exit_low : pyfloat;
  atr : pyfloat;
  volume_ratio : pyfloat;
  trend_up : bool;
  volatility : pyfloat;
  stop_loss_long : pyfloat;
  stop_loss_short : pyfloat;
  take_profit_long : pyfloat;
  take_profit_short : pyfloat;
  roc : pyfloat;
  highest_high_series : list pyfloat;
  lowest_low_series : list pyfloat;
  middle_line_series : list pyfloat;
  atr_series : list pyfloat;
  ind_close : pyfloat;
  ind_timestamp : Z
}.

Inductive SignalReason : Type :=
  | NoClearSignal                              (* "Keine klaren Signale" *)
  | BreakoutAboveUpperBand (hh vr : pyfloat)   (* "Ausbruch ueber Donchian-Oberband ..." *)
  | BreakoutBelowLowerBand (ll vr : pyfloat)   (* "Ausbruch unter Donchian-Unterband ..." *)
  | PriceBelowExitLow (el : pyfloat)           (* "Preis unterhalb des kurzfristigen Tiefs ..." *)
  | PriceAboveExitHigh (eh : pyfloat)          (* "Preis oberhalb des kurzfristigen Hochs ..." *)
  | ApproachingUpperBand (hh : pyfloat)        (* "Annaeherung an obere Kanalbegrenzung ..." *)
  | ApproachingLowerBand (ll : pyfloat).       (* "Annaeherung an untere Kanalbegrenzung ..." *)

(** The dictionary returned by [generate_signals]. *)
Record SignalDetails : Type := mkSignalDetails {
  signal : SignalKind;
  strength : pyfloat;
  reason : SignalReason;
  price : pyfloat;
  sd_highest_high : pyfloat;
  sd_lowest_low : pyfloat;
  sd_exit_high : pyfloat;
  sd_exit_low : pyfloat;
  stop_loss_level : option pyfloat;
  take_profit_level : option pyfloat;
  sd_atr : pyfloat;
  sd_volume_ratio : pyfloat;
  sd_trend_up : bool;
  risk_reward_ratio : Q;
  last_candle : option Candle
}.

(** The dictionary returned by [calculate_position_size]: the rejection
    shape (keys position_size and error) or the full shape. *)
Inductive SizingResult : Type :=
  | SizingRejected (size : Q) (error : string)
  | SizingAccepted (size risk_per_unit actual_risk_amount : Q)
                   (risk_percent : option Q) (entry_price stop_loss : Q).

Definition position_size (r : SizingResult) : Q :=
  match r with
  | SizingRejected sz _ => sz
  | SizingAccepted sz _ _ _ _ _ => sz
  end.

Definition sizing_error (r : SizingResult) : option string :=
  match r with
  | SizingRejected _ e => Some e
  | SizingAccepted _ _ _ _ _ _ => None
  end.

(* ===================================================================== *)
(** ** Python floats in scalar arithmetic                                 *)
(* ===================================================================== *)

Module Float64.

(** The integer nearest to [x], a tie going to the even neighbour. *)
Definition round_half_even (x : Q) : Z :=
  let f := Qfloor x in
  let r := (x - inject_Z f)%Q in
  if Qltb r (1 # 2) then f
  else if Qltb (1 # 2) r then (f + 1)%Z
  else if Z.even f then f else (f + 1)%Z.

(** The binary exponent of [x <> 0]: the [k] with [2^k <= |x| < 2^(k+1)].
    The difference of the bit lengths of numerator and denominator is [k]
    or [k + 1]. *)
Definition binary_exponent (x : Q) : Z :=
  let k := (Z.log2 (Z.abs (Qnum x)) - Z.log2 (Zpos (Qden x)))%Z in
  if Qle_bool (2 ^ k) (Qabs x) then k else (k - 1)%Z.

(** The double nearest to the real number [x], a tie going to the even
    significand: what an arithmetic operation on doubles returns when its
    exact result is [x].  A double has 53 significant bits, so its last
    place is [2^(k - 52)]. *)
Definition nearest (x : Q) : Q :=
  if Qeq_bool x 0 then 0%Q
  else
    let ulp := (2 ^ (binary_exponent x - 52))%Q in
    (inject_Z (round_half_even (x / ulp)) * ulp)%Q.

End Float64.

Module Donchian.
Import Pandas.

Definition get_min_required_candles (s : DonchianStrategy) : nat :=
  Nat.max (period s) (atr_period s) + 10.

Definition column (f : Candle -> Q) (df : CandleWindow) : list pyfloat :=
  fmap (fun c => Fin (f c)) df.

(** The true-range series (lines 84-87). *)
Definition true_range (df : CandleWindow) : list pyfloat :=
  let prev_close := shift 1 (column close df) in
  let tr1 := zip_with PyFloat.sub (column high df) (column low df) in
  let tr2 := fmap PyFloat.abs (zip_with PyFloat.sub (column high df) prev_close) in
  let tr3 := fmap PyFloat.abs (zip_with PyFloat.sub (column low df) prev_close) in
  row_max3 tr1 tr2 tr3.

(** The series computed on the frame sorted oldest-first (lines 73-109). *)
Definition highest_high_series_of (s : DonchianStrategy) (df : CandleWindow) :=
  rolling (period s) qmax_list (column high df).

Definition lowest_low_series_of (s : DonchianStrategy) (df : CandleWindow) :=
  rolling (period s) qmin_list (column low df).

Definition middle_line_series_of (s : DonchianStrategy) (df : CandleWindow) :=
  fmap (fun x => x /f Fin 2)
       (zip_with PyFloat.add (highest_high_series_of s df)
                             (lowest_low_series_of s df)).

Definition exit_high_series_of (s : DonchianStrategy) (df : CandleWindow) :=
  rolling (exit_period s) qmax_list (column high df).

Definition exit_low_series_of (s : DonchianStrategy) (df : CandleWindow) :=
  rolling (exit_period s) qmin_list (column low df).

Definition atr_series_of (s : DonchianStrategy) (df : CandleWindow) :=
  rolling (atr_period s) qmean (true_range df).

Definition volume_ratio_series_of (s : DonchianStrategy) (df : CandleWindow) :=
  zip_with PyFloat.div (column volume df)
           (rolling (period s) qmean (column volume df)).

Definition trend_up_series_of (df : CandleWindow) : list bool :=
  zip_with PyFloat.gt (rolling 20 qmean (column close df))
                      (rolling 50 qmean (column close df)).

Definition volatility_series_of (s : DonchianStrategy) (df : CandleWindow) :=
  fmap (fun x => x *f Fin 100)
       (zip_with PyFloat.div (atr_series_of s df) (column close df)).

Definition stop_distance_of (s : DonchianStrategy) (df : CandleWindow) :=
  fmap (fun a => a *f Fin (atr_multiplier s)) (atr_series_of s df).

Definition profit_distance_of (s : DonchianStrategy) (df : CandleWindow) :=
  fmap (fun a => a *f Fin (atr_multiplier s) *f Fin 1.5) (atr_series_of s df).

Definition stop_loss_long_series_of (s : DonchianStrategy) (df : CandleWindow) :=
  zip_with PyFloat.sub (column close df) (stop_distance_of s df).

Definition stop_loss_short_series_of (s : DonchianStrategy) (df : CandleWindow) :=
  zip_with PyFloat.add (column close df) (stop_distance_of s df).

Definition take_profit_long_series_of (s : DonchianStrategy) (df : CandleWindow) :=
  zip_with PyFloat.add (column close df) (profit_distance_of s df).

Definition take_profit_short_series_of (s : DonchianStrategy) (df : CandleWindow) :=
  zip_with PyFloat.sub (column close df) (profit_distance_of s df).

Definition roc_series_of (s : DonchianStrategy) (df : CandleWindow) :=
  fmap (fun x => x -f Fin 1)
       (zip_with PyFloat.div (column close df)
                 (shift (period s) (column close df))).

(** The body of [calculate_indicators] (lines 68-137): the frame is sorted
    oldest-first and the last value of every series is returned. *)
Definition calculate_indicators_body (s : DonchianStrategy) (df : CandleWindow)
  : result Indicators :=
  let df := sort_values true df in
  hh ← iloc_last (highest_high_series_of s df);
  ll ← iloc_last (lowest_low_series_of s df);
  ml ← iloc_last (middle_line_series_of s df);
  eh ← iloc_last (exit_high_series_of s df);
  el ← iloc_last (exit_low_series_of s df);
  a ← iloc_last (atr_series_of s df);
  vr ← iloc_last (volume_ratio_series_of s df);
  tu ← iloc_last (trend_up_series_of df);
  vol ← iloc_last (volatility_series_of s df);
  sll ← iloc_last (stop_loss_long_series_of s df);
  sls ← iloc_last (stop_loss_short_series_of s df);
  tpl ← iloc_last (take_profit_long_series_of s df);
  tps ← iloc_last (take_profit_short_series_of s df);
  r ← iloc_last (roc_series_of s df);
  cl ← iloc_last (column close df);
  ts ← iloc_last (fmap timestamp df);
  mret {| highest_high := hh; lowest_low := ll; middle_line := ml;
          exit_high := eh; exit_low := el; atr := a; volume_ratio := vr;
          trend_up := tu; volatility := vol;
          stop_loss_long := sll; stop_loss_short := sls;
          take_profit_long := tpl; take_profit_short := tps; roc := r;
          highest_high_series := highest_high_series_of s df;
          lowest_low_series := lowest_low_series_of s df;
          middle_line_series := middle_line_series_of s df;
          atr_series := atr_series_of s df;
          ind_close := cl; ind_timestamp := ts |}.

(** [calculate_indicators] is decorated with [@handle_errors]. *)
Definition calculate_indicators (s : DonchianStrategy) (df : CandleWindow)
  : result (option Indicators) :=
  handle_errors (calculate_indicators_body s df).

(** Python's [a and b] where evaluating [b] may raise: [b] is evaluated
    only when [a] holds. *)
Definition and_then (a : bool) (b : result bool) : result bool :=
  if a then b else Return false.

(** [previous_close <= x] and [previous_close >= x]: comparing [None] with a
    number raises TypeError. *)
Definition prev_le (previous_close : option pyfloat) (x : pyfloat) : result bool :=
  match previous_close with
  | Some p => Return (p <=f x)
  | None => Raise TypeError
  end.

Definition prev_ge (previous_close : option pyfloat) (x : pyfloat) : result bool :=
  match previous_close with
  | Some p => Return (p >=f x)
  | None => Raise TypeError
  end.

(** Strength of a buy signal (lines 185-188) and of a sell signal
    (lines 199-202). *)
Definition buy_strength (volume_ratio roc volatility : pyfloat) : pyfloat :=
  PyFloat.pymin (Fin 0.9)
    (Fin 0.5 +f volume_ratio /f Fin 10
     +f (if roc >f Fin 0 then roc *f Fin 10 else Fin 0)
     +f volatility /f Fin 100).

Definition sell_strength (volume_ratio roc volatility : pyfloat) : pyfloat :=
  PyFloat.pymin (Fin 0.9)
    (Fin 0.5 +f volume_ratio /f Fin 10
     +f (if roc <f Fin 0 then PyFloat.abs roc *f Fin 10 else Fin 0)
     +f volatility /f Fin 100).

(** The if/elif chain of lines 172-227: kind, strength and reason. *)
Definition classify (s : DonchianStrategy) (current_close : pyfloat)
    (previous_close : option pyfloat) (ind : Indicators)
  : result (SignalKind * pyfloat * SignalReason) :=
  let hh := highest_high ind in
  let ll := lowest_low ind in
  let eh := exit_high ind in
  let el := exit_low ind in
  let vr := volume_ratio ind in
  let thr := Fin (volume_threshold s) in
  is_buy ← and_then (current_close >f hh)
             (b ← prev_le previous_close hh;
              mret (b && (vr >f thr) && trend_up ind));
  if is_buy : bool
  then mret (buy, buy_strength vr (roc ind) (volatility ind),
             BreakoutAboveUpperBand hh vr)
  else
  is_sell ← and_then (current_close <f ll)
              (b ← prev_ge previous_close ll;
               mret (b && (vr >f thr) && negb (trend_up ind)));
  if is_sell : bool
  then mret (sell, sell_strength vr (roc ind) (volatility ind),
             BreakoutBelowLowerBand ll vr)
  else
  is_exit_long ← and_then (current_close <f el) (prev_ge previous_close el);
  if is_exit_long : bool
  then mret (exit_long, Fin 0.7, PriceBelowExitLow el)
  else
  is_exit_short ← and_then (current_close >f eh) (prev_le previous_close eh);
  if is_exit_short : bool
  then mret (exit_short, Fin 0.7, PriceAboveExitHigh eh)
  else if (current_close >f (hh -f atr ind *f Fin 0.5)) && (current_close <f hh)
  then mret (buy_weak, Fin 0.3, ApproachingUpperBand hh)
  else if (current_close <f (ll +f atr ind *f Fin 0.5)) && (current_close >f ll)
  then mret (sell_weak, Fin 0.3, ApproachingLowerBand ll)
  else mret (neutral, Fin 0, NoClearSignal).

(** The body of [generate_signals] (lines 151-261).  [indicators] is
    Python's [None] when the indicator computation was swallowed by its
    decorator; subscripting it raises TypeError. *)
Definition generate_signals_body (s : DonchianStrategy) (df : CandleWindow)
    (indicators : option Indicators) : result SignalDetails :=
  let df := sort_values false df in
  current ← iloc df 0;
  let current_close := Fin (close current) in
  let previous_close :=
    if 1 <? length df then (fun c => Fin (close c)) <$> (df !! 1) else None in
  ind ← match indicators with
        | Some ind => Return ind
        | None => Raise TypeError
        end;
  '(kind, str, why) ← classify s current_close previous_close ind;
  mret {| signal := kind; strength := str; reason := why;
          price := current_close;
          sd_highest_high := highest_high ind;
          sd_lowest_low := lowest_low ind;
          sd_exit_high := exit_high ind;
          sd_exit_low := exit_low ind;
          stop_loss_level :=
            if decide (kind = buy) then Some (stop_loss_long ind)
            else if decide (kind = sell) then Some (stop_loss_short ind)
            else None;
          take_profit_level :=
            if decide (kind = buy) then Some (take_profit_long ind)
            else if decide (kind = sell) then Some (take_profit_short ind)
            else None;
          sd_atr := atr ind;
          sd_volume_ratio := volume_ratio ind;
          sd_trend_up := trend_up ind;
          risk_reward_ratio := 1.5%Q;
          last_candle := Some current |}.

(** [generate_signals] is decorated with [@handle_errors]. *)
Definition generate_signals (s : DonchianStrategy) (df : CandleWindow)
    (indicators : option Indicators) : result (option SignalDetails) :=
  handle_errors (generate_signals_body s df indicators).

(** The strength that goes with each kind (lines 172-227). *)
Definition strength_matches_kind (k : SignalKind) (str : pyfloat) : Prop :=
  match k with
  | buy | sell => exists q, str = Fin q /\ (0.5 <= q /\ q <= 0.9)%Q
  | exit_long | exit_short => str = Fin 0.7
  | buy_weak | sell_weak => str = Fin 0.3
  | neutral => str = Fin 0
  end.

(** The two calls [analyze] makes on its frame (base_strategy.py, lines
    112 and 118). *)
Definition pipeline (s : DonchianStrategy) (df : CandleWindow)
  : result (option SignalDetails) :=
  ind ← calculate_indicators s df;
  generate_signals s df ind.

(** Parameters for which the rolling windows are proper windows and the
    volume confirmation asks for a positive ratio. *)
Definition well_configured (s : DonchianStrategy) : Prop :=
  0 < period s /\ 0 < exit_period s /\ 0 < atr_period s /\
  (0 <= volume_threshold s)%Q.

(** A bar whose close lies between its low and its high. *)
Definition close_within_range (c : Candle) : Prop :=
  (low c <= close c /\ close c <= high c)%Q.

(** *** Position sizing (lines 273-337), on Python floats *)

(** Python's [a / b] on floats: ZeroDivisionError for [b = 0], else the
    double nearest to the quotient. *)
Definition pydiv (a b : Q) : result Q :=
  if Qeq_bool b 0 then Raise ZeroDivisionError
  else Return (Float64.nearest (a / b)).

(** Python's [round(x, ndigits)] on a float: the exact value of [x] is
    rounded to [ndigits] decimals, a tie going to the even neighbour, and
    the double nearest to that decimal is returned. *)
Definition pyround (x : Q) (ndigits : nat) : Q :=
  let scale := inject_Z (10 ^ Z.of_nat ndigits) in
  Float64.nearest (inject_Z (Float64.round_half_even (x * scale)) / scale).

(** Python's [round(x)]: the nearest integer, as an [int]. *)
Definition pyround_int (x : Q) : Q := inject_Z (Float64.round_half_even x).

(** The rounding of lines 310-317. *)
Definition round_for_price (price position_size : Q) : Q :=
  if Qltb price 1 then pyround position_size 3
  else if Qltb price 10 then pyround position_size 2
  else if Qltb price 1000 then pyround position_size 1
  else pyround_int position_size.

(** The local [max_risk_amount] of line 303. *)
Definition max_risk_amount (account_size max_risk_percent : Q) : result Q :=
  pct ← pydiv max_risk_percent 100;
  mret (Float64.nearest (account_size * pct)).

Definition calculate_position_size (price stop_loss risk_amount : Q)
    (account_size : option Q) (max_risk_percent : Q) : result SizingResult :=
  let risk_per_unit := Qabs (Float64.nearest (price - stop_loss)) in
  if Qle_bool risk_per_unit 0
  then mret (SizingRejected 0 "Stop-Loss ist zu nah am Eintrittspreis")
  else
  size ← pydiv risk_amount risk_per_unit;
  size ← match account_size with
         | Some acc =>
             max_risk ← max_risk_amount acc max_risk_percent;
             max_size ← pydiv max_risk risk_per_unit;
             mret (if Qltb max_size size then max_size else size)
         | None => mret size
         end;
  let size := round_for_price price size in
  if Qle_bool size 0
  then mret (SizingRejected 0 "Berechnete Positionsgröße ist zu klein")
  else
  let actual_risk_amount := Float64.nearest (size * risk_per_unit) in
  risk_percent ← match account_size with
                 | Some acc =>
                     if Qeq_bool acc 0 then mret None
                     else r ← pydiv actual_risk_amount acc;
                          mret (Some (Float64.nearest (r * 100)))
                 | None => mret None
                 end;
  mret (SizingAccepted size risk_per_unit actual_risk_amount risk_percent
                       price stop_loss).

(** The sizing rule in the specification's words, read in double
    arithmetic: the risk budget divided by the stop distance, capped by
    the account's risk share over the stop distance when an account size
    is supplied, and rounded to a number of decimals that decreases with
    the price. *)
Definition size_precision (price : Q) : nat :=
  if Qltb price 1 then 3
  else if Qltb price 10 then 2
  else if Qltb price 1000 then 1
  else 0.

Definition round_to_decimals (x : Q) (decimals : nat) : Q :=
  match decimals with
  | 0 => inject_Z (Float64.round_half_even x)
  | S _ => Float64.nearest
             (inject_Z (Float64.round_half_even
                          (x * inject_Z (10 ^ Z.of_nat decimals)))
              / inject_Z (10 ^ Z.of_nat decimals))
  end.

Definition stop_distance (price stop_loss : Q) : Q :=
  Qabs (Float64.nearest (price - stop_loss)).

Definition sizing_formula (price stop_loss risk_amount : Q)
    (account_size : option Q) (max_risk_percent : Q) : Q :=
  let distance := stop_distance price stop_loss in
  let size := Float64.nearest (risk_amount / distance) in
  let capped :=
    match account_size with
    | Some acc =>
        let risk_share :=
          Float64.nearest (acc * Float64.nearest (max_risk_percent / 100)) in
        Qmin size (Float64.nearest (risk_share / distance))
    | None => size
    end in
  round_to_decimals capped (size_precision price).

(** The default [max_risk_percent=1.0]. *)
Definition default_max_risk_percent : Q := 1%Q.

End Donchian.


(** Strictly ascending values, checked pairwise. *)
Fixpoint ascending (qs : list Q) : bool :=
  match qs with
  | x :: (y :: _) as rest => Qltb x y && ascending rest
  | _ => true
  end.

(** *** Sample windows *)

(** A rising bar number [i]: it opens at its low and closes at its high. *)
Definition rising_bar (i : nat) (vol : Q) : Candle :=
  {| timestamp := 900 * Z.of_nat i;
     open := inject_Z (75 + Z.of_nat i); high := inject_Z (76 + Z.of_nat i);
     low := inject_Z (75 + Z.of_nat i); close := inject_Z (76 + Z.of_nat i);
     volume := vol |}.

(** The breakout scenario of the specification: 25 ascending bars; bar 24
    closes at 100, the high of the 20 bars before bar 25; bar 25 closes 1%
    above, at 101, on a volume of twice the 20-bar average. *)
Definition breakout_scenario : CandleWindow :=
  ((fun i => rising_bar i 9) <$> seq 1 24) ++
  [{| timestamp := 900 * 25; open := 100; high := 101; low := 100;
      close := 101; volume := 19 |}].

(** The same pattern on a slow ascent: bars 1 to 24 rise by 1 per bar to a
    close of 2500, each opening at the previous close; bar 25 closes 1%
    above, at 2525, on a volume of twice the 20-bar average. *)
Definition slow_rising_bar (i : nat) : Candle :=
  {| timestamp := 900 * Z.of_nat i;
     open := inject_Z (2475 + Z.of_nat i); high := inject_Z (2476 + Z.of_nat i);
     low := inject_Z (2475 + Z.of_nat i); close := inject_Z (2476 + Z.of_nat i);
     volume := 9 |}.

Definition slow_breakout_scenario : CandleWindow :=
  (slow_rising_bar <$> seq 1 24) ++
  [{| timestamp := 900 * 25; open := 2500; high := 2525; low := 2500;
      close := 2525; volume := 19 |}].

(** The indicators of the specification's scenario: those computed from the
    window, with the upper bound, the volume ratio and the trend filter set
    to the values the scenario states. *)
Definition with_scenario_values (bound : Q) (ind : Indicators) : Indicators :=
  {| highest_high := Fin bound;
     lowest_low := lowest_low ind;
     middle_line := middle_line ind;
     exit_high := exit_high ind;
     exit_low := exit_low ind;
     atr := atr ind;
     volume_ratio := Fin 2;
     trend_up := true;
     volatility := volatility ind;
     stop_loss_long := stop_loss_long ind;
     stop_loss_short := stop_loss_short ind;
     take_profit_long := take_profit_long ind;
     take_profit_short := take_profit_short ind;
     roc := roc ind;
     highest_high_series := highest_high_series ind;
     lowest_low_series := lowest_low_series ind;
     middle_line_series := middle_line_series ind;
     atr_series := atr_series ind;
     ind_close := ind_close ind;
     ind_timestamp := ind_timestamp ind |}.

(** Thirty bars with negative prices: each ranges from -1 to 9 and closes
    at -1; the last one reports a close of -2, below its own low, on twice
    the average volume. *)
Definition negative_price_window : CandleWindow :=
  ((fun i => {| timestamp := 900 * Z.of_nat i; open := -1; high := 9;
                low := -1; close := -1; volume := 9 |}) <$> seq 1 29) ++
  [{| timestamp := 900 * 30; open := -1; high := 9; low := -1;
      close := -2; volume := 19 |}].

(** A strategy with channels of two bars, and a window of twelve flat bars
    listed newest first, whose three newest bars carry the same timestamp:
    one at 5 followed by two at 10. *)
Definition short_donchian : DonchianStrategy :=
  {| period := 2; exit_period := 2; atr_period := 2;
     atr_multiplier := 2%Q; volume_threshold := 1.5%Q |}.

Definition flat_bar (ts : Z) (price vol : Q) : Candle :=
  {| timestamp := ts; open := price; high := price; low := price;
     close := price; volume := vol |}.

Definition tied_window : CandleWindow :=
  [flat_bar 9000 5 1; flat_bar 9000 10 1; flat_bar 9000 10 7] ++
  ((fun i => flat_bar (900 * Z.of_nat (10 - i)) 10 1) <$> seq 1 9).

(** The same scenario on 60 bars (long enough for the 50-bar average), the
    last bar reporting a high below its own close. *)
Definition corrupt_breakout_window : CandleWindow :=
  ((fun i => rising_bar i 9) <$> seq 1 59) ++
  [{| timestamp := 900 * 60; open := 135; high := 135; low := 135;
      close := 136; volume := 19 |}].

(* ===================================================================== *)
(** ** The abstract strategy and its orchestration ([BaseStrategy])        *)
(* ===================================================================== *)

(** What a caller may pass as the [df] argument of [analyze]: Python checks
    nothing, so a string is accepted by the call and fails at the first
    attribute access. *)
Inductive PyArg : Type :=
  | PyDataFrame (df : CandleWindow)
  | PyStr (s : string).

Inductive LogLevel : Type := DEBUG | INFO | WARNING | ERROR | CRITICAL.

(** The reason attached to a result under the key "error". *)
Inductive AnalysisError : Type :=
  | TooFewData (available required : nat).  (* "Zu wenig Daten: .. vorhanden, .. erforderlich" *)

(** The value under the key "indicators": the empty dictionary of the two
    early returns, or whatever the indicator computation returned. *)
Inductive IndicatorsField (I : Type) : Type :=
  | EmptyDict
  | Computed (v : option I).
Arguments EmptyDict {I}.
Arguments Computed {I} v.

Record AnalysisResult (I : Type) : Type := mkAnalysisResult {
  res_signal : SignalKind;
  res_strength : pyfloat;
  res_indicators : IndicatorsField I;
  res_timestamp : Z;
  res_symbol : string;
  res_timeframe : string;
  res_strategy : string;
  res_error : option AnalysisError
}.
Arguments mkAnalysisResult {I}.
Arguments res_signal {I}.
Arguments res_strength {I}.
Arguments res_indicators {I}.
Arguments res_timestamp {I}.
Arguments res_symbol {I}.
Arguments res_timeframe {I}.
Arguments res_strategy {I}.
Arguments res_error {I}.

(** A concrete strategy: the two abstract methods (which may raise, and
    which return Python's [None] when they swallow their own errors), the
    overridable minimum, and how the orchestration reads the signal
    dictionary ([signals.get("signal")], [signals.get("strength")]). *)
Record Strategy (I S : Type) : Type := mkStrategy {
  name : string;
  timeframe : string;
  get_min_required_candles : nat;
  calculate_indicators : CandleWindow -> result (option I);
  generate_signals : CandleWindow -> option I -> result (option S);
  get_signal : S -> option SignalKind;
  get_strength : S -> option pyfloat
}.
Arguments mkStrategy {I S}.
Arguments name {I S}.
Arguments timeframe {I S}.
Arguments get_min_required_candles {I S}.
Arguments calculate_indicators {I S}.
Arguments generate_signals {I S}.
Arguments get_signal {I S}.
Arguments get_strength {I S}.

(** Messages written to the strategy's logger by [analyze]. *)
Inductive LogMessage : Type :=
  | EmptyDataFrame (symbol : string)                      (* "Leerer DataFrame fuer .., keine Analyse moeglich" *)
  | NotEnoughData (symbol : string) (available required : nat)
  | AnalysisLogged (symbol : string) (kind : SignalKind) (str : pyfloat).

(** What happened during a call, in order: log records and the invocations
    of the two abstract methods. *)
Inductive Event (I : Type) : Type :=
  | Logged (level : LogLevel) (msg : LogMessage)
  | CalledCalculateIndicators (df : CandleWindow)
  | CalledGenerateSignals (df : CandleWindow) (indicators : option I).
Arguments Logged {I} level msg.
Arguments CalledCalculateIndicators {I} df.
Arguments CalledGenerateSignals {I} df indicators.

(** The mutable attributes of a strategy object: the three per-symbol
    dictionaries of [__init__], and the trace of events. *)
Record StrategyState (I S : Type) : Type := mkState {
  indicators : gmap string (option I);
  cached_signals : gmap string (option S);
  last_update_time : gmap string Z;
  trace : list (Event I)
}.
Arguments mkState {I S}.
Arguments indicators {I S}.
Arguments cached_signals {I S}.
Arguments last_update_time {I S}.
Arguments trace {I S}.

Module BaseStrategy.
Section WithStrategy.
Context {I Sg : Type}.
Variable self : Strategy I Sg.

Definition initial_state : StrategyState I Sg :=
  {| indicators := ∅; cached_signals := ∅; last_update_time := ∅; trace := [] |}.

Definition emit (ev : Event I) (st : StrategyState I Sg) : StrategyState I Sg :=
  {| indicators := indicators st; cached_signals := cached_signals st;
     last_update_time := last_update_time st; trace := trace st ++ [ev] |}.

Definition neutral_result (symbol : string) (now : Z)
    (err : option AnalysisError) : AnalysisResult I :=
  {| res_signal := neutral; res_strength := Fin 0;
     res_indicators := EmptyDict; res_timestamp := now;
     res_symbol := symbol; res_timeframe := timeframe self;
     res_strategy := name self; res_error := err |}.

(** The body of [analyze] (lines 77-140); [now] is the clock reading of
    [datetime.now()]. *)
Definition analyze_body (st : StrategyState I Sg) (df : PyArg)
    (symbol : string) (now : Z)
  : StrategyState I Sg * result (AnalysisResult I) :=
  match df with
  | PyStr _ => (st, Raise AttributeError)          (* [df.empty] on a str *)
  | PyDataFrame df =>
    match df with
    | [] =>
        (emit (Logged WARNING (EmptyDataFrame symbol)) st,
         Return (neutral_result symbol now None))
    | _ :: _ =>
    let min_required_candles := get_min_required_candles self in
    if length df <? min_required_candles
    then
      (emit (Logged WARNING
               (NotEnoughData symbol (length df) min_required_candles)) st,
       Return (neutral_result symbol now
                 (Some (TooFewData (length df) min_required_candles))))
    else
    let df := Pandas.sort_values false df in
    let st := emit (CalledCalculateIndicators df) st in
    match calculate_indicators self df with
    | Raise e => (st, Raise e)
    | Return ind =>
    let st := {| indicators := <[symbol := ind]> (indicators st);
                 cached_signals := cached_signals st;
                 last_update_time := last_update_time st;
                 trace := trace st |} in
    let st := emit (CalledGenerateSignals df ind) st in
    match generate_signals self df ind with
    | Raise e => (st, Raise e)
    | Return signals =>
    let st := {| indicators := indicators st;
                 cached_signals := <[symbol := signals]> (cached_signals st);
                 last_update_time := <[symbol := now]> (last_update_time st);
                 trace := trace st |} in
    match signals with
    | None => (st, Raise AttributeError)           (* [signals.get] on None *)
    | Some sg =>
    let kind := default neutral (get_signal self sg) in
    let str := default (Fin 0) (get_strength self sg) in
    (emit (Logged INFO (AnalysisLogged symbol kind str)) st,
     Return {| res_signal := kind; res_strength := str;
               res_indicators := Computed ind; res_timestamp := now;
               res_symbol := symbol; res_timeframe := timeframe self;
               res_strategy := name self; res_error := None |})
    end end end end
  end.

(** [analyze] as callers see it: decorated with [@handle_errors] over
    [@log_execution_time()] (lines 64-65). *)
Definition analyze (st : StrategyState I Sg) (df : PyArg)
    (symbol : string) (now : Z)
  : StrategyState I Sg * result (option (AnalysisResult I)) :=
  let '(st', r) := analyze_body st df symbol now in
  (st', handle_errors (log_execution_time r)).

Definition get_cached_signal (st : StrategyState I Sg) (symbol : string)
  : option (option Sg) :=
  cached_signals st !! symbol.

End WithStrategy.
End BaseStrategy.

(** *** Multi-timeframe confirmation (lines 373-446)

    The method's own log lines and the per-timeframe "indicators"
    sub-dictionary (always empty: none of its four keys occurs in a result
    of [analyze]) are left out. *)

Record TimeframeDetail : Type := mkTimeframeDetail {
  tf_signal : SignalKind;
  tf_confirmed : bool
}.

(** The returned dictionary; a key that the returned dictionary does not
    have is [None] here. *)
Record Confirmation : Type := mkConfirmation {
  confirmed : bool;
  confidence : option Q;
  confirmations : option nat;
  total_timeframes : option nat;
  details : option (list (string * TimeframeDetail));
  conf_error : option PyExc
}.

Module MultiTimeframe.
Section WithAnalyze.
Context {I Sg : Type}.

(** [self.analyze], the method the loop calls. *)
Variable analyze_method :
  StrategyState I Sg -> PyArg -> string -> Z ->
  StrategyState I Sg * result (option (AnalysisResult I)).

Definition intervals : list string := ["15"; "60"; "240"; "D"].

(** [intervals.index(x)] when [x in intervals]. *)
Fixpoint index_of (x : string) (l : list string) : option nat :=
  match l with
  | [] => None
  | y :: l' => if decide (x = y) then Some 0 else S <$> index_of x l'
  end.

Definition check_intervals (base_interval : string) : list string :=
  match index_of base_interval intervals with
  | Some base_idx => drop (base_idx + 1) intervals
  | None => drop 1 intervals
  end.

(** Line 411: a timeframe confirms when its signal is the base kind or
    neutral. *)
Definition confirms (signal_type interval_signal : SignalKind) : bool :=
  bool_decide (interval_signal = signal_type)
  || bool_decide (interval_signal = neutral).

(** One round of the for loop (lines 406-424). *)
Definition check_one (symbol : string) (signal_type : SignalKind) (now : Z)
    (acc : StrategyState I Sg * nat * list (string * TimeframeDetail))
    (interval : string)
  : result (StrategyState I Sg * nat * list (string * TimeframeDetail)) :=
  let '(st, count, dets) := acc in
  let '(st, r) := analyze_method st (PyStr symbol) interval now in
  res ← r;
  match res with
  | None => Raise AttributeError                  (* [result.get] on None *)
  | Some res =>
      let interval_signal := res_signal res in
      let is_confirmed := confirms signal_type interval_signal in
      mret (st,
            if is_confirmed then count + 1 else count,
            dets ++ [(interval, {| tf_signal := interval_signal;
                                   tf_confirmed := is_confirmed |})])
  end.

Fixpoint check_loop (symbol : string) (signal_type : SignalKind) (now : Z)
    (acc : StrategyState I Sg * nat * list (string * TimeframeDetail))
    (todo : list string)
  : result (StrategyState I Sg * nat * list (string * TimeframeDetail)) :=
  match todo with
  | [] => mret acc
  | interval :: todo' =>
      acc' ← check_one symbol signal_type now acc interval;
      check_loop symbol signal_type now acc' todo'
  end.

(** The [try] block (lines 387-442). *)
Definition check_body (st : StrategyState I Sg) (symbol base_interval : string)
    (signal_type : SignalKind) (now : Z) : result Confirmation :=
  let selected := check_intervals base_interval in
  match selected with
  | [] =>
      mret {| confirmed := true; confidence := None; confirmations := Some 0;
              total_timeframes := None; details := Some [];
              conf_error := None |}
  | _ :: _ =>
      '(_, count, dets) ← check_loop symbol signal_type now (st, 0, []) selected;
      let confirmation_ratio :=
        (inject_Z (Z.of_nat count) / inject_Z (Z.of_nat (length selected)))%Q in
      mret {| confirmed := Qle_bool 0.5 confirmation_ratio;
              confidence := Some confirmation_ratio;
              confirmations := Some count;
              total_timeframes := Some (length selected);
              details := Some dets;
              conf_error := None |}
  end.

(** The whole method: any exception becomes a not-confirmed result carrying
    the error (lines 444-446). *)
Definition check_multi_timeframe_confirmation (st : StrategyState I Sg)
    (symbol base_interval : string) (signal_type : SignalKind) (now : Z)
  : Confirmation :=
  match check_body st symbol base_interval signal_type now with
  | Return c => c
  | Raise e =>
      {| confirmed := false; confidence := None; confirmations := None;
         total_timeframes := None; details := None; conf_error := Some e |}
  end.

End WithAnalyze.
End MultiTimeframe.

(** The channel-breakout strategy as an instance of the abstract strategy;
    it inherits [analyze] and the confirmation from the base class. *)
Definition donchian (s : DonchianStrategy) (tf : string)
  : Strategy Indicators SignalDetails :=
  {| name := "DonchianChannel";
     timeframe := tf;
     get_min_required_candles := Donchian.get_min_required_candles s;
     calculate_indicators := Donchian.calculate_indicators s;
     generate_signals := Donchian.generate_signals s;
     get_signal := fun d => Some (signal d);
     get_strength := fun d => Some (strength d) |}.

(* ===================================================================== *)
(** ** The connection monitor ([BybitWebSocket._monitor_connection])       *)
(* ===================================================================== *)

Module Monitor.

(** What one pass of the [while self.is_running] loop observes. *)
Inductive Observation : Type :=
  | Stopped                         (* [is_running] is false: the loop ends *)
  | Connected (current_time : Q)    (* the socket is connected *)
  | Reconnected (current_time : Q)  (* not connected, [connect()] returned True *)
  | ReconnectFailed                 (* not connected, [connect()] returned False *)
  | Crashed.                        (* an exception reached the [except] clause
                                       before the counter was touched *)

Inductive LogRecord : Type :=
  | NotConnected                    (* warning: "WebSocket nicht verbunden, ..." *)
  | ReconnectSucceeded              (* info *)
  | ReconnectFailure (attempts max_failures : nat)   (* error *)
  | ConnectionGivenUp (max_failures : nat)           (* critical *)
  | MonitorError.                   (* error: "Fehler im WebSocket-Monitor" *)

Definition level_of (r : LogRecord) : LogLevel :=
  match r with
  | NotConnected => WARNING
  | ReconnectSucceeded => INFO
  | ReconnectFailure _ _ => ERROR
  | ConnectionGivenUp _ => CRITICAL
  | MonitorError => ERROR
  end.

Inductive Action : Type :=
  | Log (r : LogRecord)
  | Connect                         (* a call of [self.connect()] *)
  | SendPing
  | Sleep (seconds : nat).

Record Config : Type := mkConfig {
  reconnect_interval : nat;
  ping_interval : Q;
  max_consecutive_failures : nat
}.

(** The values set in [__init__] and at the top of the loop. *)
Definition default_config : Config :=
  {| reconnect_interval := 30; ping_interval := 20%Q;
     max_consecutive_failures := 5 |}.

Record MonitorState : Type := mkMonitorState {
  reconnect_attempts : nat;
  last_ping_time : Q;
  exited : bool
}.

Definition initial_state : MonitorState :=
  {| reconnect_attempts := 0; last_ping_time := 0%Q; exited := false |}.

(** The heartbeat part of a pass (lines 201-208). *)
Definition heartbeat (cfg : Config) (attempts : nat) (last_ping current_time : Q)
  : MonitorState * list Action :=
  if Qltb (ping_interval cfg) (current_time - last_ping)
  then ({| reconnect_attempts := attempts; last_ping_time := current_time;
           exited := false |}, [SendPing; Sleep 10])
  else ({| reconnect_attempts := attempts; last_ping_time := last_ping;
           exited := false |}, [Sleep 10]).

(** One pass of the loop (lines 169-212). *)
Definition step (cfg : Config) (st : MonitorState) (o : Observation)
  : MonitorState * list Action :=
  match o with
  | Stopped =>
      ({| reconnect_attempts := reconnect_attempts st;
          last_ping_time := last_ping_time st; exited := true |}, [])
  | Connected current_time =>
      heartbeat cfg (reconnect_attempts st) (last_ping_time st) current_time
  | Reconnected current_time =>
      let '(st', acts) := heartbeat cfg 0 (last_ping_time st) current_time in
      (st', [Log NotConnected; Connect; Log ReconnectSucceeded] ++ acts)
  | ReconnectFailed =>
      let attempts := reconnect_attempts st + 1 in
      let m := max_consecutive_failures cfg in
      ({| reconnect_attempts := attempts;
          last_ping_time := last_ping_time st; exited := false |},
       [Log NotConnected; Connect; Log (ReconnectFailure attempts m)] ++
       (if m <=? attempts
        then [Log (ConnectionGivenUp m); Sleep (reconnect_interval cfg * 2)]
        else [Sleep (reconnect_interval cfg)]))
  | Crashed =>
      ({| reconnect_attempts := reconnect_attempts st;
          last_ping_time := last_ping_time st; exited := false |},
       [Log MonitorError; Sleep (reconnect_interval cfg)])
  end.

(** The loop over a finite prefix of observations; nothing happens once the
    loop has ended. *)
Fixpoint run (cfg : Config) (st : MonitorState) (obs : list Observation)
  : MonitorState * list Action :=
  match obs with
  | [] => (st, [])
  | o :: obs' =>
      if exited st then (st, [])
      else
        let '(st1, acts1) := step cfg st o in
        let '(st2, acts2) := run cfg st1 obs' in
        (st2, acts1 ++ acts2)
  end.

Definition sleeps (acts : list Action) : list nat :=
  omap (fun a => match a with Sleep n => Some n | _ => None end) acts.

(** The sleep after a failed reconnect that brought the counter to [k]
    (lines 192-197). *)
Definition failure_sleep (cfg : Config) (k : nat) : nat :=
  if max_consecutive_failures cfg <=? k
  then reconnect_interval cfg * 2
  else reconnect_interval cfg.

Definition is_connect (a : Action) : bool :=
  match a with Connect => true | _ => false end.

Definition is_critical (a : Action) : bool :=
  match a with
  | Log r => match level_of r with CRITICAL => true | _ => false end
  | _ => false
  end.

(** Number of reconnect attempts and of critical-level reports in a trace. *)
Definition connects (acts : list Action) : nat :=
  length (List.filter is_connect acts).

Definition criticals (acts : list Action) : nat :=
  length (List.filter is_critical acts).

End Monitor.


(* ===================================================================== *)
(** ** Strategies and windows used as concrete inputs                      *)
(* ===================================================================== *)

(** The channel-breakout strategy run on a frame that lacks a column: the
    column access raises KeyError inside [calculate_indicators], whose
    decorator turns it into [None]. *)
Definition donchian_on_frame_without_column (s : DonchianStrategy) (tf : string)
  : Strategy Indicators SignalDetails :=
  {| name := "DonchianChannel";
     timeframe := tf;
     get_min_required_candles := Donchian.get_min_required_candles s;
     calculate_indicators := fun _ => handle_errors (Raise KeyError);
     generate_signals := Donchian.generate_signals s;
     get_signal := fun d => Some (signal d);
     get_strength := fun d => Some (strength d) |}.

(** The channel-breakout strategy with the body of its indicator
    computation as a parameter: [calculate_indicators] is that body under
    [@handle_errors], so whatever the body raises on the frame it is given
    is swallowed there (a frame of the model always has every column and
    numeric entries; a real frame may not). *)
Definition donchian_with (s : DonchianStrategy) (tf : string)
    (indicators_body : CandleWindow -> result Indicators)
  : Strategy Indicators SignalDetails :=
  {| name := "DonchianChannel";
     timeframe := tf;
     get_min_required_candles := Donchian.get_min_required_candles s;
     calculate_indicators := fun df => handle_errors (indicators_body df);
     generate_signals := Donchian.generate_signals s;
     get_signal := fun d => Some (signal d);
     get_strength := fun d => Some (strength d) |}.

(** A subclass with undecorated methods: the indicator is the newest close,
    the signal compares the price change per unit of it, and the division
    raises ZeroDivisionError on a zero close. *)
Definition momentum_strategy : Strategy Q SignalKind :=
  {| name := "Momentum";
     timeframe := "15m";
     get_min_required_candles := 20;
     calculate_indicators := fun df =>
       match df with
       | c :: _ => Return (Some (close c))
       | [] => Raise IndexError
       end;
     generate_signals := fun df ind =>
       match ind with
       | Some q =>
           change ← Donchian.pydiv 1 q;
           mret (Some (if Qltb 0 change then buy else sell))
       | None => Raise TypeError
       end;
     get_signal := fun k => Some k;
     get_strength := fun _ => Some (Fin 0.5) |}.

(** Thirty flat bars closing at [price]. *)
Definition flat_window (price : Q) : CandleWindow :=
  (fun i => {| timestamp := 900 * Z.of_nat i; open := price; high := price;
               low := price; close := price; volume := 1 |}) <$> seq 1 30.

(** A stand-in for [analyze] that answers each timeframe with a fixed
    signal kind. *)
Definition scripted_analyze {I Sg : Type} (answers : string -> SignalKind)
  : StrategyState I Sg -> PyArg -> string -> Z ->
    StrategyState I Sg * result (option (AnalysisResult I)) :=
  fun st _ interval now =>
    (st, Return (Some {| res_signal := answers interval;
                         res_strength := Fin 0;
                         res_indicators := EmptyDict;
                         res_timestamp := now;
                         res_symbol := interval;
                         res_timeframe := interval;
                         res_strategy := "scripted";
                         res_error := None |})).

(** A partial update of a symbol's cached state by one call of [analyze]:
    the state after the call holds the indicators computed by this call
    next to the signal entry and the update time that were there before the
    call.  The specification states that this never happens. *)
Definition partially_updated {I Sg : Type}
    (before after : StrategyState I Sg) (symbol : string)
    (computed : option I) : Prop :=
  indicators after !! symbol = Some computed /\
  indicators before !! symbol <> Some computed /\
  cached_signals after !! symbol = cached_signals before !! symbol /\
  last_update_time after !! symbol = last_update_time before !! symbol.


(* ===================================================================== *)
(** ** The rest of the signal cache ([BaseStrategy], lines 162-212)        *)
(* ===================================================================== *)

Module StrategyCache.
Section WithTypes.
Context {I Sg : Type}.

(** [should_update] (lines 173-177); [now] is the clock reading of
    [datetime.now()] in seconds, like the readings [analyze] stores. *)
Definition should_update (st : StrategyState I Sg) (symbol : string)
    (max_age_seconds now : Z) : bool :=
  match last_update_time st !! symbol with
  | None => true
  | Some t => bool_decide (max_age_seconds <= now - t)%Z
  end.

Definition cleared (st : StrategyState I Sg) : StrategyState I Sg :=
  {| indicators := ∅; cached_signals := ∅; last_update_time := ∅;
     trace := trace st |}.

(** [clear_cache] (lines 198-212).  The branch is taken on the truth value
    of [symbol]: [None] and the empty string both clear everything.  The
    debug record it writes is not part of the trace. *)
Definition clear_cache (st : StrategyState I Sg) (symbol : option string)
  : StrategyState I Sg :=
  match symbol with
  | Some s =>
      if decide (s = EmptyString) then cleared st
      else {| indicators := delete s (indicators st);
              cached_signals := delete s (cached_signals st);
              last_update_time := delete s (last_update_time st);
              trace := trace st |}
  | None => cleared st
  end.

End WithTypes.
End StrategyCache.

(* ===================================================================== *)
(** ** The other decorators ([decorators.py], lines 48-218)                *)
(* ===================================================================== *)

Module Decorators.

(** [allowed_exceptions]: [None], or a dictionary from exception types to
    flags.  An exception type is represented by its [isinstance] test. *)
Definition AllowedExceptions : Type := option (list ((PyExc -> bool) * bool)).

(** [should_retry] (lines 70-77). *)
Definition should_retry (allowed_exceptions : AllowedExceptions) (e : PyExc)
  : bool :=
  match allowed_exceptions with
  | None => true
  | Some items =>
      existsb (fun '(isinstance, should_retry_flag) =>
                 isinstance e && should_retry_flag) items
  end.

(** What one run of a wrapper did: what it returned or raised, how many
    times it called the wrapped function, and the sleeps in order. *)
Record Run (A : Type) : Type := mkRun {
  outcome : result A;
  calls : nat;
  slept : list Q
}.
Arguments mkRun {A}.
Arguments outcome {A}.
Arguments calls {A}.
Arguments slept {A}.

Section Retry.
Context {A : Type}.

(** The wrapped function: the outcome of the call made in attempt [k]. *)
Variable func : nat -> result A.
Variable max_attempts : nat.
Variable delay : Q.
Variable exponential_backoff : bool.
Variable allowed_exceptions : AllowedExceptions.

(** [delay * (2 ** (attempt - 1))] or [delay] (lines 96-99). *)
Definition current_delay (attempt : nat) : Q :=
  if exponential_backoff
  then (delay * inject_Z (2 ^ Z.of_nat (attempt - 1)))%Q
  else delay.

(** The for loop over [range(1, max_attempts + 1)] and the final
    [raise last_exception] (lines 79-109).  [time.sleep] raises ValueError
    on a negative length; raising [None] is a TypeError. *)
Fixpoint attempts (todo : list nat) (last_exception : option PyExc) : Run A :=
  match todo with
  | [] =>
      {| outcome := match last_exception with
                    | Some e => Raise e
                    | None => Raise TypeError
                    end;
         calls := 0; slept := [] |}
  | attempt :: rest =>
      match func attempt with
      | Return a => {| outcome := Return a; calls := 1; slept := [] |}
      | Raise e =>
          if negb (should_retry allowed_exceptions e)
          then {| outcome := Raise e; calls := 1; slept := [] |}
          else if attempt =? max_attempts
          then {| outcome := Raise e; calls := 1; slept := [] |}
          else if Qltb (current_delay attempt) 0
          then {| outcome := Raise ValueError; calls := 1; slept := [] |}
          else
            let r := attempts rest (Some e) in
            {| outcome := outcome r; calls := S (calls r);
               slept := current_delay attempt :: slept r |}
      end
  end.

Definition retry : Run A := attempts (seq 1 max_attempts) None.

(** An attempt after which the loop does not go on: the call returns, or
    its exception is not to be retried, or it is the last attempt. *)
Definition stops_at (attempt : nat) : bool :=
  match func attempt with
  | Return _ => true
  | Raise e =>
      negb (should_retry allowed_exceptions e) || (attempt =? max_attempts)
  end.

End Retry.

(** *** [safe_api_call] (lines 148-218) *)

(** A Python value as the wrapper looks at it: [None], a dictionary, of
    which it reads the integer under "retCode" and the value under
    "result", or a value it does not look into (a response that is neither
    [None] nor a dictionary, or what a "result" entry holds).  A key may be
    absent; the value under "result" may itself be [None]. *)
Inductive ResultEntry (P : Type) : Type :=
  | EntryNone                       (* the value [None] *)
  | EntryValue (p : P).
Arguments EntryNone {P}.
Arguments EntryValue {P} p.

Inductive PyValue (P : Type) : Type :=
  | PyNone
  | JsonDict (retCode : option Z) (result_field : option (ResultEntry P))
  | Opaque (v : P).
Arguments PyNone {P}.
Arguments JsonDict {P} retCode result_field.
Arguments Opaque {P} v.

(** [response.get("result", response)]. *)
Definition get_result {P : Type} (retCode : option Z)
    (result_field : option (ResultEntry P)) : PyValue P :=
  match result_field with
  | Some (EntryValue p) => Opaque p
  | Some EntryNone => PyNone
  | None => JsonDict retCode result_field
  end.

(** The [except] clause (lines 206-216): its first statement reads
    [func.__name__] without the guard that the [try] block uses, so for a
    callable without that attribute the clause itself raises
    AttributeError; otherwise it returns [None]. *)
Definition on_exception {P : Type} (has_name : bool) : result (PyValue P) :=
  if has_name then Return PyNone else Raise AttributeError.

(** [has_name] tells whether the wrapped callable has a [__name__];
    [first] is the outcome of the call of line 170, [second] the outcome of
    the repeated call of line 196, which is returned as it comes. *)
Definition safe_api_call {P : Type} (has_name : bool)
    (first second : result (PyValue P)) : Run (PyValue P) :=
  match first with
  | Raise _ => {| outcome := on_exception has_name; calls := 1; slept := [] |}
  | Return (JsonDict (Some code) res) =>
      if (code =? 0)%Z
      then {| outcome := Return (get_result (Some code) res);
              calls := 1; slept := [] |}
      else if (code =? 10001)%Z
      then {| outcome := Return PyNone; calls := 1; slept := [] |}
      else if (code =? 10003)%Z
      then {| outcome := Return PyNone; calls := 1; slept := [] |}
      else if (code =? 10006)%Z || (code =? 10016)%Z
      then {| outcome := match second with
                         | Return r => Return r
                         | Raise _ => on_exception has_name
                         end;
              calls := 2; slept := [2%Q] |}
      else {| outcome := Return PyNone; calls := 1; slept := [] |}
  | Return response =>
      {| outcome := Return response; calls := 1; slept := [] |}
  end.

(** A return code that makes the wrapper repeat the call. *)
Definition is_rate_limit (code : Z) : bool :=
  (code =? 10006)%Z || (code =? 10016)%Z.

End Decorators.

(* ===================================================================== *)
(** ** Subscriptions and dispatch ([BybitWebSocket], lines 50-160, 227-445) *)
(* ===================================================================== *)

(** The string operations the socket uses on topics. *)
Module PyStr.

Definition dot : Ascii.ascii :=
  match "."%string with
  | String c _ => c
  | EmptyString => Ascii.zero
  end.

(** [s.startswith(p)]. *)
Definition startswith (s p : string) : bool := String.prefix p s.

(** [s.split(".")]: the pieces between the dots, at least one piece. *)
Fixpoint split (s : string) : list string :=
  match s with
  | EmptyString => [EmptyString]
  | String c s' =>
      if Ascii.eqb c dot then EmptyString :: split s'
      else match split s' with
           | piece :: pieces => String c piece :: pieces
           | [] => [String c EmptyString]
           end
  end.

(** [s.split(".", 1)[1] if "." in s else None]: what follows the first dot. *)
Fixpoint after_first_dot (s : string) : option string :=
  match s with
  | EmptyString => None
  | String c s' => if Ascii.eqb c dot then Some s' else after_first_dot s'
  end.

(** [".".join(pieces)]. *)
Fixpoint join (pieces : list string) : string :=
  match pieces with
  | [] => EmptyString
  | [piece] => piece
  | piece :: rest => piece +:+ "." +:+ join rest
  end.

(** ["." in s]. *)
Fixpoint has_dot (s : string) : bool :=
  match s with
  | EmptyString => false
  | String c s' => Ascii.eqb c dot || has_dot s'
  end.

End PyStr.

Module WebSocket.

(** The stream methods of the pybit connection object. *)
Inductive Stream : Type :=
  | PositionStream
  | ExecutionStream
  | OrderStream
  | WalletStream
  | TickerStream (symbol : string)
  | KlineStream (interval symbol : string).

(** A pybit connection object: whether each stream call returns (or
    raises), and whether its socket reports connected when [connect]
    checks it. *)
Record Connection : Type := mkConnection {
  stream_ok : Stream -> bool;
  sock_connected : bool
}.

(** A callback is an opaque handler. *)
Definition Callback : Type := nat.

(** The attributes of the socket object.  [opened] records the stream
    calls that returned on the current connection object, in order. *)
Record Socket : Type := mkSocket {
  websocket_class : bool;           (* [self.WebSocket] is not [None] *)
  ws : option Connection;
  opened : list Stream;
  callbacks : gmap string Callback;
  topics : gset string;
  is_running : bool;
  monitor_alive : bool              (* a monitor thread is set and alive *)
}.

Definition with_callback (sock : Socket) (topic : string) (cb : Callback)
  : Socket :=
  {| websocket_class := websocket_class sock; ws := ws sock;
     opened := opened sock;
     callbacks := <[topic := cb]> (callbacks sock);
     topics := topics sock; is_running := is_running sock;
     monitor_alive := monitor_alive sock |}.

Definition with_opened (sock : Socket) (s : Stream) : Socket :=
  {| websocket_class := websocket_class sock; ws := ws sock;
     opened := opened sock ++ [s];
     callbacks := callbacks sock;
     topics := topics sock; is_running := is_running sock;
     monitor_alive := monitor_alive sock |}.

Definition with_topic (sock : Socket) (topic : string) : Socket :=
  {| websocket_class := websocket_class sock; ws := ws sock;
     opened := opened sock;
     callbacks := callbacks sock;
     topics := {[topic]} ∪ topics sock; is_running := is_running sock;
     monitor_alive := monitor_alive sock |}.

Definition without_topic (sock : Socket) (topic : string) : Socket :=
  {| websocket_class := websocket_class sock; ws := ws sock;
     opened := opened sock;
     callbacks := delete topic (callbacks sock);
     topics := topics sock ∖ {[topic]}; is_running := is_running sock;
     monitor_alive := monitor_alive sock |}.

(** Where the if/elif chain of lines 270-295 sends a topic. *)
Inductive Route : Type :=
  | ToStream (s : Stream)
  | InvalidTicker                   (* "Ungueltiges Ticker-Topic" *)
  | InvalidKline                    (* "Ungueltiges Kline-Topic" *)
  | UnknownFormat.                  (* "Unbekanntes Topic-Format" *)

Definition route_topic (topic : string) : Route :=
  if PyStr.startswith topic "position" then ToStream PositionStream
  else if PyStr.startswith topic "execution" then ToStream ExecutionStream
  else if PyStr.startswith topic "order" then ToStream OrderStream
  else if PyStr.startswith topic "wallet" then ToStream WalletStream
  else if PyStr.startswith topic "ticker" then
    match PyStr.after_first_dot topic with
    | Some (String c rest) => ToStream (TickerStream (String c rest))
    | Some EmptyString | None => InvalidTicker
    end
  else if PyStr.startswith topic "kline" then
    match PyStr.split topic with
    | [_; interval; symbol] => ToStream (KlineStream interval symbol)
    | _ => InvalidKline
    end
  else UnknownFormat.

(** [_subscribe_topic] (lines 260-302): the callback is stored before the
    topic is looked at; a stream call that raises ends in the [except]
    clause. *)
Definition _subscribe_topic (sock : Socket) (topic : string)
    (callback : option Callback) : Socket * bool :=
  match ws sock with
  | None => (sock, false)
  | Some conn =>
      let sock :=
        match callback with
        | Some cb => with_callback sock topic cb
        | None => sock
        end in
      match route_topic topic with
      | ToStream s =>
          if stream_ok conn s then (with_opened sock s, true)
          else (sock, false)
      | InvalidTicker | InvalidKline | UnknownFormat => (sock, false)
      end
  end.

(** The for loop of [subscribe] (lines 239-247). *)
Fixpoint subscribe_loop (sock : Socket) (todo : list string)
    (callback : option Callback) (success : bool) : Socket * bool :=
  match todo with
  | [] => (sock, success)
  | topic :: rest =>
      let '(sock, topic_success) := _subscribe_topic sock topic callback in
      let success := success && topic_success in
      let sock := if topic_success then with_topic sock topic else sock in
      subscribe_loop sock rest callback success
  end.

(** [subscribe] (lines 235-247). *)
Definition subscribe (sock : Socket) (new_topics : list string)
    (callback : option Callback) : Socket * bool :=
  match ws sock with
  | None => (sock, false)
  | Some _ => subscribe_loop sock new_topics callback true
  end.

(** [unsubscribe] (lines 311-333): nothing is sent to the server. *)
Definition unsubscribe (sock : Socket) (old_topics : list string)
  : Socket * bool :=
  match ws sock with
  | None => (sock, false)
  | Some _ => (foldl without_topic sock old_topics, true)
  end.

(** [close] (lines 337-363): whatever [exit] does, the connection object is
    dropped and the monitor is told to stop. *)
Definition close (sock : Socket) : Socket * bool :=
  ({| websocket_class := websocket_class sock; ws := None;
      opened := match ws sock with Some _ => [] | None => opened sock end;
      callbacks := callbacks sock; topics := topics sock;
      is_running := false; monitor_alive := monitor_alive sock |},
   true).

(** An update message: the values under [message["data"]["symbol"]] and
    [message["data"]["interval"]], when present. *)
Record Message : Type := mkMessage {
  data_symbol : option string;
  data_interval : option string
}.

(** The handlers (lines 367-445) return nothing; what they do is invoke at
    most one stored callback, which is the value here. *)
Definition _on_position_update (sock : Socket) (message : Message)
  : option Callback := callbacks sock !! "position".

Definition _on_execution_update (sock : Socket) (message : Message)
  : option Callback := callbacks sock !! "execution".

Definition _on_order_update (sock : Socket) (message : Message)
  : option Callback := callbacks sock !! "order".

Definition _on_wallet_update (sock : Socket) (message : Message)
  : option Callback := callbacks sock !! "wallet".

Definition _on_ticker_update (sock : Socket) (message : Message)
  : option Callback :=
  let symbol := default "unknown" (data_symbol message) in
  callbacks sock !! ("ticker." +:+ symbol).

Definition _on_kline_update (sock : Socket) (message : Message)
  : option Callback :=
  let symbol := default "unknown" (data_symbol message) in
  let interval := default "unknown" (data_interval message) in
  callbacks sock !! ("kline." +:+ interval +:+ "." +:+ symbol).

(** The handler a stream call registers (lines 271-289). *)
Definition handler_of (s : Stream) : Socket -> Message -> option Callback :=
  match s with
  | PositionStream => _on_position_update
  | ExecutionStream => _on_execution_update
  | OrderStream => _on_order_update
  | WalletStream => _on_wallet_update
  | TickerStream _ => _on_ticker_update
  | KlineStream _ _ => _on_kline_update
  end.

(** What the constructor of the connection class does when [connect]
    calls it with the signed arguments, and, after a TypeError, with the
    minimal ones. *)
Inductive Construction : Type :=
  | Constructed (c : Connection)
  | ConstructorTypeError (retry : option Connection)   (* [None]: it raises again *)
  | ConstructorError.

(** [connect] (lines 57-160).  The signature and expiry only feed the
    constructor; the sleeps and the [exit] of the old connection change no
    attribute. *)
Definition connect (env : Construction) (sock : Socket) : Socket * bool :=
  if negb (websocket_class sock) then (sock, false)
  else
    let current_topics := elements (topics sock) in
    match env with
    | Constructed c =>
        let sock :=
          {| websocket_class := websocket_class sock; ws := Some c;
             opened := []; callbacks := callbacks sock;
             topics := topics sock; is_running := is_running sock;
             monitor_alive := monitor_alive sock |} in
        if negb (sock_connected c) then (sock, false)
        else
          let sock :=
            foldl (fun s topic => (_subscribe_topic s topic None).1)
                  sock current_topics in
          let sock :=
            if monitor_alive sock then sock
            else {| websocket_class := websocket_class sock; ws := ws sock;
                    opened := opened sock; callbacks := callbacks sock;
                    topics := topics sock; is_running := true;
                    monitor_alive := true |} in
          (sock, true)
    | ConstructorTypeError (Some c) =>
        ({| websocket_class := websocket_class sock; ws := Some c;
            opened := []; callbacks := callbacks sock;
            topics := topics sock; is_running := is_running sock;
            monitor_alive := monitor_alive sock |}, true)
    | ConstructorTypeError None => (sock, false)
    | ConstructorError => (sock, false)
    end.

(** The stream a topic opens on a connection, when the stream call
    returns: the topics for which [_subscribe_topic] answers [True]. *)
Definition stream_on (conn : Connection) (topic : string) : option Stream :=
  match route_topic topic with
  | ToStream s => if stream_ok conn s then Some s else None
  | InvalidTicker | InvalidKline | UnknownFormat => None
  end.

Definition accepted (conn : Connection) (topic : string) : bool :=
  bool_decide (is_Some (stream_on conn topic)).

(** What the registration map holds after the loop of [subscribe]. *)
Definition stored (callback : option Callback) (todo : list string)
    (before : gmap string Callback) (t : string) : option Callback :=
  match callback with
  | Some cb => if bool_decide (t ∈ todo) then Some cb else before !! t
  | None => before !! t
  end.

(** The four private streams and the one key their handlers look up. *)
Definition private_key (s : Stream) : option string :=
  match s with
  | PositionStream => Some "position"
  | ExecutionStream => Some "execution"
  | OrderStream => Some "order"
  | WalletStream => Some "wallet"
  | TickerStream _ | KlineStream _ _ => None
  end.

End WebSocket.

(** A connection on which every stream call returns, and a freshly
    connected socket with nothing registered. *)
Definition open_connection : WebSocket.Connection :=
  {| WebSocket.stream_ok := fun _ => true; WebSocket.sock_connected := true |}.

(** A connection that refuses the ticker stream, and a socket without a
    connection or a monitor that has three topics registered, one of them of
    an unknown format. *)
Definition selective_connection : WebSocket.Connection :=
  {| WebSocket.stream_ok := fun s =>
       match s with WebSocket.TickerStream _ => false | _ => true end;
     WebSocket.sock_connected := true |}.

Definition registered_socket : WebSocket.Socket :=
  {| WebSocket.websocket_class := true;
     WebSocket.ws := None;
     WebSocket.opened := [];
     WebSocket.callbacks := {["order" := 1]};
     WebSocket.topics := {["order"; "ticker.BTCUSDT"; "depth.BTCUSDT"]};
     WebSocket.is_running := false;
     WebSocket.monitor_alive := false |}.

(** The same registrations on a connected socket whose monitor runs. *)
Definition monitored_socket : WebSocket.Socket :=
  {| WebSocket.websocket_class := true;
     WebSocket.ws := Some selective_connection;
     WebSocket.opened := [WebSocket.OrderStream];
     WebSocket.callbacks := {["order" := 1]};
     WebSocket.topics := {["order"; "ticker.BTCUSDT"; "depth.BTCUSDT"]};
     WebSocket.is_running := true;
     WebSocket.monitor_alive := true |}.

Definition fresh_socket : WebSocket.Socket :=
  {| WebSocket.websocket_class := true;
     WebSocket.ws := Some open_connection;
     WebSocket.opened := [];
     WebSocket.callbacks := ∅;
     WebSocket.topics := ∅;
     WebSocket.is_running := true;
     WebSocket.monitor_alive := true |}.

(** Kinds of observations of the monitor loop. *)
Module MonitorObs.

Definition is_failure (o : Monitor.Observation) : bool :=
  match o with Monitor.ReconnectFailed => true | _ => false end.

Definition is_stop (o : Monitor.Observation) : bool :=
  match o with Monitor.Stopped => true | _ => false end.

(** Neither a successful reconnect nor the end of the loop. *)
Definition no_reset (o : Monitor.Observation) : bool :=
  match o with
  | Monitor.Reconnected _ | Monitor.Stopped => false
  | _ => true
  end.

End MonitorObs.

(* ===================================================================== *)
(** * Properties                                                           *)
(* ===================================================================== *)

(** ** Rational comparisons as booleans *)

Lemma Qltb_true (x y : Q) : Qltb x y = true <-> (x < y)%Q.
Proof.
  unfold Qltb. rewrite negb_true_iff.
  split; intros H.
  - apply Qnot_le_lt. intros Hle. apply Qle_bool_iff in Hle. congruence.
  - destruct (Qle_bool y x) eqn:E; [|reflexivity].
    apply Qle_bool_iff in E. exfalso. apply (Qlt_not_le x y); assumption.
Qed.

Lemma Qltb_false (x y : Q) : Qltb x y = false <-> (y <= x)%Q.
Proof.
  unfold Qltb. rewrite negb_false_iff. apply Qle_bool_iff.
Qed.

Lemma Qle_bool_false (x y : Q) : Qle_bool x y = false <-> (y < x)%Q.
Proof.
  split; intros H.
  - apply Qnot_le_lt. intros Hle. apply Qle_bool_iff in Hle. congruence.
  - destruct (Qle_bool x y) eqn:E; [|reflexivity].
    apply Qle_bool_iff in E. exfalso. apply (Qlt_not_le y x); assumption.
Qed.

Lemma Qeq_bool_false (x y : Q) : Qeq_bool x y = false <-> ~ (x == y)%Q.
Proof.
  split; intros H.
  - intros Heq. apply Qeq_bool_iff in Heq. congruence.
  - destruct (Qeq_bool x y) eqn:E; [|reflexivity].
    apply Qeq_bool_iff in E. contradiction.
Qed.

(** Turns every boolean comparison on rationals in the context and the goal
    into its proposition. *)
Ltac qbool :=
  repeat match goal with
  | H : Qltb _ _ = true |- _ => apply Qltb_true in H
  | H : Qltb _ _ = false |- _ => apply Qltb_false in H
  | H : Qle_bool _ _ = true |- _ => apply Qle_bool_iff in H
  | H : Qle_bool _ _ = false |- _ => apply Qle_bool_false in H
  | H : Qeq_bool _ _ = true |- _ => apply Qeq_bool_iff in H
  | H : Qeq_bool _ _ = false |- _ => apply Qeq_bool_false in H
  | |- Qltb _ _ = true => apply Qltb_true
  | |- Qltb _ _ = false => apply Qltb_false
  | |- Qle_bool _ _ = true => apply Qle_bool_iff
  | |- Qle_bool _ _ = false => apply Qle_bool_false
  | |- Qeq_bool _ _ = true => apply Qeq_bool_iff
  | |- Qeq_bool _ _ = false => apply Qeq_bool_false
  end.

(** ** Sorting by timestamp *)

Section Sorting.
Import Pandas.

Lemma insert_row_perm asc c df : insert_row asc c df ≡ₚ c :: df.
Proof.
  induction df as [|d df IH]; simpl; [reflexivity|].
  destruct (if asc then _ else _); [reflexivity|].
  rewrite IH. apply Permutation_swap.
Qed.

Lemma sort_values_perm asc df : sort_values asc df ≡ₚ df.
Proof.
  induction df as [|c df IH]; simpl; [reflexivity|].
  unfold sort_values in IH. rewrite insert_row_perm, IH. reflexivity.
Qed.

Lemma sort_values_length asc df : length (sort_values asc df) = length df.
Proof. apply Permutation_length, sort_values_perm. Qed.

Lemma insert_row_sorted asc c df :
  StronglySorted (in_order asc) df ->
  StronglySorted (in_order asc) (insert_row asc c df).
Proof.
  induction 1 as [|d df Hs IH Hall]; simpl.
  - repeat constructor.
  - destruct (if asc then _ else _) eqn:E.
    + constructor; [constructor; assumption|].
      assert (Hcd : in_order asc c d).
      { unfold in_order. destruct asc; lia. }
      constructor; [assumption|].
      eapply Forall_impl; [exact Hall|].
      intros e He. unfold in_order in *. destruct asc; lia.
    + constructor; [assumption|].
      rewrite insert_row_perm. constructor; [|assumption].
      unfold in_order. destruct asc; lia.
Qed.

Lemma sort_values_sorted asc df :
  StronglySorted (in_order asc) (sort_values asc df).
Proof.
  induction df as [|c df IH]; simpl; [constructor|].
  apply insert_row_sorted, IH.
Qed.

(** The first row of a frame sorted newest-first is a newest row. *)
Lemma sort_desc_head df c :
  head (sort_values false df) = Some c ->
  c ∈ df /\ forall d, d ∈ df -> (timestamp d <= timestamp c)%Z.
Proof.
  intros Hh.
  pose proof (sort_values_sorted false df) as Hs.
  pose proof (sort_values_perm false df) as Hp.
  destruct (sort_values false df) as [|c' l]; simplify_eq/=.
  split.
  - rewrite <- Hp. left.
  - intros d Hd. rewrite <- Hp in Hd.
    apply elem_of_cons in Hd as [->|Hd]; [lia|].
    apply StronglySorted_inv in Hs as [_ Hall].
    rewrite Forall_forall in Hall. apply (Hall d Hd).
Qed.

Lemma sorted_asc_last l c :
  StronglySorted (in_order true) l -> last l = Some c ->
  forall d, d ∈ l -> (timestamp d <= timestamp c)%Z.
Proof.
  induction 1 as [|x l Hs IH Hall]; intros Hl d Hd; [inversion Hd|].
  destruct l as [|y l'].
  - simpl in Hl. simplify_eq. apply list_elem_of_singleton in Hd as ->. lia.
  - rewrite last_cons_cons in Hl.
    apply elem_of_cons in Hd as [->|Hd]; [|apply IH; assumption].
    rewrite Forall_forall in Hall.
    apply (Hall c). apply last_Some_elem_of. assumption.
Qed.

(** The last row of a frame sorted oldest-first is a newest row. *)
Lemma sort_asc_last df c :
  last (sort_values true df) = Some c ->
  c ∈ df /\ forall d, d ∈ df -> (timestamp d <= timestamp c)%Z.
Proof.
  intros Hl.
  pose proof (sort_values_perm true df) as Hp.
  split.
  - rewrite <- Hp. apply last_Some_elem_of. assumption.
  - intros d Hd. rewrite <- Hp in Hd.
    eapply sorted_asc_last; eauto using sort_values_sorted.
Qed.

Lemma NoDup_timestamp_inj (df : CandleWindow) c d :
  NoDup (fmap timestamp df) -> c ∈ df -> d ∈ df ->
  timestamp c = timestamp d -> c = d.
Proof.
  induction df as [|x df IH]; intros Hnd Hc Hd Heq; [inversion Hc|].
  simpl in Hnd. apply NoDup_cons in Hnd as [Hx Hnd].
  apply elem_of_cons in Hc as [->|Hc]; apply elem_of_cons in Hd as [->|Hd].
  - reflexivity.
  - exfalso. apply Hx. rewrite Heq. apply list_elem_of_fmap. eauto.
  - exfalso. apply Hx. rewrite <- Heq. apply list_elem_of_fmap. eauto.
  - apply IH; assumption.
Qed.

(** With pairwise distinct timestamps, the row that [generate_signals]
    reads as current is the row whose indicator values
    [calculate_indicators] returns. *)
Lemma newest_row_unique df c d :
  NoDup (fmap timestamp df) ->
  head (sort_values false df) = Some c ->
  last (sort_values true df) = Some d ->
  c = d.
Proof.
  intros Hnd Hc Hd.
  apply sort_desc_head in Hc as [Hc Hcmax].
  apply sort_asc_last in Hd as [Hd Hdmax].
  apply (NoDup_timestamp_inj df); try assumption.
  pose proof (Hcmax d Hd). pose proof (Hdmax c Hc). lia.
Qed.

End Sorting.

(** ** Rolling windows *)

Section Rolling.
Import Pandas.

Lemma last_seq_0 n : last (seq 0 n) = match n with 0 => None | S k => Some k end.
Proof.
  destruct n as [|k]; [reflexivity|].
  rewrite seq_S. apply last_snoc.
Qed.

Lemma rolling_length n agg xs : length (rolling n agg xs) = length xs.
Proof. unfold rolling. rewrite length_fmap. apply length_seq. Qed.

(** The value of a rolling aggregate at the last row. *)
Lemma rolling_last n agg xs :
  last (rolling n agg xs) =
  match length xs with
  | 0 => None
  | S i =>
      Some (if (0 <? n) && (n <=? S i)
            then match finite_values (take n (drop (S i - n) xs)) with
                 | Some w => Fin (agg w)
                 | None => NaN
                 end
            else NaN)
  end.
Proof.
  unfold rolling. rewrite fmap_last, last_seq_0.
  destruct (length xs); reflexivity.
Qed.

Lemma finite_values_Fin (qs : list Q) : finite_values (Fin <$> qs) = Some qs.
Proof.
  unfold finite_values.
  induction qs as [|q qs IH]; [reflexivity|].
  cbn. cbn in IH. rewrite IH. reflexivity.
Qed.

Lemma column_Fin f df : Donchian.column f df = Fin <$> (f <$> df).
Proof. unfold Donchian.column. rewrite <- list_fmap_compose. reflexivity. Qed.

(** The rolling aggregate of a column at the last row: missing when the
    frame is shorter than the window, otherwise the aggregate of the last
    [n] values. *)
Lemma rolling_last_column n agg f df x :
  last (rolling n agg (Donchian.column f df)) = Some x ->
  x = NaN \/
  (0 < n <= length df /\
   x = Fin (agg (drop (length df - n) (f <$> df)))).
Proof.
  rewrite rolling_last, column_Fin, !length_fmap.
  destruct (length df) as [|i] eqn:Hlen; [discriminate|].
  intros [= <-].
  destruct (0 <? n) eqn:E1; [|left; reflexivity].
  destruct (n <=? S i) eqn:E2; [|left; reflexivity].
  apply Nat.ltb_lt in E1. apply Nat.leb_le in E2. right.
  split; [lia|]. simpl.
  rewrite <- fmap_drop, <- fmap_take, finite_values_Fin.
  rewrite take_ge; [reflexivity|].
  rewrite length_drop, length_fmap. lia.
Qed.

Lemma last_in_suffix {A} (l : list A) k x :
  k < length l -> last l = Some x -> x ∈ drop k l.
Proof.
  intros Hk Hl. apply last_Some in Hl as [l' ->].
  rewrite length_app in Hk. simpl in Hk.
  rewrite drop_app_le by lia.
  apply elem_of_app. right. left.
Qed.

Lemma foldl_Qmax_ge (w : list Q) x : (x <= foldl Qmax x w)%Q.
Proof.
  revert x. induction w as [|y w IH]; intros x; simpl; [apply Qle_refl|].
  eapply Qle_trans; [|apply IH]. apply Q.le_max_l.
Qed.

Lemma foldl_Qmax_elem (w : list Q) x y : y ∈ w -> (y <= foldl Qmax x w)%Q.
Proof.
  revert x. induction w as [|z w IH]; intros x Hy; [inversion Hy|].
  simpl. apply elem_of_cons in Hy as [->|Hy]; [|apply IH; assumption].
  eapply Qle_trans; [|apply foldl_Qmax_ge]. apply Q.le_max_r.
Qed.

Lemma qmax_list_ge (w : list Q) y : y ∈ w -> (y <= qmax_list w)%Q.
Proof.
  destruct w as [|x w]; intros Hy; [inversion Hy|].
  simpl. apply elem_of_cons in Hy as [->|Hy].
  - apply foldl_Qmax_ge.
  - apply foldl_Qmax_elem. assumption.
Qed.

Lemma foldl_Qmin_le (w : list Q) x : (foldl Qmin x w <= x)%Q.
Proof.
  revert x. induction w as [|y w IH]; intros x; simpl; [apply Qle_refl|].
  eapply Qle_trans; [apply IH|]. apply Q.le_min_l.
Qed.

Lemma foldl_Qmin_elem (w : list Q) x y : y ∈ w -> (foldl Qmin x w <= y)%Q.
Proof.
  revert x. induction w as [|z w IH]; intros x Hy; [inversion Hy|].
  simpl. apply elem_of_cons in Hy as [->|Hy]; [|apply IH; assumption].
  eapply Qle_trans; [apply foldl_Qmin_le|]. apply Q.le_min_r.
Qed.

Lemma qmin_list_le (w : list Q) y : y ∈ w -> (qmin_list w <= y)%Q.
Proof.
  destruct w as [|x w]; intros Hy; [inversion Hy|].
  simpl. apply elem_of_cons in Hy as [->|Hy].
  - apply foldl_Qmin_le.
  - apply foldl_Qmin_elem. assumption.
Qed.

(** The upper channel bound at the last row is missing or at least the
    last row's high; the lower bound is missing or at most its low. *)
Lemma rolling_max_last n f df c x :
  last df = Some c ->
  last (rolling n qmax_list (Donchian.column f df)) = Some x ->
  x = NaN \/ exists m, x = Fin m /\ (f c <= m)%Q.
Proof.
  intros Hc Hx. apply rolling_last_column in Hx as [->|[Hn ->]]; [left; reflexivity|].
  right. eexists; split; [reflexivity|].
  apply qmax_list_ge, last_in_suffix.
  - rewrite length_fmap. lia.
  - rewrite fmap_last, Hc. reflexivity.
Qed.

Lemma rolling_min_last n f df c x :
  last df = Some c ->
  last (rolling n qmin_list (Donchian.column f df)) = Some x ->
  x = NaN \/ exists m, x = Fin m /\ (m <= f c)%Q.
Proof.
  intros Hc Hx. apply rolling_last_column in Hx as [->|[Hn ->]]; [left; reflexivity|].
  right. eexists; split; [reflexivity|].
  apply qmin_list_le, last_in_suffix.
  - rewrite length_fmap. lia.
  - rewrite fmap_last, Hc. reflexivity.
Qed.

End Rolling.

(** ** The indicator set of the channel-breakout strategy *)

Section IndicatorSet.
Import Pandas.

Lemma shift_length n xs : length (shift n xs) = length xs.
Proof.
  unfold shift. rewrite length_take, length_app, length_replicate. lia.
Qed.

Lemma last_zip_with {A B C} (f : A -> B -> C) l k :
  length l = length k ->
  last (zip_with f l k) =
  match last l, last k with
  | Some x, Some y => Some (f x y)
  | _, _ => None
  end.
Proof.
  revert k. induction l as [|x l IH]; intros [|y k] Hlen; simplify_eq/=.
  - reflexivity.
  - destruct l as [|x' l], k as [|y' k]; simplify_eq/=; [reflexivity|].
    specialize (IH (y' :: k)). simpl in IH. rewrite IH by (f_equal; assumption).
    reflexivity.
Qed.

Lemma column_length f df : length (Donchian.column f df) = length df.
Proof. apply length_fmap. Qed.

Lemma true_range_length df : length (Donchian.true_range df) = length df.
Proof.
  unfold Donchian.true_range, row_max3.
  rewrite !length_zip_with, !length_fmap, !length_zip_with, shift_length,
    !column_length.
  lia.
Qed.

Lemma atr_series_length s df : length (Donchian.atr_series_of s df) = length df.
Proof.
  unfold Donchian.atr_series_of. rewrite rolling_length. apply true_range_length.
Qed.

(** Rewrites the length of every indicator series to the length of the frame. *)
Ltac series_length :=
  unfold Donchian.middle_line_series_of, Donchian.exit_high_series_of,
    Donchian.exit_low_series_of, Donchian.volume_ratio_series_of,
    Donchian.trend_up_series_of, Donchian.volatility_series_of,
    Donchian.stop_loss_long_series_of, Donchian.stop_loss_short_series_of,
    Donchian.take_profit_long_series_of, Donchian.take_profit_short_series_of,
    Donchian.stop_distance_of, Donchian.profit_distance_of,
    Donchian.roc_series_of;
  unfold Donchian.highest_high_series_of, Donchian.lowest_low_series_of;
  repeat first
    [ rewrite length_fmap | rewrite length_zip_with | rewrite rolling_length
    | rewrite shift_length | rewrite atr_series_length
    | rewrite column_length ];
  try lia.

Lemma iloc_last_Return {A} (xs : list A) x :
  iloc_last xs = Return x <-> last xs = Some x.
Proof.
  unfold iloc_last. destruct (last xs); split; intros H; simplify_eq; reflexivity.
Qed.

Lemma iloc_last_nonempty {A} (xs : list A) :
  0 < length xs -> exists x, iloc_last xs = Return x.
Proof.
  intros Hlen. unfold iloc_last.
  destruct (last xs) as [x|] eqn:E; [eauto|].
  apply last_None in E. subst. simpl in Hlen. lia.
Qed.

(** The fields of a computed indicator set are the last values of the
    series over the frame sorted oldest-first. *)
Lemma calculate_indicators_body_fields s df ind :
  Donchian.calculate_indicators_body s df = Return ind ->
  let sorted := sort_values true df in
  last (Donchian.highest_high_series_of s sorted) = Some (highest_high ind) /\
  last (Donchian.lowest_low_series_of s sorted) = Some (lowest_low ind) /\
  last (Donchian.exit_high_series_of s sorted) = Some (exit_high ind) /\
  last (Donchian.exit_low_series_of s sorted) = Some (exit_low ind) /\
  last (Donchian.atr_series_of s sorted) = Some (atr ind) /\
  last (Donchian.volume_ratio_series_of s sorted) = Some (volume_ratio ind) /\
  last (Donchian.trend_up_series_of sorted) = Some (trend_up ind) /\
  last (Donchian.volatility_series_of s sorted) = Some (volatility ind) /\
  last (Donchian.stop_loss_long_series_of s sorted) = Some (stop_loss_long ind) /\
  last (Donchian.roc_series_of s sorted) = Some (roc ind).
Proof.
  unfold Donchian.calculate_indicators_body. intros H.
  repeat match type of H with
  | (mbind _ (iloc_last ?xs)) = _ =>
      let E := fresh "E" in
      destruct (iloc_last xs) eqn:E; simpl in H; [discriminate|];
      apply iloc_last_Return in E
  end.
  injection H as <-. simpl. repeat split; assumption.
Qed.

(** On a non-empty frame the indicator computation does not raise. *)
Lemma calculate_indicators_body_total s df :
  df <> [] -> exists ind, Donchian.calculate_indicators_body s df = Return ind.
Proof.
  intros Hne.
  assert (Hlen : 0 < length (sort_values true df)).
  { rewrite sort_values_length. destruct df; [congruence|simpl; lia]. }
  unfold Donchian.calculate_indicators_body.
  repeat match goal with
  | |- exists _, (mbind _ (iloc_last ?xs)) = _ =>
      let E := fresh "E" in
      destruct (iloc_last_nonempty xs) as [? E];
      [series_length | rewrite E; simpl]
  end.
  eexists. reflexivity.
Qed.

End IndicatorSet.

(** ** Signal generation of the channel-breakout strategy *)

Section SignalGeneration.
Import Pandas.

Lemma gt_channel_bound (c m : Q) (x : pyfloat) :
  x = NaN \/ (exists b, x = Fin b /\ (m <= b)%Q) -> (c <= m)%Q ->
  (Fin c >f x) = false.
Proof.
  intros [->|(b & -> & Hb)] Hc; [reflexivity|].
  unfold PyFloat.gt, PyFloat.lt. qbool. lra.
Qed.

Lemma lt_channel_bound (c m : Q) (x : pyfloat) :
  x = NaN \/ (exists b, x = Fin b /\ (b <= m)%Q) -> (m <= c)%Q ->
  (Fin c <f x) = false.
Proof.
  intros [->|(b & -> & Hb)] Hc; [reflexivity|].
  unfold PyFloat.lt. qbool. lra.
Qed.

(** When the close is inside both channels no comparison with the previous
    close is evaluated, and only the two weak kinds and neutral remain. *)
Lemma classify_inside_channels s cc prev ind :
  (cc >f highest_high ind) = false ->
  (cc <f lowest_low ind) = false ->
  (cc <f exit_low ind) = false ->
  (cc >f exit_high ind) = false ->
  exists k str why,
    Donchian.classify s cc prev ind = Return (k, str, why) /\
    (k = buy_weak \/ k = sell_weak \/ k = neutral).
Proof.
  intros H1 H2 H3 H4. unfold Donchian.classify.
  rewrite H1, H2, H3, H4. simpl.
  repeat case_match; eauto 10.
Qed.

(** What a successful [generate_signals_body] returns. *)
Lemma generate_signals_body_Some s df ind cur k str why :
  head (sort_values false df) = Some cur ->
  Donchian.classify s (Fin (close cur))
    (if 1 <? length (sort_values false df)
     then (fun c => Fin (close c)) <$> (sort_values false df !! 1)
     else None) ind = Return (k, str, why) ->
  exists d,
    Donchian.generate_signals_body s df (Some ind) = Return d /\
    signal d = k /\ strength d = str /\
    stop_loss_level d =
      (if decide (k = buy) then Some (stop_loss_long ind)
       else if decide (k = sell) then Some (stop_loss_short ind) else None).
Proof.
  intros Hcur Hcl. unfold Donchian.generate_signals_body, iloc.
  rewrite <- head_lookup, Hcur. simpl. rewrite Hcl. simpl.
  eexists. split; [reflexivity|]. simpl. auto.
Qed.

(** On a window of bars whose close lies within the bar's range and whose
    timestamps are pairwise distinct, the current close is inside both
    channels: the rolling bounds include the current bar. *)
Lemma current_close_inside_channels s df ind cur :
  Forall Donchian.close_within_range df ->
  NoDup (timestamp <$> df) ->
  Donchian.calculate_indicators_body s df = Return ind ->
  head (sort_values false df) = Some cur ->
  (Fin (close cur) >f highest_high ind) = false /\
  (Fin (close cur) <f lowest_low ind) = false /\
  (Fin (close cur) <f exit_low ind) = false /\
  (Fin (close cur) >f exit_high ind) = false.
Proof.
  intros Hwf Hnd Hind Hcur.
  apply calculate_indicators_body_fields in Hind
    as (Hhh & Hll & Heh & Hel & _).
  assert (Hlast : last (sort_values true df) = Some cur).
  { destruct (last (sort_values true df)) as [c'|] eqn:E.
    - f_equal. symmetry. eapply newest_row_unique; eauto.
    - apply last_None in E.
      pose proof (sort_values_length true df) as L1.
      pose proof (sort_values_length false df) as L2.
      rewrite E in L1. destruct (sort_values false df); simplify_eq/=. lia. }
  assert (Hin : cur ∈ df).
  { rewrite <- (sort_values_perm true df). apply last_Some_elem_of, Hlast. }
  rewrite Forall_forall in Hwf. destruct (Hwf cur Hin) as [Hlo Hhi].
  repeat split.
  - eapply gt_channel_bound; [|exact Hhi].
    eapply rolling_max_last; [exact Hlast|exact Hhh].
  - eapply lt_channel_bound; [|exact Hlo].
    eapply rolling_min_last; [exact Hlast|exact Hll].
  - eapply lt_channel_bound; [|exact Hlo].
    eapply rolling_min_last; [exact Hlast|exact Hel].
  - eapply gt_channel_bound; [|exact Hhi].
    eapply rolling_max_last; [exact Hlast|exact Heh].
Qed.

(** The kinds a window of well-formed bars can produce. *)
Lemma pipeline_on_well_formed_window s df :
  Forall Donchian.close_within_range df ->
  NoDup (timestamp <$> df) ->
  df <> [] ->
  exists d, Donchian.pipeline s df = Return (Some d) /\
            (signal d = buy_weak \/ signal d = sell_weak \/ signal d = neutral).
Proof.
  intros Hwf Hnd Hne.
  destruct (calculate_indicators_body_total s df Hne) as [ind Hind].
  destruct (head (sort_values false df)) as [cur|] eqn:Hcur.
  2:{ apply head_None in Hcur.
      pose proof (sort_values_length false df) as L. rewrite Hcur in L.
      destruct df; simplify_eq/=. }
  destruct (current_close_inside_channels s df ind cur Hwf Hnd Hind Hcur)
    as (H1 & H2 & H3 & H4).
  edestruct (classify_inside_channels s (Fin (close cur))) as (k & str & why & Hcl & Hk);
    [exact H1|exact H2|exact H3|exact H4|].
  destruct (generate_signals_body_Some s df ind cur k str why Hcur Hcl)
    as (d & Hd & Hsig & _).
  exists d. split; [|rewrite Hsig; exact Hk].
  unfold Donchian.pipeline, Donchian.calculate_indicators,
    Donchian.generate_signals.
  rewrite Hind. simpl. rewrite Hd. reflexivity.
Qed.

End SignalGeneration.

(** ** Average true range and volatility *)

Section Volatility.
Import Pandas.

Lemma shift_lookup n xs i y :
  n <= i -> shift n xs !! i = Some y -> xs !! (i - n) = Some y.
Proof.
  unfold shift. intros Hi H. rewrite lookup_take in H.
  case_decide; [|discriminate].
  rewrite lookup_app_r in H by (rewrite length_replicate; lia).
  rewrite length_replicate in H. exact H.
Qed.

Lemma column_lookup f df i x :
  Donchian.column f df !! i = Some x -> exists c, df !! i = Some c /\ x = Fin (f c).
Proof.
  unfold Donchian.column. rewrite list_lookup_fmap.
  intros H. apply fmap_Some in H as (c & Hc & ->). eauto.
Qed.

Lemma nanmax2_Fin_ge a b :
  exists m, nanmax2 (Fin a) (Fin b) = Fin m /\ (a <= m)%Q /\ (b <= m)%Q.
Proof.
  unfold nanmax2, PyFloat.lt. destruct (Qltb a b) eqn:E; qbool.
  - exists b. repeat split; lra.
  - exists a. repeat split; lra.
Qed.

(** From the second row on, the true range is finite and not negative. *)
Lemma true_range_nonneg df i x :
  1 <= i -> Donchian.true_range df !! i = Some x ->
  exists t, x = Fin t /\ (0 <= t)%Q.
Proof.
  intros Hi. unfold Donchian.true_range, row_max3.
  intros H.
  apply lookup_zip_with_Some in H as (ab & c & -> & Hab & Hc).
  apply lookup_zip_with_Some in Hab as (a & b & -> & Ha & Hb).
  apply lookup_zip_with_Some in Ha as (h & l & -> & Hh & Hl).
  rewrite list_lookup_fmap in Hb, Hc.
  destruct (zip_with PyFloat.sub (Donchian.column high df) _ !! i)
    as [b'|] eqn:Eb; simplify_eq/=.
  destruct (zip_with PyFloat.sub (Donchian.column low df) _ !! i)
    as [c'|] eqn:Ec; simplify_eq/=.
  apply lookup_zip_with_Some in Eb as (h2 & p & -> & Hh2 & Hp).
  apply lookup_zip_with_Some in Ec as (l2 & p2 & -> & Hl2 & Hp2).
  apply shift_lookup in Hp; [|exact Hi].
  apply shift_lookup in Hp2; [|exact Hi].
  apply column_lookup in Hh as (? & _ & ->).
  apply column_lookup in Hl as (? & _ & ->).
  apply column_lookup in Hh2 as (? & _ & ->).
  apply column_lookup in Hl2 as (? & _ & ->).
  apply column_lookup in Hp as (? & _ & ->).
  apply column_lookup in Hp2 as (? & _ & ->).
  cbn [PyFloat.sub PyFloat.add PyFloat.neg PyFloat.abs].
  match goal with
  | |- context [nanmax2 (nanmax2 (Fin ?a) (Fin (Qabs ?e))) (Fin ?c)] =>
      destruct (nanmax2_Fin_ge a (Qabs e)) as (m1 & -> & _ & Hm1);
      destruct (nanmax2_Fin_ge m1 c) as (m2 & -> & Hm2 & _);
      exists m2; split; [reflexivity|];
      pose proof (Qabs_nonneg e)
  end.
  lra.
Qed.

Lemma finite_values_Forall (P : Q -> Prop) xs w :
  finite_values xs = Some w ->
  (forall x, x ∈ xs -> exists t, x = Fin t /\ P t) ->
  Forall P w.
Proof.
  unfold finite_values. intros H Hall.
  apply mapM_Some in H.
  induction H as [|x q xs w Hx _ IH]; [constructor|].
  constructor.
  - destruct (Hall x) as (t & -> & Ht); [left|]. simplify_eq. exact Ht.
  - apply IH. intros y Hy. apply Hall. right. exact Hy.
Qed.

Lemma foldl_Qplus_nonneg (w : list Q) a :
  Forall (Qle 0) w -> (a <= foldl Qplus a w)%Q.
Proof.
  intros H. revert a. induction H as [|x w Hx _ IH]; intros a; simpl.
  - apply Qle_refl.
  - eapply Qle_trans; [|apply IH]. lra.
Qed.

Lemma qmean_nonneg (w : list Q) : Forall (Qle 0) w -> (0 <= qmean w)%Q.
Proof.
  intros H. unfold qmean, qsum.
  pose proof (foldl_Qplus_nonneg w 0 H) as Hsum.
  destruct w as [|x w]; [simpl; unfold Qdiv; simpl; lra|].
  apply Qle_shift_div_l; [|lra].
  replace 0%Q with (inject_Z 0) by reflexivity.
  rewrite <- Zlt_Qlt. simpl. lia.
Qed.

(** The average true range at the last row is missing or not negative as
    soon as its window does not reach back to the first row. *)
Lemma atr_last_not_negative s df a :
  atr_period s < length df ->
  last (Donchian.atr_series_of s df) = Some a ->
  a = NaN \/ exists q, a = Fin q /\ (0 <= q)%Q.
Proof.
  intros Hlen. unfold Donchian.atr_series_of.
  rewrite rolling_last, true_range_length.
  destruct (length df) as [|i] eqn:Hl; [discriminate|].
  intros [= <-].
  destruct (_ && _); [|left; reflexivity].
  destruct (finite_values _) as [w|] eqn:Hw; [|left; reflexivity].
  right. eexists; split; [reflexivity|].
  apply qmean_nonneg.
  eapply finite_values_Forall; [exact Hw|].
  intros x Hx. apply list_elem_of_lookup in Hx as [j Hj].
  rewrite lookup_take in Hj. case_decide; [|discriminate].
  rewrite lookup_drop in Hj.
  eapply true_range_nonneg; [|exact Hj]. lia.
Qed.

(** With a positive current close the volatility is missing or not
    negative. *)
Lemma volatility_last_not_negative s df c v :
  atr_period s < length df ->
  last df = Some c -> (0 < close c)%Q ->
  last (Donchian.volatility_series_of s df) = Some v ->
  v = NaN \/ exists q, v = Fin q /\ (0 <= q)%Q.
Proof.
  intros Hlen Hc Hpos. unfold Donchian.volatility_series_of.
  rewrite fmap_last, last_zip_with
    by (rewrite atr_series_length, column_length; reflexivity).
  unfold Donchian.column at 1. rewrite fmap_last, Hc. simpl.
  destruct (last (Donchian.atr_series_of s df)) as [a|] eqn:Ha; [|discriminate].
  intros [= <-].
  destruct (atr_last_not_negative s df a Hlen Ha) as [->|(q & -> & Hq)];
    [left; reflexivity|].
  right. simpl.
  destruct (Qeq_bool (close c) 0) eqn:E; qbool; [lra|].
  eexists; split; [reflexivity|].
  apply Qmult_le_0_compat; [|lra].
  apply Qle_shift_div_l; lra.
Qed.

End Volatility.

(** ** Signal strength *)

Section Strength.

Lemma div_by_10 x :
  x /f Fin 10 = match x with Fin v => Fin (v / 10)%Q | y => y end.
Proof. destruct x; reflexivity. Qed.

Lemma div_by_100 x :
  x /f Fin 100 = match x with Fin v => Fin (v / 100)%Q | y => y end.
Proof. destruct x; reflexivity. Qed.

Lemma mul_by_10 x :
  x *f Fin 10 = match x with Fin v => Fin (v * 10)%Q | y => y end.
Proof. destruct x; reflexivity. Qed.

Lemma at_least_add b x y : PyFloat.at_least b x -> PyFloat.at_least 0 y -> PyFloat.at_least b (x +f y).
Proof.
  destruct x, y; simpl; try tauto. intros. lra.
Qed.

Lemma at_least_weaken b b' x : (b' <= b)%Q -> PyFloat.at_least b x -> PyFloat.at_least b' x.
Proof. destruct x; simpl; try tauto. intros. lra. Qed.

(** [min(0.9, x)] of a value that is missing, infinite or at least [b]. *)
Lemma pymin_cap b x :
  (b <= 0.9)%Q -> PyFloat.at_least b x ->
  exists q, PyFloat.pymin (Fin 0.9) x = Fin q /\ (b <= q /\ q <= 0.9)%Q.
Proof.
  intros Hb Hx. unfold PyFloat.pymin.
  destruct x as [v| | |]; simpl in *; try tauto.
  - destruct (Qltb v 0.9) eqn:E; qbool.
    + exists v. repeat split; lra.
    + exists 0.9%Q. repeat split; lra.
  - exists 0.9%Q. repeat split; lra.
  - exists 0.9%Q. repeat split; lra.
Qed.

Lemma volume_term_at_least thr vr :
  (0 <= thr)%Q -> (vr >f Fin thr) = true -> PyFloat.at_least 0 (vr /f Fin 10).
Proof.
  intros Hthr. rewrite div_by_10. unfold PyFloat.gt, PyFloat.lt.
  destruct vr as [v| | |]; simpl; try discriminate; try tauto.
  intros Hv. qbool. apply Qle_shift_div_l; lra.
Qed.

Lemma momentum_up_at_least roc :
  PyFloat.at_least 0 (if roc >f Fin 0 then roc *f Fin 10 else Fin 0).
Proof.
  rewrite mul_by_10. unfold PyFloat.gt, PyFloat.lt.
  destruct roc as [r| | |]; simpl; try tauto; try lra.
  destruct (Qltb 0 r) eqn:E; simpl; qbool; lra.
Qed.

Lemma momentum_down_at_least roc :
  PyFloat.at_least 0 (if roc <f Fin 0 then PyFloat.abs roc *f Fin 10 else Fin 0).
Proof.
  rewrite mul_by_10. unfold PyFloat.lt.
  destruct roc as [r| | |]; simpl; try tauto; try lra.
  destruct (Qltb r 0) eqn:E; simpl; qbool; [|lra].
  pose proof (Qabs_nonneg r). lra.
Qed.

Lemma volatility_term_at_least vol : PyFloat.at_least 0 vol -> PyFloat.at_least 0 (vol /f Fin 100).
Proof.
  rewrite div_by_100. destruct vol; simpl; try tauto.
  intros. apply Qle_shift_div_l; lra.
Qed.

(** A buy or sell strength lies between 0.5 and the cap of 0.9. *)
Lemma buy_strength_bounds thr vr roc vol :
  (0 <= thr)%Q -> (vr >f Fin thr) = true -> PyFloat.at_least 0 vol ->
  exists q, Donchian.buy_strength vr roc vol = Fin q /\ (0.5 <= q /\ q <= 0.9)%Q.
Proof.
  intros Hthr Hvr Hvol. unfold Donchian.buy_strength.
  apply pymin_cap; [lra|].
  repeat apply at_least_add.
  - simpl. lra.
  - eapply volume_term_at_least; eassumption.
  - apply momentum_up_at_least.
  - apply volatility_term_at_least, Hvol.
Qed.

Lemma sell_strength_bounds thr vr roc vol :
  (0 <= thr)%Q -> (vr >f Fin thr) = true -> PyFloat.at_least 0 vol ->
  exists q, Donchian.sell_strength vr roc vol = Fin q /\ (0.5 <= q /\ q <= 0.9)%Q.
Proof.
  intros Hthr Hvr Hvol. unfold Donchian.sell_strength.
  apply pymin_cap; [lra|].
  repeat apply at_least_add.
  - simpl. lra.
  - eapply volume_term_at_least; eassumption.
  - apply momentum_down_at_least.
  - apply volatility_term_at_least, Hvol.
Qed.

Lemma breakout_condition_volume cc bound prev (cmp : option pyfloat -> pyfloat -> result bool) vr thr tu :
  Donchian.and_then cc (b ← cmp prev bound; mret (b && (vr >f thr) && tu))
    = Return true ->
  (vr >f thr) = true.
Proof.
  unfold Donchian.and_then. destruct cc; [|discriminate].
  destruct (cmp prev bound) as [e|b]; simpl; [discriminate|].
  intros [= H]. apply andb_true_iff in H as [H _].
  apply andb_true_iff in H as [_ H]. exact H.
Qed.

Lemma strength_matches_kind_unit k str :
  Donchian.strength_matches_kind k str -> PyFloat.in_unit_interval str.
Proof.
  destruct k; simpl; [| intros (q & -> & H); simpl; lra ..| | | |];
    intros ->; simpl; lra.
Qed.

Lemma classify_strength s cc prev ind k str why :
  (0 <= volume_threshold s)%Q ->
  PyFloat.at_least 0 (volatility ind) ->
  Donchian.classify s cc prev ind = Return (k, str, why) ->
  Donchian.strength_matches_kind k str.
Proof.
  intros Hthr Hvol. unfold Donchian.classify.
  destruct (Donchian.and_then (cc >f highest_high ind) _) as [e|[|]] eqn:Hbuy;
    simpl; [discriminate| |].
  { intros [= <- <- <-]. simpl.
    eapply buy_strength_bounds; [exact Hthr| |exact Hvol].
    eapply (breakout_condition_volume _ _ _ Donchian.prev_le). exact Hbuy. }
  destruct (Donchian.and_then (cc <f lowest_low ind) _) as [e|[|]] eqn:Hsell;
    simpl; [discriminate| |].
  { intros [= <- <- <-]. simpl.
    eapply sell_strength_bounds; [exact Hthr| |exact Hvol].
    eapply (breakout_condition_volume _ _ _ Donchian.prev_ge). exact Hsell. }
  destruct (Donchian.and_then (cc <f exit_low ind) _) as [e|[|]];
    simpl; [discriminate|intros [= <- <- <-]; reflexivity|].
  destruct (Donchian.and_then (cc >f exit_high ind) _) as [e|[|]];
    simpl; [discriminate|intros [= <- <- <-]; reflexivity|].
  repeat case_match; intros [= <- <- <-]; reflexivity.
Qed.

(** With a previous close at hand no comparison raises. *)
Lemma classify_total s cc p ind :
  exists k str why, Donchian.classify s cc (Some p) ind = Return (k, str, why).
Proof.
  unfold Donchian.classify, Donchian.and_then, Donchian.prev_le,
    Donchian.prev_ge.
  cbn [mbind mret result_bind result_ret].
  repeat (case_match; cbn [mbind mret result_bind result_ret]); eauto.
Qed.

End Strength.

(** ** The channel-breakout strategy on a window *)

Section ChannelBreakout.
Import Pandas.

Lemma sorted_desc_two_rows df :
  2 <= length df ->
  exists cur c1,
    head (sort_values false df) = Some cur /\
    (if 1 <? length (sort_values false df)
     then (fun c => Fin (close c)) <$> (sort_values false df !! 1)
     else None) = Some (Fin (close c1)).
Proof.
  intros Hlen. pose proof (sort_values_length false df) as L.
  destruct (sort_values false df) as [|cur [|c1 rest]]; simpl in L; try lia.
  exists cur, c1. split; reflexivity.
Qed.

Lemma min_required_covers_atr s :
  atr_period s < Donchian.get_min_required_candles s /\
  2 <= Donchian.get_min_required_candles s.
Proof. unfold Donchian.get_min_required_candles. lia. Qed.

(** The two stages on an accepted window with positive closes: a signal is
    generated and its strength is the one that goes with its kind. *)
Lemma pipeline_strength_bounded (s : DonchianStrategy) (df : CandleWindow) :
  Donchian.well_configured s ->
  Donchian.get_min_required_candles s <= length df ->
  Forall (fun c => (0 < close c)%Q) df ->
  exists d,
    Donchian.pipeline s df = Return (Some d) /\
    PyFloat.in_unit_interval (strength d) /\
    Donchian.strength_matches_kind (signal d) (strength d).
Proof.
  intros (_ & _ & _ & Hthr) Hlen Hpos.
  destruct (min_required_covers_atr s) as [Hatr Htwo].
  assert (Hne : df <> []) by (destruct df; [simpl in Hlen; lia|discriminate]).
  destruct (calculate_indicators_body_total s df Hne) as [ind Hind].
  destruct (sorted_desc_two_rows df) as (cur & c1 & Hcur & Hprev); [lia|].
  destruct (classify_total s (Fin (close cur)) (Fin (close c1)) ind)
    as (k & str & why & Hcl).
  rewrite <- Hprev in Hcl.
  destruct (generate_signals_body_Some s df ind cur k str why Hcur Hcl)
    as (d & Hd & Hsig & Hstr & _).
  assert (Hvol : PyFloat.at_least 0 (volatility ind)).
  { apply calculate_indicators_body_fields in Hind
      as (_ & _ & _ & _ & _ & _ & _ & Hvol & _).
    destruct (last (sort_values true df)) as [c'|] eqn:Hlast.
    2:{ apply last_None in Hlast.
        pose proof (sort_values_length true df) as L. rewrite Hlast in L.
        simpl in L. lia. }
    assert (Hc' : (0 < close c')%Q).
    { rewrite Forall_forall in Hpos. apply Hpos.
      rewrite <- (sort_values_perm true df). apply last_Some_elem_of, Hlast. }
    destruct (volatility_last_not_negative s (sort_values true df) c'
                (volatility ind)) as [->|(q & -> & Hq)]; try assumption;
      [rewrite sort_values_length; lia | exact I]. }
  rewrite Hprev in Hcl.
  pose proof (classify_strength s _ _ ind k str why Hthr Hvol Hcl) as Hm.
  exists d. rewrite Hsig, Hstr. split; [|split; [|exact Hm]].
  - unfold Donchian.pipeline, Donchian.calculate_indicators,
      Donchian.generate_signals.
    rewrite Hind. simpl. rewrite Hd. reflexivity.
  - eapply strength_matches_kind_unit, Hm.
Qed.

(** C4 (as amended). For every window that [analyze] accepts (at least
    [get_min_required_candles] bars) with positive closing prices, and a
    strategy with positive periods and a volume threshold that is not
    negative, the channel-breakout strategy generates a signal, and its
    strength lies in [0, 1]: between 0.5 and the cap 0.9 for buy and sell,
    0.7 for the exit kinds, 0.3 for the weak kinds and 0 for neutral. *)
Theorem C4_signal_strength_bounded (s : DonchianStrategy) (df : CandleWindow) :
  Donchian.well_configured s ->
  Donchian.get_min_required_candles s <= length df ->
  Forall (fun c => (0 < close c)%Q) df ->
  exists d,
    Donchian.pipeline s df = Return (Some d) /\
    PyFloat.in_unit_interval (strength d) /\
    Donchian.strength_matches_kind (signal d) (strength d).
Proof. exact (pipeline_strength_bounded s df). Qed.

Lemma C4_signal_strength_bounded_witness :
  exists d,
    Donchian.pipeline default_donchian corrupt_breakout_window
      = Return (Some d) /\
    PyFloat.in_unit_interval (strength d) /\
    Donchian.strength_matches_kind (signal d) (strength d).
Proof.
  apply C4_signal_strength_bounded.
  - vm_compute. repeat split; try lia. discriminate.
  - vm_compute. lia.
  - vm_compute. repeat constructor.
Defined.

(** C4 (counterexample). The default strategy accepts the 30-bar window
    with negative prices; its last bar closes at -2, so the volatility term
    ATR / close is -5 and the sell signal carries the strength
    0.5 + 0.2 - 5 = -4.3: nothing clamps the strength from below. *)
Lemma C4_counterexample :
  Donchian.well_configured default_donchian /\
  Donchian.get_min_required_candles default_donchian
    <= length negative_price_window /\
  (exists d,
     Donchian.pipeline default_donchian negative_price_window
       = Return (Some d) /\
     signal d = sell /\ PyFloat.eqv (strength d) (Fin (-4.3)) /\
     ~ PyFloat.in_unit_interval (strength d)) /\
  (exists r,
     (BaseStrategy.analyze (donchian default_donchian "15m")
        BaseStrategy.initial_state (PyDataFrame negative_price_window)
        "BTCUSDT" 1).2 = Return (Some r) /\
     res_signal r = sell /\ PyFloat.eqv (res_strength r) (Fin (-4.3))).
Proof.
  split; [vm_compute; repeat split; try lia; discriminate|].
  split; [vm_compute; lia|]. split.
  - eexists. split; [vm_compute; reflexivity|].
    split; [reflexivity|]. split; [reflexivity|].
    intros [H _]. vm_compute in H. apply H. reflexivity.
  - eexists. split; [vm_compute; reflexivity|].
    split; reflexivity.
Qed.

(** C10 (as amended). For every window of bars whose close lies between the
    bar's low and high and whose timestamps are pairwise distinct, and a
    strategy with positive periods and a volume threshold that is not
    negative, the channel-breakout strategy returns a signal whenever the
    window is not empty, and its kind is never buy and never sell: the
    rolling channel bounds include the current bar. *)
Theorem C10_well_formed_window_never_breaks_out
    (s : DonchianStrategy) (df : CandleWindow) :
  Donchian.well_configured s ->
  Forall Donchian.close_within_range df ->
  NoDup (timestamp <$> df) ->
  match Donchian.pipeline s df with
  | Return (Some d) => signal d <> buy /\ signal d <> sell
  | Return None => df = []
  | Raise _ => False
  end.
Proof.
  intros _ Hwf Hnd.
  destruct df as [|c df]; [reflexivity|].
  destruct (pipeline_on_well_formed_window s (c :: df) Hwf Hnd)
    as (d & -> & Hk); [discriminate|].
  destruct Hk as [Hk|[Hk|Hk]]; rewrite Hk; split; discriminate.
Qed.

Lemma C10_well_formed_window_never_breaks_out_witness :
  match Donchian.pipeline default_donchian breakout_scenario with
  | Return (Some d) => signal d <> buy /\ signal d <> sell
  | Return None => breakout_scenario = []
  | Raise _ => False
  end.
Proof.
  apply C10_well_formed_window_never_breaks_out.
  - vm_compute. repeat split; try lia. discriminate.
  - vm_compute. repeat constructor; discriminate.
  - apply (bool_decide_unpack _). vm_compute. exact I.
Defined.

(** C10 (counterexample). Twelve flat bars, each closing inside its range,
    the three newest with the same timestamp.  The frame is already sorted
    newest first, so [generate_signals] reads the first of the three, which
    closes at 5, as the current bar, while [calculate_indicators] sorts
    oldest first and takes the channel at the last of the three, where the
    two-bar low is 10: the close is below the lower bound and the signal is
    sell. *)
Lemma C10_counterexample :
  Donchian.well_configured short_donchian /\
  Forall Donchian.close_within_range tied_window /\
  Donchian.get_min_required_candles short_donchian <= length tied_window /\
  sort_values false tied_window = tied_window /\
  (exists d,
     Donchian.pipeline short_donchian tied_window = Return (Some d) /\
     signal d = sell) /\
  (exists r,
     (BaseStrategy.analyze (donchian short_donchian "15m")
        BaseStrategy.initial_state (PyDataFrame tied_window)
        "BTCUSDT" 1).2 = Return (Some r) /\
     res_signal r = sell).
Proof.
  split; [vm_compute; repeat split; try lia; discriminate|].
  split; [vm_compute; repeat constructor; discriminate|].
  split; [vm_compute; lia|]. split; [vm_compute; reflexivity|]. split.
  - eexists. split; [vm_compute; reflexivity|]. reflexivity.
  - eexists. split; [vm_compute; reflexivity|]. reflexivity.
Qed.

(** The buy branch of the if/elif chain. *)
Lemma classify_buy s cc p ind :
  (cc >f highest_high ind) = true ->
  (p <=f highest_high ind) = true ->
  (volume_ratio ind >f Fin (volume_threshold s)) = true ->
  trend_up ind = true ->
  Donchian.classify s cc (Some p) ind
  = Return (buy,
            Donchian.buy_strength (volume_ratio ind) (roc ind) (volatility ind),
            BreakoutAboveUpperBand (highest_high ind) (volume_ratio ind)).
Proof.
  intros H1 H2 H3 H4. unfold Donchian.classify, Donchian.and_then,
    Donchian.prev_le.
  rewrite H1. cbn [mbind mret result_bind result_ret].
  rewrite H2, H3, H4. reflexivity.
Qed.

(** The buy strength on finite indicators with a volume ratio of 2. *)
Lemma buy_strength_at_ratio_2 (r v : Q) :
  exists q,
    Donchian.buy_strength (Fin 2) (Fin r) (Fin v) = Fin q /\
    (q == Qmin 0.9 (0.7 + Qmax 0 r * 10 + v / 100))%Q.
Proof.
  unfold Donchian.buy_strength, PyFloat.pymin, PyFloat.gt, PyFloat.lt.
  assert (Hmax : forall x, (if Qltb 0 r then Fin (r * 10) else Fin 0) = Fin x ->
                           (x == Qmax 0 r * 10)%Q).
  { intros x. destruct (Qltb 0 r) eqn:E; qbool; intros [= <-].
    - rewrite Q.max_r by lra. reflexivity.
    - rewrite Q.max_l by lra. lra. }
  destruct (Qltb 0 r) eqn:E.
  - specialize (Hmax _ eq_refl).
    cbn [PyFloat.mul PyFloat.div PyFloat.add].
    change (Qeq_bool 10 0) with false. change (Qeq_bool 100 0) with false.
    cbv beta iota delta [PyFloat.add].
    match goal with
    | |- context [Qltb ?x 0.9] => destruct (Qltb x 0.9) eqn:E9; qbool
    end; eexists; (split; [reflexivity|]).
    + remember (Qmax 0 r) as m eqn:Hm. clear Hm.
      assert (H2 : (2 / 10 == 0.2)%Q) by reflexivity.
      assert (Hle : (0.7 + m * 10 + v / 100 <= 0.9)%Q) by lra.
      rewrite (Q.min_r _ _ Hle). lra.
    + remember (Qmax 0 r) as m eqn:Hm. clear Hm.
      assert (H2 : (2 / 10 == 0.2)%Q) by reflexivity.
      assert (Hle : (0.9 <= 0.7 + m * 10 + v / 100)%Q) by lra.
      rewrite (Q.min_l _ _ Hle). reflexivity.
  - specialize (Hmax _ eq_refl).
    cbn [PyFloat.mul PyFloat.div PyFloat.add].
    change (Qeq_bool 10 0) with false. change (Qeq_bool 100 0) with false.
    cbv beta iota delta [PyFloat.add].
    match goal with
    | |- context [Qltb ?x 0.9] => destruct (Qltb x 0.9) eqn:E9; qbool
    end; eexists; (split; [reflexivity|]).
    + remember (Qmax 0 r) as m eqn:Hm. clear Hm.
      assert (H2 : (2 / 10 == 0.2)%Q) by reflexivity.
      assert (Hle : (0.7 + m * 10 + v / 100 <= 0.9)%Q) by lra.
      rewrite (Q.min_r _ _ Hle). lra.
    + remember (Qmax 0 r) as m eqn:Hm. clear Hm.
      assert (H2 : (2 / 10 == 0.2)%Q) by reflexivity.
      assert (Hle : (0.9 <= 0.7 + m * 10 + v / 100)%Q) by lra.
      rewrite (Q.min_l _ _ Hle). reflexivity.
Qed.




End ChannelBreakout.

(** ** Position sizing *)

Section PositionSizing.

Lemma Qltb_comp (x x' y y' : Q) :
  (x == x')%Q -> (y == y')%Q -> Qltb x y = Qltb x' y'.
Proof. intros Hx Hy. unfold Qltb. rewrite Hx, Hy. reflexivity. Qed.

(** *** The nearest double *)

Lemma round_half_even_zero (y : Q) :
  Float64.round_half_even y = 0%Z -> (Qabs y <= 1 # 2)%Q.
Proof.
  unfold Float64.round_half_even. intros H.
  pose proof (Qfloor_le y) as Hlo. pose proof (Qlt_floor y) as Hhi.
  rewrite inject_Z_plus in Hhi.
  set (f := Qfloor y) in *.
  apply Qabs_Qle_condition.
  assert (Hcases : (f = 0%Z /\ (y - inject_Z f <= 1 # 2)%Q) \/
                   (f = (-1)%Z /\ (1 # 2 <= y - inject_Z f)%Q)).
  { destruct (Qltb (y - inject_Z f) (1 # 2)) eqn:E1; qbool.
    { left. split; [exact H|lra]. }
    destruct (Qltb (1 # 2) (y - inject_Z f)) eqn:E2; qbool.
    { right. split; [lia|lra]. }
    destruct (Z.even f); [left|right]; split; try lia; lra. }
  destruct Hcases as [[Hf Hr]|[Hf Hr]]; rewrite Hf in *.
  - change (inject_Z 0) with 0%Q in *. split; lra.
  - change (inject_Z (-1)) with (-1 # 1)%Q in *.
    change (inject_Z 1) with 1%Q in *. split; lra.
Qed.

Lemma Qpower_2_pos (k : Z) : (0 < 2 ^ k)%Q.
Proof. apply Qpower_0_lt. reflexivity. Qed.

(** The bit lengths bracket the quotient from below. *)
Lemma binary_exponent_le (x : Q) :
  ~ (x == 0)%Q -> (2 ^ Float64.binary_exponent x <= Qabs x)%Q.
Proof.
  intros Hx. unfold Float64.binary_exponent.
  set (n := Z.abs (Qnum x)). set (d := Zpos (Qden x)).
  destruct (Qle_bool (2 ^ (Z.log2 n - Z.log2 d)) (Qabs x)) eqn:E; qbool;
    [exact E|]. clear E.
  assert (Hn : (0 < n)%Z).
  { subst n. destruct x as [[|p|p] q]; simpl; try lia.
    exfalso. apply Hx. reflexivity. }
  assert (Hd : (0 < d)%Z) by (subst d; lia).
  destruct (Z.log2_spec n Hn) as [Hn1 _].
  destruct (Z.log2_spec d Hd) as [_ Hd2].
  pose proof (Z.log2_nonneg n) as Hln. pose proof (Z.log2_nonneg d) as Hld.
  set (a := Z.log2 n) in *. set (b := Z.log2 d) in *.
  assert (Habs : (Qabs x == inject_Z n / inject_Z d)%Q).
  { subst n d. destruct x as [num den]. unfold Qabs. cbn [Qnum Qden].
    rewrite (Qmake_Qdiv (Z.abs num) den). reflexivity. }
  rewrite Habs.
  assert (Hdq : (0 < inject_Z d)%Q).
  { change 0%Q with (inject_Z 0). rewrite <- Zlt_Qlt. exact Hd. }
  apply Qle_shift_div_l; [exact Hdq|].
  (* 2^(a-b-1) * d <= 2^(a-b-1) * 2^(b+1) = 2^a <= n *)
  apply Qle_trans with ((2 ^ (a - b - 1)) * 2 ^ (b + 1))%Q.
  - apply Qmult_le_l; [apply Qpower_2_pos|].
    change 2%Q with (inject_Z 2). rewrite <- Zpower_Qpower by lia.
    rewrite <- Zle_Qle. unfold Z.succ in Hd2. lia.
  - rewrite <- Qpower_plus by (intros H; discriminate H).
    replace (a - b - 1 + (b + 1))%Z with a by lia.
    change 2%Q with (inject_Z 2). rewrite <- Zpower_Qpower by lia.
    rewrite <- Zle_Qle. exact Hn1.
Qed.

Lemma nearest_zero (x : Q) : (x == 0)%Q -> Float64.nearest x = 0%Q.
Proof.
  intros H. unfold Float64.nearest.
  destruct (Qeq_bool x 0) eqn:E; qbool; [reflexivity|contradiction].
Qed.

(** Without underflow, only zero rounds to zero. *)
Lemma nearest_nonzero (x : Q) :
  ~ (x == 0)%Q -> ~ (Float64.nearest x == 0)%Q.
Proof.
  intros Hx Hz. unfold Float64.nearest in Hz.
  destruct (Qeq_bool x 0) eqn:E; qbool; [contradiction|]. clear E.
  cbv zeta in Hz.
  set (k := Float64.binary_exponent x) in *.
  pose proof (Qpower_2_pos (k - 52)) as Hulp.
  pose proof (binary_exponent_le x Hx) as Hk. fold k in Hk.
  apply Qmult_integral in Hz. destruct Hz as [Hz|Hz]; [|lra].
  assert (Hr : Float64.round_half_even (x / 2 ^ (k - 52)) = 0%Z).
  { unfold Qeq in Hz. cbn [Qnum Qden inject_Z] in Hz. lia. }
  apply round_half_even_zero in Hr.
  (* |x| / ulp >= 2^52 *)
  assert (Hbig : (2 ^ 52 <= Qabs (x / 2 ^ (k - 52)))%Q).
  { unfold Qdiv. rewrite Qabs_Qmult.
    rewrite (Qabs_pos (/ 2 ^ (k - 52))).
    2:{ apply Qlt_le_weak, Qinv_lt_0_compat, Hulp. }
    apply Qle_shift_div_l; [exact Hulp|].
    rewrite <- Qpower_plus by (intros H; discriminate H).
    replace (52 + (k - 52))%Z with k by lia. exact Hk. }
  assert (H52 : (1 <= 2 ^ 52)%Q) by (vm_compute; discriminate).
  lra.
Qed.

Lemma stop_distance_zero (price stop_loss : Q) :
  (Donchian.stop_distance price stop_loss == 0)%Q <-> (price == stop_loss)%Q.
Proof.
  unfold Donchian.stop_distance. split; intros H.
  - destruct (Qeq_dec (price - stop_loss) 0) as [Hz|Hnz]; [lra|].
    exfalso. apply (nearest_nonzero _ Hnz).
    destruct (Qeq_dec (Float64.nearest (price - stop_loss)) 0) as [H0|H0];
      [exact H0|].
    pose proof (Qabs_nonneg (Float64.nearest (price - stop_loss))).
    pose proof (Qle_Qabs (Float64.nearest (price - stop_loss))).
    pose proof (Qle_Qabs (- Float64.nearest (price - stop_loss))).
    rewrite Qabs_opp in *. lra.
  - rewrite nearest_zero by lra. reflexivity.
Qed.

(** *** The sizing function *)

Lemma pydiv_nonzero (a b : Q) :
  ~ (b == 0)%Q -> Donchian.pydiv a b = Return (Float64.nearest (a / b)).
Proof.
  intros Hb. unfold Donchian.pydiv.
  destruct (Qeq_bool b 0) eqn:E; qbool; [contradiction|reflexivity].
Qed.

Lemma Qmin_if (x y : Q) : Qmin x y = if Qltb y x then y else x.
Proof.
  unfold Qmin, GenericMinMax.gmin.
  destruct (x ?= y)%Q eqn:E.
  - apply Qeq_alt in E. rewrite (proj2 (Qltb_false y x)) by lra. reflexivity.
  - apply Qlt_alt in E. rewrite (proj2 (Qltb_false y x)) by lra. reflexivity.
  - apply Qgt_alt in E. rewrite (proj2 (Qltb_true y x)) by lra. reflexivity.
Qed.

(** The if/elif chain of the code keeps the number of decimals that the
    price band asks for. *)
Lemma round_for_price_decimals (price size : Q) :
  Donchian.round_for_price price size
  = Donchian.round_to_decimals size (Donchian.size_precision price).
Proof.
  unfold Donchian.round_for_price, Donchian.size_precision.
  destruct (Qltb price 1); [reflexivity|].
  destruct (Qltb price 10); [reflexivity|].
  destruct (Qltb price 1000); reflexivity.
Qed.

(** What the function computes when the stop distance is not zero: the
    rounded, capped size, rejected when it is not positive. *)
Lemma calculate_position_size_formula price stop_loss risk acct pct :
  ~ (price == stop_loss)%Q ->
  let sz := Donchian.sizing_formula price stop_loss risk acct pct in
  exists r,
    Donchian.calculate_position_size price stop_loss risk acct pct = Return r /\
    ((0 < sz)%Q ->
       sizing_error r = None /\ position_size r = sz) /\
    ((sz <= 0)%Q ->
       r = SizingRejected 0 "Berechnete Positionsgröße ist zu klein").
Proof.
  intros Hne.
  assert (Hd : (0 < Donchian.stop_distance price stop_loss)%Q).
  { pose proof (Qabs_nonneg (Float64.nearest (price - stop_loss))) as H0.
    destruct (Qeq_dec (Donchian.stop_distance price stop_loss) 0) as [Hz|Hnz].
    - apply (proj1 (stop_distance_zero _ _)) in Hz. contradiction.
    - unfold Donchian.stop_distance in *. lra. }
  unfold Donchian.sizing_formula, Donchian.calculate_position_size.
  fold (Donchian.stop_distance price stop_loss).
  set (distance := Donchian.stop_distance price stop_loss) in *.
  destruct (Qle_bool distance 0) eqn:E; qbool; [lra|]. clear E.
  rewrite (pydiv_nonzero risk distance) by lra.
  cbn [mbind mret result_bind result_ret].
  set (size := Float64.nearest (risk / distance)).
  set (capped := match acct with
                 | Some acc =>
                     Qmin size
                       (Float64.nearest
                          (Float64.nearest
                             (acc * Float64.nearest (pct / 100)) / distance))
                 | None => size
                 end).
  assert (Hcap :
    (match acct with
     | Some acc =>
         max_risk ← Donchian.max_risk_amount acc pct;
         max_size ← Donchian.pydiv max_risk distance;
         mret (if Qltb max_size size then max_size else size)
     | None => mret size
     end) = Return capped).
  { subst capped. destruct acct as [acc|]; [|reflexivity].
    unfold Donchian.max_risk_amount.
    rewrite (pydiv_nonzero pct 100) by (intros H; discriminate H).
    cbn [mbind mret result_bind result_ret].
    rewrite (pydiv_nonzero _ distance) by lra.
    cbn [mbind mret result_bind result_ret].
    rewrite Qmin_if. reflexivity. }
  rewrite Hcap. cbn [mbind mret result_bind result_ret].
  rewrite round_for_price_decimals.
  set (sz := Donchian.round_to_decimals capped (Donchian.size_precision price)).
  destruct (Qle_bool sz 0) eqn:E; qbool.
  - eexists; split; [reflexivity|]. split; [lra|reflexivity].
  - set (actual := Float64.nearest (sz * distance)).
    assert (Hrp : exists rp,
      (match acct with
       | Some acc =>
           if Qeq_bool acc 0 then mret None
           else r ← Donchian.pydiv actual acc;
                mret (Some (Float64.nearest (r * 100)))
       | None => mret None
       end) = Return rp).
    { destruct acct as [acc|]; [|eauto].
      destruct (Qeq_bool acc 0) eqn:Ea; qbool; [eauto|].
      rewrite (pydiv_nonzero _ acc Ea).
      cbn [mbind mret result_bind result_ret]. eauto. }
    destruct Hrp as (rp & ->). cbn [mbind mret result_bind result_ret].
    eexists; split; [reflexivity|]. split; [intros _; split; reflexivity|lra].
Qed.

Lemma size_precision_bands (price : Q) :
  ((price < 1)%Q -> Donchian.size_precision price = 3) /\
  ((1 <= price < 10)%Q -> Donchian.size_precision price = 2) /\
  ((10 <= price < 1000)%Q -> Donchian.size_precision price = 1) /\
  ((1000 <= price)%Q -> Donchian.size_precision price = 0).
Proof.
  unfold Donchian.size_precision.
  repeat match goal with
  | |- context [Qltb ?a ?b] => let E := fresh in destruct (Qltb a b) eqn:E
  end; qbool; repeat split; intros; try reflexivity; lra.
Qed.

Lemma size_precision_antitone (p1 p2 : Q) :
  (p1 <= p2)%Q -> Donchian.size_precision p2 <= Donchian.size_precision p1.
Proof.
  intros H. unfold Donchian.size_precision.
  repeat match goal with
  | |- context [Qltb ?a ?b] => let E := fresh in destruct (Qltb a b) eqn:E
  end; qbool; try lia; lra.
Qed.

(** C6. Position sizing computes the risk budget divided by the stop
    distance, capped by the account's risk share over the stop distance
    when an account size is given, every operation returning the nearest
    double, and rounds the result to 3 decimals for a price below 1, 2 below
    10, 1 below 1000 and to a whole number from 1000 on, so the precision
    decreases with the price.  Price 100, stop 95 and budget 500 give a risk
    per unit of 5 and a size of 100, and with an account of 1000 at 1
    percent the maximal risk amount is 10 and the size is 2.  The rounding
    is that of Python's [round] on the double: a budget of 10 over a
    distance of 3 gives 3.333, 3.33, 3.3 and 3 in the four price bands; a
    budget of 7 over a distance of 20 gives the double 0.3 and a budget of 1
    over a distance of 200 the double 0.01, since the quotients lie just
    below and just above the decimal tie; the exact ties 1/8 and 5/2 go to
    the even neighbours 0.12 and 2. *)
Theorem C6_position_sizing :
  (forall price stop_loss risk acct pct,
     ~ (price == stop_loss)%Q ->
     (0 < Donchian.sizing_formula price stop_loss risk acct pct)%Q ->
     exists r,
       Donchian.calculate_position_size price stop_loss risk acct pct
         = Return r /\
       sizing_error r = None /\
       position_size r = Donchian.sizing_formula price stop_loss risk acct pct)
  /\
  (forall price : Q,
     ((price < 1)%Q -> Donchian.size_precision price = 3) /\
     ((1 <= price < 10)%Q -> Donchian.size_precision price = 2) /\
     ((10 <= price < 1000)%Q -> Donchian.size_precision price = 1) /\
     ((1000 <= price)%Q -> Donchian.size_precision price = 0))
  /\
  (forall p1 p2 : Q,
     (p1 <= p2)%Q -> Donchian.size_precision p2 <= Donchian.size_precision p1)
  /\
  match Donchian.calculate_position_size 100 95 500 None 1 with
  | Return (SizingAccepted sz unit _ _ _ _) => (unit == 5 /\ sz == 100)%Q
  | _ => False
  end
  /\
  match Donchian.max_risk_amount 1000 1,
        Donchian.calculate_position_size 100 95 500 (Some 1000%Q) 1 with
  | Return cap, Return (SizingAccepted sz unit _ _ _ _) =>
      (cap == 10 /\ unit == 5 /\ sz == 2)%Q
  | _, _ => False
  end
  /\
  ((r ← Donchian.calculate_position_size 100 80 7 None 1;
    mret (position_size r)) = Return (Float64.nearest 0.3) /\
   (r ← Donchian.calculate_position_size 0.5 3.5 10 None 1;
    mret (position_size r)) = Return (Float64.nearest 3.333) /\
   (r ← Donchian.calculate_position_size 5 2 10 None 1;
    mret (position_size r)) = Return (Float64.nearest 3.33) /\
   (r ← Donchian.calculate_position_size 100 97 10 None 1;
    mret (position_size r)) = Return (Float64.nearest 3.3) /\
   (r ← Donchian.calculate_position_size 1000 997 10 None 1;
    mret (position_size r)) = Return 3%Q)
  /\
  (match Donchian.calculate_position_size 100 80 7 None 1 with
   | Return r =>
       (position_size r == 5404319552844595 # 18014398509481984)%Q
   | Raise _ => False
   end /\
   match Donchian.calculate_position_size 3 203 1 None 1 with
   | Return r =>
       (position_size r == 5764607523034235 # 576460752303423488)%Q
   | Raise _ => False
   end /\
   match Donchian.calculate_position_size 5 13 1 None 1 with
   | Return r => (position_size r == 1080863910568919 # 9007199254740992)%Q
   | Raise _ => False
   end /\
   match Donchian.calculate_position_size 1000 998 5 None 1 with
   | Return r => (position_size r == 2)%Q
   | Raise _ => False
   end).
Proof.
  split; [|split; [exact size_precision_bands
                  |split; [exact size_precision_antitone
                          |split; [|split; [|split]]]]].
  - intros price stop_loss risk acct pct Hne Hpos.
    destruct (calculate_position_size_formula price stop_loss risk acct pct Hne)
      as (r & Hr & Hacc & _).
    exists r. split; [exact Hr|]. apply Hacc, Hpos.
  - vm_compute. split; reflexivity.
  - vm_compute. repeat split; reflexivity.
  - repeat split; vm_compute; reflexivity.
  - split; [vm_compute; reflexivity|].
    split; [vm_compute; reflexivity|].
    split; vm_compute; reflexivity.
Qed.

Lemma C6_position_sizing_witness :
  exists r,
    Donchian.calculate_position_size 100 95 500 (Some 1000%Q) 1 = Return r /\
    sizing_error r = None /\
    position_size r = Donchian.sizing_formula 100 95 500 (Some 1000%Q) 1.
Proof.
  apply (proj1 C6_position_sizing).
  - intros H. vm_compute in H. discriminate H.
  - vm_compute. reflexivity.
Defined.

(** Position sizing never raises: every division is guarded. *)
Lemma calculate_position_size_never_raises price stop_loss risk acct pct :
  exists r,
    Donchian.calculate_position_size price stop_loss risk acct pct = Return r.
Proof.
  destruct (Qeq_dec price stop_loss) as [Heq|Hne].
  - unfold Donchian.calculate_position_size.
    rewrite (nearest_zero (price - stop_loss)) by lra.
    eexists. reflexivity.
  - destruct (calculate_position_size_formula price stop_loss risk acct pct Hne)
      as (r & Hr & _). eauto.
Qed.

(** C7. When the stop distance is zero, and when the computed size rounds
    to zero or below, position sizing returns (it does not raise) a result
    with position size 0 and an explicit reason. *)
Theorem C7_degenerate_sizing_is_rejected_with_reason
    (price stop_loss risk : Q) (acct : option Q) (pct : Q) :
  (Qabs (price - stop_loss) == 0)%Q \/
  (Donchian.sizing_formula price stop_loss risk acct pct <= 0)%Q ->
  exists why,
    Donchian.calculate_position_size price stop_loss risk acct pct
      = Return (SizingRejected 0 why) /\
    why <> EmptyString.
Proof.
  intros H.
  destruct (Qeq_dec price stop_loss) as [Heq|Hne].
  - unfold Donchian.calculate_position_size.
    rewrite (nearest_zero (price - stop_loss)) by lra.
    eexists; split; [reflexivity|discriminate].
  - destruct H as [H|H].
    + exfalso. apply Hne.
      pose proof (Qle_Qabs (price - stop_loss)).
      pose proof (Qle_Qabs (- (price - stop_loss))).
      rewrite Qabs_opp in *. lra.
    + destruct (calculate_position_size_formula price stop_loss risk acct pct Hne)
        as (r & Hr & _ & Hrej).
      rewrite Hr, (Hrej H). eexists; split; [reflexivity|discriminate].
Qed.

Lemma C7_degenerate_sizing_is_rejected_with_reason_witness :
  (exists why,
     Donchian.calculate_position_size 100 100 500 None 1
       = Return (SizingRejected 0 why) /\
     why <> EmptyString) /\
  (exists why,
     Donchian.calculate_position_size 3 1003 1 None 1
       = Return (SizingRejected 0 why) /\
     why <> EmptyString).
Proof.
  split.
  - apply C7_degenerate_sizing_is_rejected_with_reason.
    left. vm_compute. reflexivity.
  - apply C7_degenerate_sizing_is_rejected_with_reason.
    right. vm_compute. discriminate.
Defined.

End PositionSizing.

(** ** Orchestration: [BaseStrategy.analyze] *)

Section Analyze.
Context {I Sg : Type}.
Variable self : Strategy I Sg.

(** The decorated [analyze] never lets an exception out. *)
Lemma analyze_never_raises st df symbol now :
  exists o, (BaseStrategy.analyze self st df symbol now).2 = Return o.
Proof.
  unfold BaseStrategy.analyze.
  destruct (BaseStrategy.analyze_body self st df symbol now) as [st' [e|r]];
    simpl; eauto.
Qed.

(** On an empty window or one shorter than the minimum, [analyze] returns a
    neutral result of strength 0 and only writes a warning: neither abstract
    method is invoked and the cache is untouched.  The window that is short
    but not empty carries the reason under "error". *)
Lemma analyze_insufficient_data st df symbol now :
  df = [] \/ length df < get_min_required_candles self ->
  exists r msg,
    BaseStrategy.analyze self st (PyDataFrame df) symbol now
      = (BaseStrategy.emit (Logged WARNING msg) st, Return (Some r)) /\
    res_signal r = neutral /\ res_strength r = Fin 0 /\
    (df <> [] ->
     res_error r =
       Some (TooFewData (length df) (get_min_required_candles self))).
Proof.
  intros H. unfold BaseStrategy.analyze, BaseStrategy.analyze_body.
  destruct df as [|c df].
  - simpl. eexists _, _. split; [reflexivity|]. repeat split; try reflexivity.
    intros Hne. congruence.
  - destruct H as [H|H]; [discriminate|].
    apply Nat.ltb_lt in H. rewrite H. simpl.
    eexists _, _. split; [reflexivity|]. repeat split; reflexivity.
Qed.

(** C2 (evaluation at the empty window). [analyze] on the empty window
    returns the neutral result of strength 0 without invoking the indicator
    computation, but the result carries no reason: its "error" entry is
    absent, the explanation goes to the log only. *)
Theorem C2_empty_window_result_carries_no_reason
    (st : StrategyState I Sg) (symbol : string) (now : Z) :
  exists r,
    BaseStrategy.analyze self st (PyDataFrame []) symbol now
      = (BaseStrategy.emit (Logged WARNING (EmptyDataFrame symbol)) st,
         Return (Some r)) /\
    res_signal r = neutral /\ res_strength r = Fin 0 /\
    res_error r = None.
Proof.
  eexists. split; [reflexivity|]. repeat split; reflexivity.
Qed.

(** How [analyze] proceeds on a window that is long enough, by the outcome
    of the two stages. *)
Lemma analyze_body_stages st df symbol now :
  df <> [] ->
  get_min_required_candles self <= length df ->
  let sorted := Pandas.sort_values false df in
  let st1 := BaseStrategy.emit (CalledCalculateIndicators sorted) st in
  BaseStrategy.analyze_body self st (PyDataFrame df) symbol now =
  match calculate_indicators self sorted with
  | Raise e => (st1, Raise e)
  | Return ind =>
      let st2 :=
        BaseStrategy.emit (CalledGenerateSignals sorted ind)
          {| indicators := <[symbol := ind]> (indicators st1);
             cached_signals := cached_signals st1;
             last_update_time := last_update_time st1;
             trace := trace st1 |} in
      match generate_signals self sorted ind with
      | Raise e => (st2, Raise e)
      | Return signals =>
          let st3 :=
            {| indicators := indicators st2;
               cached_signals := <[symbol := signals]> (cached_signals st2);
               last_update_time := <[symbol := now]> (last_update_time st2);
               trace := trace st2 |} in
          match signals with
          | None => (st3, Raise AttributeError)
          | Some sg =>
              let kind := default neutral (get_signal self sg) in
              let str := default (Fin 0) (get_strength self sg) in
              (BaseStrategy.emit (Logged INFO (AnalysisLogged symbol kind str)) st3,
               Return {| res_signal := kind; res_strength := str;
                         res_indicators := Computed ind; res_timestamp := now;
                         res_symbol := symbol; res_timeframe := timeframe self;
                         res_strategy := name self; res_error := None |})
          end
      end
  end.
Proof.
  intros Hne Hlen. unfold BaseStrategy.analyze_body.
  destruct df as [|c df]; [congruence|].
  destruct (length (c :: df) <? get_min_required_candles self) eqn:E.
  { apply Nat.ltb_lt in E. lia. }
  reflexivity.
Qed.

(** C9 (as amended). On an accepted window [analyze] writes the cache stage
    by stage: nothing when the indicator computation raises; the indicators,
    the signal and the update time of the symbol together when both stages
    return; and only the indicators, the signal entry and update time
    keeping their previous values and [analyze] returning [None], when
    signal generation raises. *)
Theorem C9_cache_is_written_stage_by_stage
    (st : StrategyState I Sg) (df : CandleWindow) (symbol : string) (now : Z) :
  df <> [] ->
  get_min_required_candles self <= length df ->
  let sorted := Pandas.sort_values false df in
  let out := BaseStrategy.analyze self st (PyDataFrame df) symbol now in
  (forall e, calculate_indicators self sorted = Raise e ->
     indicators out.1 = indicators st /\
     cached_signals out.1 = cached_signals st /\
     last_update_time out.1 = last_update_time st) /\
  (forall ind signals,
     calculate_indicators self sorted = Return ind ->
     generate_signals self sorted ind = Return signals ->
     indicators out.1 = <[symbol := ind]> (indicators st) /\
     cached_signals out.1 = <[symbol := signals]> (cached_signals st) /\
     last_update_time out.1 = <[symbol := now]> (last_update_time st)) /\
  (forall ind e,
     calculate_indicators self sorted = Return ind ->
     generate_signals self sorted ind = Raise e ->
     indicators out.1 = <[symbol := ind]> (indicators st) /\
     cached_signals out.1 = cached_signals st /\
     last_update_time out.1 = last_update_time st /\
     out.2 = Return None).
Proof.
  intros Hne Hlen. cbv zeta. unfold BaseStrategy.analyze.
  rewrite (analyze_body_stages st df symbol now Hne Hlen). cbv zeta.
  split; [|split].
  - intros e He. rewrite He. repeat split; reflexivity.
  - intros ind sg Hi Hs. rewrite Hi, Hs. destruct sg; repeat split; reflexivity.
  - intros ind e Hi Hs. rewrite Hi, Hs. repeat split; reflexivity.
Qed.

End Analyze.

(** C3 (as amended). On an accepted window [analyze] lets no exception
    out.  When the indicator computation or the signal generation raises,
    or signal generation returns [None] because its own decorator swallowed
    the error, [analyze] returns [None]: no signal record, neutral or
    otherwise, is produced.  In the channel-breakout strategy both methods
    are decorated: an exception inside the indicator computation makes it
    return [None], signal generation then fails on the missing indicators
    and returns [None] as well, and [analyze] returns [None], with [None]
    cached as the indicators and as the signal of the symbol. *)
Theorem C3_strategy_errors_make_analyze_return_None
    {I Sg : Type} (self : Strategy I Sg)
    (st : StrategyState I Sg) (df : CandleWindow) (symbol : string) (now : Z) :
  df <> [] ->
  let sorted := Pandas.sort_values false df in
  (get_min_required_candles self <= length df ->
   let out := BaseStrategy.analyze self st (PyDataFrame df) symbol now in
   (exists o, out.2 = Return o) /\
   (forall e, calculate_indicators self sorted = Raise e ->
      out.2 = Return None) /\
   (forall ind e,
      calculate_indicators self sorted = Return ind ->
      generate_signals self sorted ind = Raise e ->
      out.2 = Return None) /\
   (forall ind,
      calculate_indicators self sorted = Return ind ->
      generate_signals self sorted ind = Return None ->
      out.2 = Return None)) /\
  (forall (s : DonchianStrategy) (tf : string)
          (indicators_body : CandleWindow -> result Indicators)
          (st' : StrategyState Indicators SignalDetails) (e : PyExc),
     Donchian.get_min_required_candles s <= length df ->
     indicators_body sorted = Raise e ->
     let out := BaseStrategy.analyze (donchian_with s tf indicators_body) st'
                  (PyDataFrame df) symbol now in
     out.2 = Return None /\
     indicators out.1 !! symbol = Some None /\
     cached_signals out.1 !! symbol = Some None /\
     last_update_time out.1 !! symbol = Some now).
Proof.
  intros Hne. cbv zeta. split.
  - intros Hlen. split; [apply analyze_never_raises|].
    unfold BaseStrategy.analyze.
    rewrite (analyze_body_stages self st df symbol now Hne Hlen). cbv zeta.
    split; [|split].
    + intros e ->. reflexivity.
    + intros ind e -> ->. reflexivity.
    + intros ind -> ->. reflexivity.
  - intros s tf body st' e Hlen Hbody.
    unfold BaseStrategy.analyze.
    rewrite (analyze_body_stages (donchian_with s tf body) st' df symbol now
               Hne Hlen).
    cbv zeta. cbn [calculate_indicators generate_signals donchian_with].
    rewrite Hbody. cbn [handle_errors].
    assert (Hgs : Donchian.generate_signals s (Pandas.sort_values false df)
                    None = Return None).
    { unfold Donchian.generate_signals, Donchian.generate_signals_body,
        Pandas.iloc.
      cbv zeta.
      match goal with
      | |- context [match ?x with Some _ => _ | None => _ end] => destruct x
      end; reflexivity. }
    rewrite Hgs. cbn [fst snd handle_errors log_execution_time].
    split; [reflexivity|].
    cbn [indicators cached_signals last_update_time BaseStrategy.emit].
    rewrite !lookup_insert_eq. repeat split; reflexivity.
Qed.

Lemma C3_strategy_errors_make_analyze_return_None_witness :
  (BaseStrategy.analyze momentum_strategy BaseStrategy.initial_state
     (PyDataFrame (flat_window 0)) "BTCUSDT" 2).2 = Return None /\
  (let out := BaseStrategy.analyze
                (donchian_with default_donchian "15m" (fun _ => Raise KeyError))
                BaseStrategy.initial_state
                (PyDataFrame (flat_window 100)) "BTCUSDT" 1 in
   out.2 = Return None /\
   indicators out.1 !! "BTCUSDT" = Some None /\
   cached_signals out.1 !! "BTCUSDT" = Some None /\
   last_update_time out.1 !! "BTCUSDT" = Some 1%Z).
Proof.
  split.
  - assert (Hne : flat_window 0 <> []) by discriminate.
    assert (Hlen : get_min_required_candles momentum_strategy
                   <= length (flat_window 0)) by (vm_compute; lia).
    destruct (proj1 (C3_strategy_errors_make_analyze_return_None
                       momentum_strategy BaseStrategy.initial_state
                       (flat_window 0) "BTCUSDT" 2 Hne) Hlen)
      as (_ & _ & H & _).
    apply (H (Some 0%Q) ZeroDivisionError); reflexivity.
  - assert (Hne : flat_window 100 <> []) by discriminate.
    apply (proj2 (C3_strategy_errors_make_analyze_return_None
                    momentum_strategy BaseStrategy.initial_state
                    (flat_window 100) "BTCUSDT" 1 Hne)
             default_donchian "15m" (fun _ => Raise KeyError)
             BaseStrategy.initial_state KeyError).
    + vm_compute. lia.
    + reflexivity.
Defined.

(** C3 (counterexample). The channel-breakout strategy on an accepted frame
    that lacks a column: the KeyError inside the indicator computation does
    not yield a neutral signal with a reason; [analyze] returns [None]. *)
Lemma C3_counterexample :
  ~ exists r,
      (BaseStrategy.analyze
         (donchian_on_frame_without_column default_donchian "15m")
         BaseStrategy.initial_state (PyDataFrame (flat_window 100))
         "BTCUSDT" 1).2 = Return (Some r) /\
      res_signal r = neutral.
Proof.
  intros (r & H & _). vm_compute in H. discriminate H.
Qed.

Lemma C9_cache_is_written_stage_by_stage_witness :
  let st1 := (BaseStrategy.analyze momentum_strategy BaseStrategy.initial_state
                (PyDataFrame (flat_window 100)) "BTCUSDT" 1).1 in
  let out := BaseStrategy.analyze momentum_strategy st1
               (PyDataFrame (flat_window 0)) "BTCUSDT" 2 in
  indicators out.1 = <["BTCUSDT" := Some 0%Q]> (indicators st1) /\
  cached_signals out.1 = cached_signals st1 /\
  last_update_time out.1 = last_update_time st1 /\
  out.2 = Return None.
Proof.
  intros st1 out.
  assert (Hne : flat_window 0 <> []) by discriminate.
  assert (Hlen : get_min_required_candles momentum_strategy
                 <= length (flat_window 0)) by (vm_compute; lia).
  destruct (C9_cache_is_written_stage_by_stage momentum_strategy st1
              (flat_window 0) "BTCUSDT" 2 Hne Hlen) as (_ & _ & H).
  apply (H (Some 0%Q) ZeroDivisionError); reflexivity.
Defined.

(** C9 (counterexample). After a first analysis of a symbol cached a buy
    signal, a second analysis whose signal generation raises leaves the
    newly computed indicators cached next to the previous signal and update
    time. *)
Lemma C9_counterexample :
  let st1 := (BaseStrategy.analyze momentum_strategy BaseStrategy.initial_state
                (PyDataFrame (flat_window 100)) "BTCUSDT" 1).1 in
  let out := BaseStrategy.analyze momentum_strategy st1
               (PyDataFrame (flat_window 0)) "BTCUSDT" 2 in
  calculate_indicators momentum_strategy
    (Pandas.sort_values false (flat_window 0)) = Return (Some 0%Q) /\
  partially_updated st1 out.1 "BTCUSDT" (Some 0%Q) /\
  cached_signals out.1 !! "BTCUSDT" = Some (Some buy) /\
  out.2 = Return None.
Proof.
  cbv zeta. split; [reflexivity|]. split; [|split; vm_compute; reflexivity].
  unfold partially_updated. repeat split; try (vm_compute; reflexivity).
  vm_compute. intros H. discriminate H.
Qed.

(** ** Multi-timeframe confirmation *)

Section Confirmation.
Context {I Sg : Type}.

(** With an [analyze] that answers every timeframe, the loop counts the
    answers that equal the base kind or are neutral. *)
Lemma check_loop_scripted (answers : string -> SignalKind) symbol kind now
    (st : StrategyState I Sg) count dets todo :
  MultiTimeframe.check_loop (scripted_analyze answers) symbol kind now
    (st, count, dets) todo =
  Return (st,
          count + length (List.filter
                            (fun i => MultiTimeframe.confirms kind (answers i))
                            todo),
          dets ++ ((fun i => (i, {| tf_signal := answers i;
                                    tf_confirmed :=
                                      MultiTimeframe.confirms kind (answers i) |}))
                   <$> todo)).
Proof.
  revert count dets. induction todo as [|i todo IH]; intros count dets; simpl.
  - rewrite Nat.add_0_r, app_nil_r. reflexivity.
  - rewrite IH. rewrite <- app_assoc. simpl.
    destruct (MultiTimeframe.confirms kind (answers i)); simpl;
      rewrite <- ?Nat.add_assoc; reflexivity.
Qed.

(** The confirmation arithmetic on the timeframes coarser than 15 minutes,
    given per-timeframe answers: the count of confirming answers, its share
    of the three timeframes, and the threshold of one half. *)
Lemma confirmation_math_scripted (answers : string -> SignalKind) symbol kind now
    (st : StrategyState I Sg) :
  let c := MultiTimeframe.check_multi_timeframe_confirmation
             (scripted_analyze answers) st symbol "15" kind now in
  let n := length (List.filter
                     (fun i => MultiTimeframe.confirms kind (answers i))
                     ["60"; "240"; "D"]) in
  confirmations c = Some n /\
  confidence c = Some (inject_Z (Z.of_nat n) / inject_Z 3)%Q /\
  confirmed c = Qle_bool 0.5 (inject_Z (Z.of_nat n) / inject_Z 3).
Proof.
  cbv zeta.
  unfold MultiTimeframe.check_multi_timeframe_confirmation,
    MultiTimeframe.check_body.
  change (MultiTimeframe.check_intervals "15") with ["60"; "240"; "D"].
  cbv iota. rewrite check_loop_scripted. simpl. repeat split; reflexivity.
Qed.

End Confirmation.

(** The scenario of the specification on a scripted [analyze]: answers buy,
    neutral, sell against the base kind buy. *)
Lemma confirmation_math_example :
  let answers := fun i : string =>
    if decide (i = "60") then buy
    else if decide (i = "240") then neutral else sell in
  let c := MultiTimeframe.check_multi_timeframe_confirmation
             (scripted_analyze (I := Indicators) (Sg := SignalDetails) answers)
             BaseStrategy.initial_state "BTCUSDT" "15" buy 0 in
  confirmations c = Some 2 /\
  (exists q, confidence c = Some q /\ (q == 2 # 3)%Q) /\
  confirmed c = true.
Proof.
  cbv zeta. split; [reflexivity|]. split; [|reflexivity].
  eexists. split; [reflexivity|]. reflexivity.
Qed.

(** C5 (evaluation at the failing inputs). With no coarser timeframe
    (base interval "D") the method returns confirmed = true but a result
    without confidence; and with the inherited [analyze], to which the loop
    passes the symbol where the data frame belongs, every base interval that
    selects a timeframe (here "15") ends in the error result,
    confirmed = false, instead of the confirmation arithmetic. *)
Theorem C5_confirmation_misses_confidence_and_analysis :
  (forall (I Sg : Type)
          (analyze_method :
             StrategyState I Sg -> PyArg -> string -> Z ->
             StrategyState I Sg * result (option (AnalysisResult I)))
          st symbol kind now,
     MultiTimeframe.check_multi_timeframe_confirmation
       analyze_method st symbol "D" kind now =
     {| confirmed := true; confidence := None; confirmations := Some 0;
        total_timeframes := None; details := Some []; conf_error := None |})
  /\
  (forall (I Sg : Type) (self : Strategy I Sg) st symbol kind now,
     MultiTimeframe.check_multi_timeframe_confirmation
       (BaseStrategy.analyze self) st symbol "15" kind now =
     {| confirmed := false; confidence := None; confirmations := None;
        total_timeframes := None; details := None;
        conf_error := Some AttributeError |}).
Proof.
  split; intros; reflexivity.
Qed.

(** ** The connection monitor *)

Section ConnectionMonitor.
Import Monitor.
Variable cfg : Config.

Lemma sleeps_app a b : sleeps (a ++ b) = sleeps a ++ sleeps b.
Proof. apply omap_app. Qed.

Lemma connects_app a b : connects (a ++ b) = connects a + connects b.
Proof. unfold connects. rewrite List.filter_app, length_app. reflexivity. Qed.

Lemma criticals_app a b : criticals (a ++ b) = criticals a + criticals b.
Proof. unfold criticals. rewrite List.filter_app, length_app. reflexivity. Qed.

Lemma failure_sleep_mono k1 k2 :
  k1 <= k2 -> failure_sleep cfg k1 <= failure_sleep cfg k2.
Proof.
  intros H. unfold failure_sleep.
  destruct (max_consecutive_failures cfg <=? k1) eqn:E1;
    destruct (max_consecutive_failures cfg <=? k2) eqn:E2;
    try apply Nat.leb_le in E1; try apply Nat.leb_gt in E1;
    try apply Nat.leb_le in E2; try apply Nat.leb_gt in E2; lia.
Qed.

Lemma monotone_on_seq_sorted (f : nat -> nat) start n :
  (forall k1 k2, k1 <= k2 -> f k1 <= f k2) ->
  StronglySorted le (f <$> seq start n).
Proof.
  intros Hf. revert start. induction n as [|n IH]; intros start; simpl.
  - constructor.
  - constructor; [apply IH|].
    apply Forall_forall. intros x Hx.
    apply list_elem_of_fmap in Hx as (k & -> & Hk).
    apply elem_of_seq in Hk. apply Hf. lia.
Qed.

(** What one failed reconnect does to the counter and to the trace. *)
Lemma step_reconnect_failed a t :
  step cfg {| reconnect_attempts := a; last_ping_time := t; exited := false |}
       ReconnectFailed =
  ({| reconnect_attempts := a + 1; last_ping_time := t; exited := false |},
   [Log NotConnected; Connect;
    Log (ReconnectFailure (a + 1) (max_consecutive_failures cfg))] ++
   (if max_consecutive_failures cfg <=? a + 1
    then [Log (ConnectionGivenUp (max_consecutive_failures cfg));
          Sleep (reconnect_interval cfg * 2)]
    else [Sleep (reconnect_interval cfg)])).
Proof. reflexivity. Qed.

(** A run of [n] consecutive failed reconnects. *)
Lemma run_consecutive_failures n a t :
  let out := run cfg {| reconnect_attempts := a; last_ping_time := t;
                        exited := false |}
                 (replicate n ReconnectFailed) in
  out.1 = {| reconnect_attempts := a + n; last_ping_time := t;
             exited := false |} /\
  sleeps out.2 = failure_sleep cfg <$> seq (a + 1) n /\
  connects out.2 = n /\
  criticals out.2 =
    length (List.filter (fun k => max_consecutive_failures cfg <=? k)
                        (seq (a + 1) n)).
Proof.
  revert a. induction n as [|n IH]; intros a; cbv zeta.
  - simpl. rewrite Nat.add_0_r. repeat split; reflexivity.
  - cbn [replicate run exited]. rewrite step_reconnect_failed.
    specialize (IH (a + 1)). cbv zeta in IH.
    destruct (run cfg _ (replicate n ReconnectFailed)) as [st2 acts2].
    destruct IH as (Hst & Hsl & Hco & Hcr). simpl in Hst, Hsl, Hco, Hcr.
    cbn [fst snd]. subst st2.
    rewrite sleeps_app, connects_app, criticals_app, Hsl, Hco, Hcr.
    replace (a + 1 + n) with (a + S n) by lia.
    split; [reflexivity|].
    cbn [seq fmap list_fmap List.filter].
    replace (S (a + 1)) with (a + 1 + 1) by lia.
    unfold failure_sleep at 2.
    destruct (max_consecutive_failures cfg <=? a + 1); simpl;
      repeat split; reflexivity.
Qed.

End ConnectionMonitor.

(** C8. In the monitor loop, any number of consecutive reconnect failures
    produces sleeps that never decrease: the plain interval while the
    counter is below [max_consecutive_failures] and twice the interval, with
    a critical report each time, once it has reached it; every failure is
    followed by another attempt and the loop keeps running; a successful
    reconnect sets the counter back to 0.  With the defaults (30 s, 5), seven
    failures sleep 30, 30, 30, 30, 60, 60, 60 seconds. *)
Theorem C8_reconnect_backoff :
  (forall cfg a t n,
     let out := Monitor.run cfg
                  {| Monitor.reconnect_attempts := a;
                     Monitor.last_ping_time := t;
                     Monitor.exited := false |}
                  (replicate n Monitor.ReconnectFailed) in
     Monitor.sleeps out.2 = Monitor.failure_sleep cfg <$> seq (a + 1) n /\
     StronglySorted le (Monitor.sleeps out.2) /\
     Monitor.criticals out.2 =
       length (List.filter
                 (fun k => Monitor.max_consecutive_failures cfg <=? k)
                 (seq (a + 1) n)) /\
     Monitor.connects out.2 = n /\
     Monitor.exited out.1 = false /\
     Monitor.reconnect_attempts out.1 = a + n) /\
  (forall cfg k,
     Monitor.failure_sleep cfg k =
     if Monitor.max_consecutive_failures cfg <=? k
     then 2 * Monitor.reconnect_interval cfg
     else Monitor.reconnect_interval cfg) /\
  (forall cfg st current_time,
     Monitor.reconnect_attempts
       (Monitor.step cfg st (Monitor.Reconnected current_time)).1 = 0) /\
  (let out := Monitor.run Monitor.default_config Monitor.initial_state
                (replicate 7 Monitor.ReconnectFailed) in
   Monitor.sleeps out.2 = [30; 30; 30; 30; 60; 60; 60] /\
   Monitor.criticals out.2 = 3 /\ Monitor.connects out.2 = 7).
Proof.
  split; [|split; [|split]].
  - intros cfg a t n.
    destruct (run_consecutive_failures cfg n a t) as (Hst & Hsl & Hco & Hcr).
    cbv zeta. rewrite Hsl, Hst. repeat split; try assumption.
    apply monotone_on_seq_sorted, failure_sleep_mono.
  - intros cfg k. unfold Monitor.failure_sleep.
    destruct (_ <=? _); lia.
  - intros cfg st current_time. unfold Monitor.step, Monitor.heartbeat.
    destruct (Qltb _ _); reflexivity.
  - vm_compute. repeat split; reflexivity.
Qed.

(** ** The channel-breakout strategy under [analyze] *)

Section DonchianAnalyze.
Import Pandas.

(** On fewer than 50 bars the 50-bar average is missing and the trend
    filter is false. *)
Lemma trend_filter_needs_50_bars s df ind :
  length df < 50 ->
  Donchian.calculate_indicators_body s df = Return ind ->
  trend_up ind = false.
Proof.
  intros Hlen Hind.
  apply calculate_indicators_body_fields in Hind
    as (_ & _ & _ & _ & _ & _ & Htu & _).
  unfold Donchian.trend_up_series_of in Htu.
  rewrite last_zip_with in Htu by (rewrite !rolling_length; reflexivity).
  rewrite (rolling_last 50), column_length, sort_values_length in Htu.
  destruct (last (rolling 20 _ _)) as [x|]; [|discriminate].
  destruct (length df) as [|i] eqn:E; [discriminate|].
  replace (50 <=? S i) with false in Htu
    by (symmetry; apply Nat.leb_gt; lia).
  simpl in Htu. injection Htu as <-.
  unfold PyFloat.gt. destruct x; reflexivity.
Qed.

(** [analyze] of the channel-breakout strategy on an accepted window
    returns the kind and strength that the two stages produce on the frame
    sorted newest-first. *)
Lemma analyze_donchian_accepted s tf
    (st : StrategyState Indicators SignalDetails) df symbol now d :
  df <> [] ->
  Donchian.get_min_required_candles s <= length df ->
  Donchian.pipeline s (sort_values false df) = Return (Some d) ->
  exists st' r,
    BaseStrategy.analyze (donchian s tf) st (PyDataFrame df) symbol now
      = (st', Return (Some r)) /\
    res_signal r = signal d /\ res_strength r = strength d /\
    cached_signals st' !! symbol = Some (Some d).
Proof.
  intros Hne Hlen Hp. unfold BaseStrategy.analyze.
  rewrite (analyze_body_stages (donchian s tf) st df symbol now Hne Hlen).
  cbv zeta. cbn [calculate_indicators generate_signals donchian].
  unfold Donchian.pipeline in Hp.
  destruct (Donchian.calculate_indicators s (sort_values false df))
    as [e|ind]; [discriminate|].
  cbn [mbind result_bind] in Hp. rewrite Hp.
  eexists _, _. split; [reflexivity|]. cbn.
  repeat split; try reflexivity. apply lookup_insert_eq.
Qed.

(** Every result of [analyze] of the channel-breakout strategy on a window
    with positive closes, accepted or not, has a strength in [0, 1]. *)
Lemma analyze_donchian_strength_bounded s tf
    (st : StrategyState Indicators SignalDetails) df symbol now :
  Donchian.well_configured s ->
  Forall (fun c => (0 < close c)%Q) df ->
  exists st' r,
    BaseStrategy.analyze (donchian s tf) st (PyDataFrame df) symbol now
      = (st', Return (Some r)) /\
    PyFloat.in_unit_interval (res_strength r).
Proof.
  intros Hcfg Hpos.
  destruct (decide (df = [] \/ length df < Donchian.get_min_required_candles s))
    as [Hshort|Hlong].
  - destruct (analyze_insufficient_data (donchian s tf) st df symbol now Hshort)
      as (r & msg & Hr & _ & Hstr & _).
    eexists _, r. split; [exact Hr|]. rewrite Hstr. simpl. lra.
  - assert (Hne : df <> []) by tauto.
    assert (Hlen : Donchian.get_min_required_candles s <= length df) by lia.
    destruct (pipeline_strength_bounded s (sort_values false df))
      as (d & Hd & Hunit & _).
    + exact Hcfg.
    + rewrite sort_values_length. exact Hlen.
    + rewrite sort_values_perm. exact Hpos.
    + destruct (analyze_donchian_accepted s tf st df symbol now d Hne Hlen Hd)
        as (st' & r & Hr & _ & Hstr & _).
      eexists _, r. split; [exact Hr|]. rewrite Hstr. exact Hunit.
Qed.

End DonchianAnalyze.

(** ** The signal cache around [analyze] *)

Section SignalCache.
Context {I Sg : Type}.
Variable self : Strategy I Sg.

(** X1. After an analysis whose two stages returned, the cache serves the
    generated signals for the symbol and counts their age from the time of
    the analysis; the entries of every other symbol are as before. *)
Theorem analyze_then_cache_reads
    (st : StrategyState I Sg) (df : CandleWindow) (symbol : string) (now : Z)
    (ind : option I) (signals : option Sg) :
  df <> [] ->
  get_min_required_candles self <= length df ->
  calculate_indicators self (Pandas.sort_values false df) = Return ind ->
  generate_signals self (Pandas.sort_values false df) ind = Return signals ->
  let st' := (BaseStrategy.analyze self st (PyDataFrame df) symbol now).1 in
  BaseStrategy.get_cached_signal st' symbol = Some signals /\
  (forall max_age t,
     StrategyCache.should_update st' symbol max_age t
     = bool_decide (max_age <= t - now)%Z) /\
  (forall other, other <> symbol ->
     BaseStrategy.get_cached_signal st' other
       = BaseStrategy.get_cached_signal st other /\
     indicators st' !! other = indicators st !! other /\
     forall max_age t,
       StrategyCache.should_update st' other max_age t
       = StrategyCache.should_update st other max_age t).
Proof.
  intros Hne Hlen Hi Hs. cbv zeta. unfold BaseStrategy.analyze.
  rewrite (analyze_body_stages self st df symbol now Hne Hlen). cbv zeta.
  rewrite Hi, Hs.
  unfold BaseStrategy.get_cached_signal, StrategyCache.should_update.
  destruct signals as [sg|]; cbn; rewrite !lookup_insert_eq;
    (split; [reflexivity|]; split; [reflexivity|]);
    intros other Hother; rewrite !lookup_insert_ne by congruence;
    repeat split; reflexivity.
Qed.

(** X2. An analysis that stops at the data check is not cached: the three
    dictionaries are as before, so a symbol that was never analysed with
    enough data still asks for an update. *)
Theorem insufficient_data_is_not_cached
    (st : StrategyState I Sg) (df : CandleWindow) (symbol : string) (now : Z) :
  df = [] \/ length df < get_min_required_candles self ->
  let st' := (BaseStrategy.analyze self st (PyDataFrame df) symbol now).1 in
  indicators st' = indicators st /\
  cached_signals st' = cached_signals st /\
  last_update_time st' = last_update_time st /\
  (last_update_time st !! symbol = None ->
   forall max_age t, StrategyCache.should_update st' symbol max_age t = true).
Proof.
  intros H. cbv zeta.
  destruct (analyze_insufficient_data self st df symbol now H)
    as (r & msg & -> & _).
  cbn. repeat split.
  intros Hnone max_age t. unfold StrategyCache.should_update. cbn.
  rewrite Hnone. reflexivity.
Qed.

(** X3. [clear_cache] with a non-empty symbol removes that symbol's three
    entries, after which it asks for an update, and keeps every other
    symbol; with the empty string it clears every symbol, like [None]. *)
Theorem clear_cache_scope (st : StrategyState I Sg) (symbol : string) :
  (symbol <> EmptyString ->
   let st' := StrategyCache.clear_cache st (Some symbol) in
   BaseStrategy.get_cached_signal st' symbol = None /\
   indicators st' !! symbol = None /\
   (forall max_age t, StrategyCache.should_update st' symbol max_age t = true) /\
   (forall other, other <> symbol ->
      BaseStrategy.get_cached_signal st' other
        = BaseStrategy.get_cached_signal st other /\
      indicators st' !! other = indicators st !! other /\
      last_update_time st' !! other = last_update_time st !! other)) /\
  (let st' := StrategyCache.clear_cache st (Some EmptyString) in
   st' = StrategyCache.clear_cache st None /\
   forall other,
     BaseStrategy.get_cached_signal st' other = None /\
     indicators st' !! other = None /\
     last_update_time st' !! other = None).
Proof.
  split.
  - intros Hne. cbv zeta. unfold StrategyCache.clear_cache.
    destruct (decide (symbol = EmptyString)) as [?|_]; [contradiction|].
    unfold BaseStrategy.get_cached_signal, StrategyCache.should_update. cbn.
    rewrite !lookup_delete_eq. repeat split; try reflexivity.
    all: rewrite lookup_delete_ne by congruence; reflexivity.
  - cbv zeta.
    assert (E : StrategyCache.clear_cache st (Some EmptyString)
                = StrategyCache.cleared st) by reflexivity.
    rewrite E. split; [reflexivity|].
    intros other. unfold BaseStrategy.get_cached_signal, StrategyCache.cleared.
    cbn. rewrite !lookup_empty. repeat split.
Qed.

End SignalCache.

Lemma analyze_then_cache_reads_witness :
  let st0 : StrategyState Q SignalKind := BaseStrategy.initial_state in
  let st' := (BaseStrategy.analyze momentum_strategy st0
                (PyDataFrame (flat_window 100)) "BTCUSDT" 1).1 in
  BaseStrategy.get_cached_signal st' "BTCUSDT" = Some (Some buy) /\
  (forall max_age t,
     StrategyCache.should_update st' "BTCUSDT" max_age t
     = bool_decide (max_age <= t - 1)%Z) /\
  (forall other, other <> "BTCUSDT" ->
     BaseStrategy.get_cached_signal st' other
       = BaseStrategy.get_cached_signal st0 other /\
     indicators st' !! other = indicators st0 !! other /\
     forall max_age t,
       StrategyCache.should_update st' other max_age t
       = StrategyCache.should_update st0 other max_age t).
Proof.
  intros st0.
  apply (analyze_then_cache_reads momentum_strategy st0
           (flat_window 100) "BTCUSDT" 1 (Some 100%Q) (Some buy)).
  - discriminate.
  - vm_compute. lia.
  - reflexivity.
  - reflexivity.
Defined.

Lemma insufficient_data_is_not_cached_witness :
  let st0 : StrategyState Indicators SignalDetails :=
    BaseStrategy.initial_state in
  let st' := (BaseStrategy.analyze (donchian default_donchian "15m") st0
                (PyDataFrame breakout_scenario) "BTCUSDT" 1).1 in
  indicators st' = indicators st0 /\
  cached_signals st' = cached_signals st0 /\
  last_update_time st' = last_update_time st0 /\
  (last_update_time st0 !! "BTCUSDT" = None ->
   forall max_age t, StrategyCache.should_update st' "BTCUSDT" max_age t = true).
Proof.
  intros st0.
  apply (insufficient_data_is_not_cached (donchian default_donchian "15m")).
  right. vm_compute. lia.
Defined.

Lemma clear_cache_scope_witness :
  let st := (BaseStrategy.analyze momentum_strategy BaseStrategy.initial_state
               (PyDataFrame (flat_window 100)) "BTCUSDT" 1).1 in
  let st' := StrategyCache.clear_cache st (Some "BTCUSDT") in
  BaseStrategy.get_cached_signal st' "BTCUSDT" = None /\
  indicators st' !! "BTCUSDT" = None /\
  (forall max_age t, StrategyCache.should_update st' "BTCUSDT" max_age t = true) /\
  (forall other, other <> "BTCUSDT" ->
     BaseStrategy.get_cached_signal st' other
       = BaseStrategy.get_cached_signal st other /\
     indicators st' !! other = indicators st !! other /\
     last_update_time st' !! other = last_update_time st !! other).
Proof.
  intros st.
  apply (proj1 (clear_cache_scope st "BTCUSDT")). discriminate.
Defined.

(** ** More on the indicator set *)

Section IndicatorInvariants.
Import Pandas.

(** All fields of a computed indicator set. *)
Lemma calculate_indicators_body_record s df ind :
  Donchian.calculate_indicators_body s df = Return ind ->
  let sorted := sort_values true df in
  last (Donchian.middle_line_series_of s sorted) = Some (middle_line ind) /\
  last (Donchian.stop_loss_short_series_of s sorted)
    = Some (stop_loss_short ind) /\
  last (Donchian.take_profit_long_series_of s sorted)
    = Some (take_profit_long ind) /\
  last (Donchian.take_profit_short_series_of s sorted)
    = Some (take_profit_short ind) /\
  last (Donchian.column close sorted) = Some (ind_close ind) /\
  last (timestamp <$> sorted) = Some (ind_timestamp ind) /\
  highest_high_series ind = Donchian.highest_high_series_of s sorted /\
  lowest_low_series ind = Donchian.lowest_low_series_of s sorted /\
  middle_line_series ind = Donchian.middle_line_series_of s sorted /\
  atr_series ind = Donchian.atr_series_of s sorted.
Proof.
  unfold Donchian.calculate_indicators_body. intros H.
  repeat match type of H with
  | (mbind _ (iloc_last ?xs)) = _ =>
      let E := fresh "E" in
      destruct (iloc_last xs) eqn:E; simpl in H; [discriminate|];
      apply iloc_last_Return in E
  end.
  injection H as <-. simpl. repeat split; assumption.
Qed.

Lemma sorted_last_in df c :
  last (sort_values true df) = Some c -> c ∈ df.
Proof.
  intros H. rewrite <- (sort_values_perm true df).
  apply last_Some_elem_of, H.
Qed.

Lemma sorted_last_exists df :
  df <> [] -> exists c, last (sort_values true df) = Some c.
Proof.
  intros Hne. destruct (last (sort_values true df)) as [c|] eqn:E; [eauto|].
  apply last_None in E. pose proof (sort_values_length true df) as L.
  rewrite E in L. destruct df; simplify_eq/=.
Qed.

(** The value of a rolling aggregate of a column at the last row, both
    ways. *)
Lemma rolling_last_column_defined n agg f df :
  0 < n <= length df ->
  last (rolling n agg (Donchian.column f df))
  = Some (Fin (agg (drop (length df - n) (f <$> df)))).
Proof.
  intros Hn.
  destruct (last (rolling n agg (Donchian.column f df))) as [x|] eqn:E.
  - pose proof E as E'. rewrite rolling_last, column_length in E'.
    destruct (length df) as [|i] eqn:Hl; [lia|].
    replace (0 <? n) with true in E' by (symmetry; apply Nat.ltb_lt; lia).
    replace (n <=? S i) with true in E' by (symmetry; apply Nat.leb_le; lia).
    simpl in E'.
    rewrite column_Fin, <- fmap_drop, <- fmap_take, finite_values_Fin in E'.
    rewrite take_ge in E' by (rewrite length_drop, length_fmap; lia).
    symmetry. exact E'.
  - apply last_None in E. apply (f_equal length) in E.
    rewrite rolling_length, column_length in E. simpl in E. lia.
Qed.

Lemma rolling_last_column_missing n agg f df :
  df <> [] -> length df < n ->
  last (rolling n agg (Donchian.column f df)) = Some NaN.
Proof.
  intros Hne Hn. rewrite rolling_last, column_length.
  destruct (length df) as [|i] eqn:Hl.
  - destruct df; simplify_eq/=.
  - replace (n <=? S i) with false by (symmetry; apply Nat.leb_gt; lia).
    rewrite andb_false_r. reflexivity.
Qed.

Lemma foldl_Qmax_lub (w : list Q) a b :
  (a <= b)%Q -> Forall (fun x => (x <= b)%Q) w -> (foldl Qmax a w <= b)%Q.
Proof.
  intros Ha Hw. revert a Ha.
  induction Hw as [|x w Hx _ IH]; intros a Ha; simpl; [exact Ha|].
  apply IH. apply Q.max_lub; assumption.
Qed.

Lemma qmax_list_lub (w : list Q) b :
  w <> [] -> Forall (fun x => (x <= b)%Q) w -> (qmax_list w <= b)%Q.
Proof.
  destruct w as [|x w]; [congruence|]. intros _ H.
  apply Forall_cons in H as [Hx Hw]. simpl. apply foldl_Qmax_lub; assumption.
Qed.

Lemma foldl_Qmin_glb (w : list Q) a b :
  (b <= a)%Q -> Forall (fun x => (b <= x)%Q) w -> (b <= foldl Qmin a w)%Q.
Proof.
  intros Ha Hw. revert a Ha.
  induction Hw as [|x w Hx _ IH]; intros a Ha; simpl; [exact Ha|].
  apply IH. apply Q.min_glb; assumption.
Qed.

Lemma qmin_list_glb (w : list Q) b :
  w <> [] -> Forall (fun x => (b <= x)%Q) w -> (b <= qmin_list w)%Q.
Proof.
  destruct w as [|x w]; [congruence|]. intros _ H.
  apply Forall_cons in H as [Hx Hw]. simpl. apply foldl_Qmin_glb; assumption.
Qed.

Lemma elem_of_drop_le {A} (l : list A) k1 k2 x :
  k1 <= k2 -> x ∈ drop k2 l -> x ∈ drop k1 l.
Proof.
  intros Hk Hx. apply list_elem_of_lookup in Hx as [i Hi].
  rewrite lookup_drop in Hi.
  apply list_elem_of_lookup. exists (k2 - k1 + i).
  rewrite lookup_drop. rewrite <- Hi. f_equal. lia.
Qed.

Lemma drop_nonempty {A} (l : list A) k : k < length l -> drop k l <> [].
Proof.
  intros Hk E. apply (f_equal length) in E.
  rewrite length_drop in E. simpl in E. lia.
Qed.

(** The longer window's maximum dominates, its minimum is dominated. *)
Lemma qmax_list_suffix (xs : list Q) k1 k2 :
  k1 <= k2 -> k2 < length xs ->
  (qmax_list (drop k2 xs) <= qmax_list (drop k1 xs))%Q.
Proof.
  intros Hk Hlen. apply qmax_list_lub; [apply drop_nonempty, Hlen|].
  apply Forall_forall. intros x Hx.
  apply qmax_list_ge. eapply elem_of_drop_le; eassumption.
Qed.

Lemma qmin_list_suffix (xs : list Q) k1 k2 :
  k1 <= k2 -> k2 < length xs ->
  (qmin_list (drop k1 xs) <= qmin_list (drop k2 xs))%Q.
Proof.
  intros Hk Hlen. apply qmin_list_glb; [apply drop_nonempty, Hlen|].
  apply Forall_forall. intros x Hx.
  apply qmin_list_le. eapply elem_of_drop_le; eassumption.
Qed.

End IndicatorInvariants.

Section IndicatorProperties.
Import Pandas.

Lemma calculate_indicators_body_nonempty s df ind :
  Donchian.calculate_indicators_body s df = Return ind -> df <> [].
Proof. intros H ->. discriminate H. Qed.

(** X4. The indicator set is consistent with the series it exports: the four
    series have one value per row of the window, and the scalar of each is
    the last value of its series. *)
Theorem indicator_set_matches_series (s : DonchianStrategy) (df : CandleWindow) :
  df <> [] ->
  exists ind,
    Donchian.calculate_indicators_body s df = Return ind /\
    length (highest_high_series ind) = length df /\
    length (lowest_low_series ind) = length df /\
    length (middle_line_series ind) = length df /\
    length (atr_series ind) = length df /\
    last (highest_high_series ind) = Some (highest_high ind) /\
    last (lowest_low_series ind) = Some (lowest_low ind) /\
    last (middle_line_series ind) = Some (middle_line ind) /\
    last (atr_series ind) = Some (atr ind).
Proof.
  intros Hne.
  destruct (calculate_indicators_body_total s df Hne) as [ind Hind].
  exists ind. split; [exact Hind|].
  pose proof (calculate_indicators_body_fields s df ind Hind)
    as (Hhh & Hll & _ & _ & Hatr & _).
  pose proof (calculate_indicators_body_record s df ind Hind)
    as (Hml & _ & _ & _ & _ & _ & -> & -> & -> & ->).
  pose proof (sort_values_length true df) as L.
  repeat split; try assumption.
  - unfold Donchian.highest_high_series_of.
    rewrite rolling_length, column_length. exact L.
  - unfold Donchian.lowest_low_series_of.
    rewrite rolling_length, column_length. exact L.
  - unfold Donchian.middle_line_series_of, Donchian.highest_high_series_of,
      Donchian.lowest_low_series_of.
    rewrite length_fmap, length_zip_with, !rolling_length, !column_length. lia.
  - rewrite atr_series_length. exact L.
Qed.

Lemma indicator_set_matches_series_witness :
  exists ind,
    Donchian.calculate_indicators_body default_donchian breakout_scenario
      = Return ind /\
    length (highest_high_series ind) = length breakout_scenario /\
    length (lowest_low_series ind) = length breakout_scenario /\
    length (middle_line_series ind) = length breakout_scenario /\
    length (atr_series ind) = length breakout_scenario /\
    last (highest_high_series ind) = Some (highest_high ind) /\
    last (lowest_low_series ind) = Some (lowest_low ind) /\
    last (middle_line_series ind) = Some (middle_line ind) /\
    last (atr_series ind) = Some (atr ind).
Proof.
  apply indicator_set_matches_series. discriminate.
Defined.

(** X5. The channel is defined exactly when the window holds a full period.
    It then brackets the middle line, which is the mean of the bounds,
    provided the low of each bar is at most its high; on a shorter window
    all three values are missing. *)
Theorem channel_bounds_ordered
    (s : DonchianStrategy) (df : CandleWindow) (ind : Indicators) :
  Forall (fun c => (low c <= high c)%Q) df ->
  Donchian.calculate_indicators_body s df = Return ind ->
  (0 < period s <= length df ->
   exists h l m,
     highest_high ind = Fin h /\ lowest_low ind = Fin l /\
     middle_line ind = Fin m /\
     (l <= m /\ m <= h /\ m == (h + l) / 2)%Q) /\
  (length df < period s ->
   highest_high ind = NaN /\ lowest_low ind = NaN /\ middle_line ind = NaN).
Proof.
  intros Hwf Hind.
  pose proof (calculate_indicators_body_nonempty s df ind Hind) as Hne.
  pose proof (calculate_indicators_body_fields s df ind Hind)
    as (Hhh & Hll & _).
  pose proof (calculate_indicators_body_record s df ind Hind) as (Hml & _).
  cbv zeta in *.
  pose proof (sort_values_length true df) as L.
  destruct (sorted_last_exists df Hne) as [c Hc].
  unfold Donchian.middle_line_series_of in Hml.
  rewrite fmap_last, last_zip_with, Hhh, Hll in Hml
    by (unfold Donchian.highest_high_series_of, Donchian.lowest_low_series_of;
        rewrite !rolling_length, !column_length; reflexivity).
  injection Hml as Hml.
  split.
  - intros Hp.
    pose proof Hhh as Hhh'. pose proof Hll as Hll'.
    unfold Donchian.highest_high_series_of in Hhh'.
    unfold Donchian.lowest_low_series_of in Hll'.
    rewrite rolling_last_column_defined in Hhh' by lia.
    rewrite rolling_last_column_defined in Hll' by lia.
    injection Hhh' as Hh. injection Hll' as Hl.
    destruct (rolling_max_last _ _ _ c _ Hc Hhh)
      as [E|(h & Eh & Hhc)]; [congruence|].
    destruct (rolling_min_last _ _ _ c _ Hc Hll)
      as [E|(l & El & Hlc)]; [congruence|].
    assert (Hc' : (low c <= high c)%Q).
    { rewrite Forall_forall in Hwf. apply Hwf. eapply sorted_last_in, Hc. }
    exists h, l, ((h + l) / 2)%Q.
    rewrite Eh, El in Hml. rewrite Eh, El, <- Hml.
    split; [reflexivity|]. split; [reflexivity|]. split; [reflexivity|].
    assert (Hlh : (l <= h)%Q) by lra.
    repeat split; try reflexivity.
    + apply Qle_shift_div_l; lra.
    + apply Qle_shift_div_r; lra.
  - intros Hp.
    unfold Donchian.highest_high_series_of in Hhh.
    unfold Donchian.lowest_low_series_of in Hll.
    assert (Hne' : sort_values true df <> []).
    { intros E. rewrite E in Hc. discriminate. }
    rewrite rolling_last_column_missing in Hhh by (try assumption; lia).
    rewrite rolling_last_column_missing in Hll by (try assumption; lia).
    injection Hhh as Ehh. injection Hll as Ell.
    rewrite <- Ehh, <- Ell in Hml.
    split; [congruence|]. split; [congruence|].
    rewrite <- Hml. reflexivity.
Qed.

Lemma channel_bounds_ordered_witness :
  exists ind h l m,
    Donchian.calculate_indicators_body default_donchian breakout_scenario
      = Return ind /\
    highest_high ind = Fin h /\ lowest_low ind = Fin l /\
    middle_line ind = Fin m /\
    (l <= m /\ m <= h /\ m == (h + l) / 2)%Q.
Proof.
  destruct (calculate_indicators_body_total default_donchian breakout_scenario)
    as [ind Hind]; [discriminate|].
  assert (Hwf : Forall (fun c => (low c <= high c)%Q) breakout_scenario).
  { vm_compute. repeat constructor; discriminate. }
  destruct (proj1 (channel_bounds_ordered default_donchian breakout_scenario
                     ind Hwf Hind)) as (h & l & m & H).
  - vm_compute. lia.
  - exists ind, h, l, m. split; [exact Hind|exact H].
Defined.

(** X6. With an exit period that is at most the entry period, the exit channel
    lies inside the entry channel whenever the window holds a full entry
    period. *)
Theorem exit_channel_inside_entry_channel
    (s : DonchianStrategy) (df : CandleWindow) (ind : Indicators) :
  0 < exit_period s -> exit_period s <= period s -> period s <= length df ->
  Donchian.calculate_indicators_body s df = Return ind ->
  exists h l eh el,
    highest_high ind = Fin h /\ lowest_low ind = Fin l /\
    exit_high ind = Fin eh /\ exit_low ind = Fin el /\
    (eh <= h /\ l <= el)%Q.
Proof.
  intros He Hep Hp Hind.
  pose proof (calculate_indicators_body_fields s df ind Hind)
    as (Hhh & Hll & Heh & Hel & _).
  cbv zeta in *.
  pose proof (sort_values_length true df) as L.
  unfold Donchian.highest_high_series_of in Hhh.
  unfold Donchian.lowest_low_series_of in Hll.
  unfold Donchian.exit_high_series_of in Heh.
  unfold Donchian.exit_low_series_of in Hel.
  rewrite rolling_last_column_defined in Hhh by lia.
  rewrite rolling_last_column_defined in Hll by lia.
  rewrite rolling_last_column_defined in Heh by lia.
  rewrite rolling_last_column_defined in Hel by lia.
  injection Hhh as <-. injection Hll as <-.
  injection Heh as <-. injection Hel as <-.
  eexists _, _, _, _. repeat split; try reflexivity.
  - apply qmax_list_suffix; [lia|]. rewrite length_fmap. lia.
  - apply qmin_list_suffix; [lia|]. rewrite length_fmap. lia.
Qed.

Lemma exit_channel_inside_entry_channel_witness :
  exists ind h l eh el,
    Donchian.calculate_indicators_body default_donchian breakout_scenario
      = Return ind /\
    highest_high ind = Fin h /\ lowest_low ind = Fin l /\
    exit_high ind = Fin eh /\ exit_low ind = Fin el /\
    (eh <= h /\ l <= el)%Q.
Proof.
  destruct (calculate_indicators_body_total default_donchian breakout_scenario)
    as [ind Hind]; [discriminate|].
  destruct (exit_channel_inside_entry_channel default_donchian
              breakout_scenario ind) as (h & l & eh & el & H);
    [vm_compute; lia | vm_compute; lia | vm_compute; lia | exact Hind |].
  exists ind, h, l, eh, el. split; [exact Hind|exact H].
Defined.

End IndicatorProperties.

Section LevelsAndSoundness.
Import Pandas.

Lemma finite_values_total xs :
  (forall x, x ∈ xs -> exists t, x = Fin t) ->
  exists w, finite_values xs = Some w.
Proof.
  unfold finite_values. induction xs as [|x xs IH]; intros H.
  - exists []. reflexivity.
  - destruct (H x) as [t ->]; [left|].
    destruct IH as [w Hw]; [intros y Hy; apply H; right; exact Hy|].
    exists (t :: w). cbn. cbn in Hw. rewrite Hw. reflexivity.
Qed.

(** With a window that reaches a full period without the first row, the
    average true range at the last row is defined and not negative. *)
Lemma atr_last_defined s df a :
  0 < atr_period s < length df ->
  last (Donchian.atr_series_of s df) = Some a ->
  exists q, a = Fin q /\ (0 <= q)%Q.
Proof.
  intros Hlen Ha.
  destruct (atr_last_not_negative s df a) as [->|H]; [lia|exact Ha| |exact H].
  exfalso. unfold Donchian.atr_series_of in Ha.
  rewrite rolling_last, true_range_length in Ha.
  destruct (length df) as [|i] eqn:Hl; [lia|].
  replace (0 <? atr_period s) with true in Ha
    by (symmetry; apply Nat.ltb_lt; lia).
  replace (atr_period s <=? S i) with true in Ha
    by (symmetry; apply Nat.leb_le; lia).
  simpl in Ha.
  destruct (finite_values_total
              (take (atr_period s)
                 (drop (S i - atr_period s) (Donchian.true_range df))))
    as [w Hw].
  - intros x Hx. apply list_elem_of_lookup in Hx as [j Hj].
    rewrite lookup_take in Hj. case_decide; [|discriminate].
    rewrite lookup_drop in Hj.
    destruct (true_range_nonneg df (S i - atr_period s + j) x)
      as (t & -> & _); [lia|exact Hj|eauto].
  - rewrite Hw in Ha. discriminate.
Qed.

(** X7. On every window that [analyze] accepts, the channel bounds and the
    average true range are defined, and the average true range is not
    negative. *)
Theorem accepted_window_has_channel_and_atr
    (s : DonchianStrategy) (df : CandleWindow) (ind : Indicators) :
  Donchian.well_configured s ->
  Donchian.get_min_required_candles s <= length df ->
  Donchian.calculate_indicators_body s df = Return ind ->
  exists h l a,
    highest_high ind = Fin h /\ lowest_low ind = Fin l /\
    atr ind = Fin a /\ (0 <= a)%Q.
Proof.
  intros (Hp & _ & Ha & _) Hlen Hind.
  pose proof (calculate_indicators_body_fields s df ind Hind)
    as (Hhh & Hll & _ & _ & Hatr & _).
  cbv zeta in *.
  pose proof (sort_values_length true df) as L.
  unfold Donchian.get_min_required_candles in Hlen.
  unfold Donchian.highest_high_series_of in Hhh.
  unfold Donchian.lowest_low_series_of in Hll.
  rewrite rolling_last_column_defined in Hhh by lia.
  rewrite rolling_last_column_defined in Hll by lia.
  injection Hhh as Ehh. injection Hll as Ell.
  destruct (atr_last_defined s (sort_values true df) (atr ind))
    as (q & Eq & Hq); [lia|exact Hatr|].
  eexists _, _, q. repeat split; eauto.
Qed.

Lemma accepted_window_has_channel_and_atr_witness :
  exists ind h l a,
    Donchian.calculate_indicators_body default_donchian corrupt_breakout_window
      = Return ind /\
    highest_high ind = Fin h /\ lowest_low ind = Fin l /\
    atr ind = Fin a /\ (0 <= a)%Q.
Proof.
  destruct (calculate_indicators_body_total default_donchian
              corrupt_breakout_window) as [ind Hind]; [discriminate|].
  destruct (accepted_window_has_channel_and_atr default_donchian
              corrupt_breakout_window ind) as (h & l & a & H).
  - vm_compute. repeat split; try lia. discriminate.
  - vm_compute. lia.
  - exact Hind.
  - exists ind, h, l, a. split; [exact Hind|exact H].
Defined.

(** X8. The stop-loss and take-profit levels of an indicator set with a defined
    average true range [a]: the stops lie [a * atr_multiplier] from the
    close and the targets one and a half times as far, on the other side. *)
Theorem stop_and_target_levels
    (s : DonchianStrategy) (df : CandleWindow) (ind : Indicators) (a : Q) :
  Donchian.calculate_indicators_body s df = Return ind ->
  atr ind = Fin a ->
  exists c,
    ind_close ind = Fin c /\
    PyFloat.eqv (stop_loss_long ind) (Fin (c - a * atr_multiplier s)) /\
    PyFloat.eqv (stop_loss_short ind) (Fin (c + a * atr_multiplier s)) /\
    PyFloat.eqv (take_profit_long ind)
      (Fin (c + 1.5 * (a * atr_multiplier s))) /\
    PyFloat.eqv (take_profit_short ind)
      (Fin (c - 1.5 * (a * atr_multiplier s))).
Proof.
  intros Hind Ha.
  pose proof (calculate_indicators_body_nonempty s df ind Hind) as Hne.
  pose proof (calculate_indicators_body_fields s df ind Hind)
    as (_ & _ & _ & _ & Hatr & _ & _ & _ & Hsll & _).
  pose proof (calculate_indicators_body_record s df ind Hind)
    as (_ & Hsls & Htpl & Htps & Hcl & _).
  cbv zeta in *.
  destruct (sorted_last_exists df Hne) as [c Hc].
  assert (Hcol : last (Donchian.column close (sort_values true df))
                 = Some (Fin (close c))).
  { unfold Donchian.column. rewrite fmap_last, Hc. reflexivity. }
  rewrite Hcol in Hcl. injection Hcl as Hcl.
  unfold Donchian.stop_loss_long_series_of, Donchian.stop_loss_short_series_of,
    Donchian.take_profit_long_series_of, Donchian.take_profit_short_series_of,
    Donchian.stop_distance_of, Donchian.profit_distance_of in *.
  rewrite last_zip_with, Hcol, fmap_last, Hatr in Hsll, Hsls, Htpl, Htps
    by (rewrite length_fmap, atr_series_length, column_length; reflexivity).
  rewrite Ha in Hsll, Hsls, Htpl, Htps. simpl in Hsll, Hsls, Htpl, Htps.
  injection Hsll as <-. injection Hsls as <-.
  injection Htpl as <-. injection Htps as <-.
  exists (close c). split; [symmetry; exact Hcl|].
  simpl. repeat split; ring.
Qed.

Lemma stop_and_target_levels_witness :
  exists ind a c,
    Donchian.calculate_indicators_body default_donchian breakout_scenario
      = Return ind /\
    atr ind = Fin a /\
    ind_close ind = Fin c /\
    PyFloat.eqv (stop_loss_long ind)
      (Fin (c - a * atr_multiplier default_donchian)) /\
    PyFloat.eqv (stop_loss_short ind)
      (Fin (c + a * atr_multiplier default_donchian)) /\
    PyFloat.eqv (take_profit_long ind)
      (Fin (c + 1.5 * (a * atr_multiplier default_donchian))) /\
    PyFloat.eqv (take_profit_short ind)
      (Fin (c - 1.5 * (a * atr_multiplier default_donchian))).
Proof.
  destruct (calculate_indicators_body_total default_donchian breakout_scenario)
    as [ind Hind]; [discriminate|].
  pose proof (calculate_indicators_body_fields _ _ _ Hind)
    as (_ & _ & _ & _ & Hatr & _).
  destruct (atr_last_defined default_donchian
              (sort_values true breakout_scenario) (atr ind))
    as (a & Ha & _); [vm_compute; lia|exact Hatr|].
  destruct (stop_and_target_levels default_donchian breakout_scenario ind a
              Hind Ha) as (c & H).
  exists ind, a, c. split; [exact Hind|]. split; [exact Ha|exact H].
Defined.

End LevelsAndSoundness.

Section SignalSoundness.
Import Pandas.

Lemma breakout_condition_inv cc bound prev
    (cmp : option pyfloat -> pyfloat -> result bool) vr thr tu :
  Donchian.and_then cc (b ← cmp prev bound; mret (b && (vr >f thr) && tu))
    = Return true ->
  cc = true /\ cmp prev bound = Return true /\ (vr >f thr) = true /\ tu = true.
Proof.
  unfold Donchian.and_then. destruct cc; [|discriminate].
  destruct (cmp prev bound) as [e|b]; simpl; [discriminate|].
  intros [= H]. apply andb_true_iff in H as [H Htu].
  apply andb_true_iff in H as [Hb Hvr]. subst. auto.
Qed.

(** A buy comes from the first branch only, a sell from the second only. *)
Lemma classify_buy_inv s cc prev ind str why :
  Donchian.classify s cc prev ind = Return (buy, str, why) ->
  (cc >f highest_high ind) = true /\
  Donchian.prev_le prev (highest_high ind) = Return true /\
  (volume_ratio ind >f Fin (volume_threshold s)) = true /\
  trend_up ind = true.
Proof.
  unfold Donchian.classify.
  destruct (Donchian.and_then (cc >f highest_high ind) _) as [e|[|]] eqn:Hbuy;
    cbn [mbind mret result_bind result_ret]; [discriminate| |].
  { intros _.
    apply (breakout_condition_inv _ _ _ Donchian.prev_le) in Hbuy. exact Hbuy. }
  destruct (Donchian.and_then (cc <f lowest_low ind) _) as [e|[|]];
    cbn [mbind mret result_bind result_ret]; [discriminate|discriminate|].
  destruct (Donchian.and_then (cc <f exit_low ind) _) as [e|[|]];
    cbn [mbind mret result_bind result_ret]; [discriminate|discriminate|].
  destruct (Donchian.and_then (cc >f exit_high ind) _) as [e|[|]];
    cbn [mbind mret result_bind result_ret]; [discriminate|discriminate|].
  repeat case_match; discriminate.
Qed.

Lemma classify_sell_inv s cc prev ind str why :
  Donchian.classify s cc prev ind = Return (sell, str, why) ->
  (cc <f lowest_low ind) = true /\
  Donchian.prev_ge prev (lowest_low ind) = Return true /\
  (volume_ratio ind >f Fin (volume_threshold s)) = true /\
  trend_up ind = false.
Proof.
  unfold Donchian.classify.
  destruct (Donchian.and_then (cc >f highest_high ind) _) as [e|[|]];
    cbn [mbind mret result_bind result_ret]; [discriminate|discriminate|].
  destruct (Donchian.and_then (cc <f lowest_low ind) _) as [e|[|]] eqn:Hsell;
    cbn [mbind mret result_bind result_ret]; [discriminate| |].
  { intros _.
    apply (breakout_condition_inv _ _ _ Donchian.prev_ge) in Hsell.
    destruct Hsell as (H1 & H2 & H3 & H4).
    apply negb_true_iff in H4. auto. }
  destruct (Donchian.and_then (cc <f exit_low ind) _) as [e|[|]];
    cbn [mbind mret result_bind result_ret]; [discriminate|discriminate|].
  destruct (Donchian.and_then (cc >f exit_high ind) _) as [e|[|]];
    cbn [mbind mret result_bind result_ret]; [discriminate|discriminate|].
  repeat case_match; discriminate.
Qed.

(** What a returned signal dictionary is made of. *)
Lemma generate_signals_body_inv s df ind d :
  Donchian.generate_signals_body s df (Some ind) = Return d ->
  exists cur prev str why,
    head (sort_values false df) = Some cur /\
    Donchian.classify s (Fin (close cur)) prev ind
      = Return (signal d, str, why) /\
    price d = Fin (close cur) /\
    stop_loss_level d =
      (if decide (signal d = buy) then Some (stop_loss_long ind)
       else if decide (signal d = sell) then Some (stop_loss_short ind)
       else None) /\
    take_profit_level d =
      (if decide (signal d = buy) then Some (take_profit_long ind)
       else if decide (signal d = sell) then Some (take_profit_short ind)
       else None).
Proof.
  unfold Donchian.generate_signals_body, iloc.
  rewrite <- head_lookup.
  destruct (head (sort_values false df)) as [cur|]; simpl; [|discriminate].
  match goal with
  | |- context [Donchian.classify s ?cc ?prev ind] =>
      destruct (Donchian.classify s cc prev ind) as [e|[[k str] why]] eqn:Hcl
  end; simpl; [discriminate|].
  intros [= <-]. simpl. eexists _, _, _, _.
  split; [reflexivity|]. split; [exact Hcl|]. auto.
Qed.

Lemma generate_signals_Some_inv s df ind d :
  Donchian.generate_signals s df ind = Return (Some d) ->
  exists ind', ind = Some ind' /\
    Donchian.generate_signals_body s df (Some ind') = Return d.
Proof.
  unfold Donchian.generate_signals, handle_errors.
  destruct ind as [ind'|].
  - destruct (Donchian.generate_signals_body s df (Some ind')) as [e|d']
      eqn:E; intros [= <-]. exists ind'. split; [reflexivity|exact E].
  - destruct (Donchian.generate_signals_body s df None) as [e|d'] eqn:E;
      intros [= <-].
    exfalso. unfold Donchian.generate_signals_body in E.
    destruct (iloc _ 0); simpl in E; discriminate.
Qed.

Lemma generate_signals_sound s df ind d :
  Donchian.generate_signals s df (Some ind) = Return (Some d) ->
  (signal d = buy ->
   (price d >f highest_high ind) = true /\
   (volume_ratio ind >f Fin (volume_threshold s)) = true /\
   trend_up ind = true /\
   stop_loss_level d = Some (stop_loss_long ind) /\
   take_profit_level d = Some (take_profit_long ind)) /\
  (signal d = sell ->
   (price d <f lowest_low ind) = true /\
   (volume_ratio ind >f Fin (volume_threshold s)) = true /\
   trend_up ind = false /\
   stop_loss_level d = Some (stop_loss_short ind) /\
   take_profit_level d = Some (take_profit_short ind)) /\
  (signal d <> buy -> signal d <> sell ->
   stop_loss_level d = None /\ take_profit_level d = None).
Proof.
  intros H. apply generate_signals_Some_inv in H as (ind' & [= <-] & H).
  apply generate_signals_body_inv in H
    as (cur & prev & str & why & _ & Hcl & Hprice & Hsl & Htp).
  rewrite Hprice, Hsl, Htp. split; [|split].
  - intros Hk. rewrite Hk in *.
    apply classify_buy_inv in Hcl as (H1 & _ & H3 & H4).
    repeat split; assumption.
  - intros Hk. rewrite Hk in *.
    apply classify_sell_inv in Hcl as (H1 & _ & H3 & H4).
    repeat split; assumption.
  - intros Hb Hs. repeat case_decide; try contradiction. split; reflexivity.
Qed.

(** X9. A returned buy signal is backed by its conditions: the price is above
    the upper bound, the volume ratio above the threshold and the trend
    filter true, and it carries the long stop and target; a sell mirrors
    this with the lower bound, a false trend filter and the short levels;
    every other kind carries no levels. *)
Theorem breakout_signals_are_backed
    (s : DonchianStrategy) (df : CandleWindow) (ind : Indicators)
    (d : SignalDetails) :
  Donchian.generate_signals s df (Some ind) = Return (Some d) ->
  (signal d = buy ->
   (price d >f highest_high ind) = true /\
   (volume_ratio ind >f Fin (volume_threshold s)) = true /\
   trend_up ind = true /\
   stop_loss_level d = Some (stop_loss_long ind) /\
   take_profit_level d = Some (take_profit_long ind)) /\
  (signal d = sell ->
   (price d <f lowest_low ind) = true /\
   (volume_ratio ind >f Fin (volume_threshold s)) = true /\
   trend_up ind = false /\
   stop_loss_level d = Some (stop_loss_short ind) /\
   take_profit_level d = Some (take_profit_short ind)) /\
  (signal d <> buy -> signal d <> sell ->
   stop_loss_level d = None /\ take_profit_level d = None).
Proof. exact (generate_signals_sound s df ind d). Qed.

Lemma pipeline_Some_inv s df d :
  Donchian.pipeline s df = Return (Some d) ->
  exists ind,
    Donchian.calculate_indicators_body s df = Return ind /\
    Donchian.generate_signals s df (Some ind) = Return (Some d).
Proof.
  unfold Donchian.pipeline, Donchian.calculate_indicators, handle_errors.
  destruct (Donchian.calculate_indicators_body s df) as [e|ind]; simpl.
  - intros H. apply generate_signals_Some_inv in H as (? & [=] & _).
  - eauto.
Qed.

Lemma breakout_signals_are_backed_witness :
  exists ind d,
    Donchian.generate_signals default_donchian corrupt_breakout_window
      (Some ind) = Return (Some d) /\
    (signal d = buy ->
     (price d >f highest_high ind) = true /\
     (volume_ratio ind >f Fin (volume_threshold default_donchian)) = true /\
     trend_up ind = true /\
     stop_loss_level d = Some (stop_loss_long ind) /\
     take_profit_level d = Some (take_profit_long ind)).
Proof.
  destruct (pipeline_strength_bounded default_donchian corrupt_breakout_window)
    as (d & Hd & _).
  - vm_compute. repeat split; try lia. discriminate.
  - vm_compute. lia.
  - vm_compute. repeat constructor.
  - apply pipeline_Some_inv in Hd as (ind & _ & Hg).
    exists ind, d. split; [exact Hg|].
    apply (breakout_signals_are_backed default_donchian
             corrupt_breakout_window ind d Hg).
Defined.

(** X10. On fewer than 50 bars the 50-bar average is missing, the trend filter
    is false, and no buy signal is returned, whatever the bars are.  With
    the default parameters [analyze] accepts windows from 30 bars on. *)
Theorem short_window_never_buys
    (s : DonchianStrategy) (df : CandleWindow) (d : SignalDetails) :
  length df < 50 ->
  Donchian.pipeline s df = Return (Some d) ->
  signal d <> buy.
Proof.
  intros Hlen Hp Hk.
  apply pipeline_Some_inv in Hp as (ind & Hind & Hg).
  pose proof (trend_filter_needs_50_bars s df ind Hlen Hind) as Htu.
  destruct (generate_signals_sound s df ind d Hg) as (Hbuy & _).
  destruct (Hbuy Hk) as (_ & _ & Htrue & _). congruence.
Qed.

Lemma short_window_never_buys_witness :
  exists d,
    Donchian.pipeline default_donchian breakout_scenario = Return (Some d) /\
    signal d <> buy.
Proof.
  destruct (pipeline_on_well_formed_window default_donchian breakout_scenario)
    as (d & Hd & _).
  - vm_compute. repeat constructor; discriminate.
  - apply (bool_decide_unpack _). vm_compute. exact I.
  - discriminate.
  - exists d. split; [exact Hd|].
    apply (short_window_never_buys default_donchian breakout_scenario d);
      [vm_compute; lia|exact Hd].
Defined.

(** X11. On a non-empty window of bars that close within their range, with
    pairwise distinct timestamps, a signal is returned and its kind is
    buy_weak, sell_weak or neutral: the exit kinds are as unreachable as buy
    and sell, since the exit channel includes the current bar too. *)
Theorem well_formed_window_only_weak_or_neutral
    (s : DonchianStrategy) (df : CandleWindow) :
  Forall Donchian.close_within_range df ->
  NoDup (timestamp <$> df) ->
  df <> [] ->
  exists d,
    Donchian.pipeline s df = Return (Some d) /\
    (signal d = buy_weak \/ signal d = sell_weak \/ signal d = neutral).
Proof. exact (pipeline_on_well_formed_window s df). Qed.

Lemma well_formed_window_only_weak_or_neutral_witness :
  exists d,
    Donchian.pipeline default_donchian breakout_scenario = Return (Some d) /\
    (signal d = buy_weak \/ signal d = sell_weak \/ signal d = neutral).
Proof.
  apply well_formed_window_only_weak_or_neutral.
  - vm_compute. repeat constructor; discriminate.
  - apply (bool_decide_unpack _). vm_compute. exact I.
  - discriminate.
Defined.

End SignalSoundness.

(** ** More on the connection monitor *)

Section MonitorPasses.
Import Monitor.
Variable cfg : Config.

Lemma run_exited st obs : exited st = true -> run cfg st obs = (st, []).
Proof. intros H. destruct obs; simpl; [reflexivity|]. rewrite H. reflexivity. Qed.

Lemma run_cons st o obs :
  exited st = false ->
  run cfg st (o :: obs) =
  ((run cfg (step cfg st o).1 obs).1,
   (step cfg st o).2 ++ (run cfg (step cfg st o).1 obs).2).
Proof.
  intros H. simpl. rewrite H.
  destruct (step cfg st o) as [st1 acts1]. cbn [fst snd].
  destruct (run cfg st1 obs) as [st2 acts2]. reflexivity.
Qed.

(** A pass that is not the last one sleeps exactly once, keeps the loop
    running, and changes the counter only on a reconnect. *)
Lemma step_pass st o :
  MonitorObs.is_stop o = false ->
  exited (step cfg st o).1 = false /\
  (exists d, sleeps (step cfg st o).2 = [d] /\
     (d = 10 \/ d = reconnect_interval cfg \/ d = reconnect_interval cfg * 2)) /\
  (MonitorObs.no_reset o = true ->
   reconnect_attempts (step cfg st o).1
   = reconnect_attempts st + (if MonitorObs.is_failure o then 1 else 0)).
Proof.
  intros Hs. destruct o as [|t|t| |]; try discriminate; simpl.
  - unfold heartbeat. destruct (Qltb _ _); simpl;
      (split; [reflexivity|]; split; [eauto|]; intros _; lia).
  - unfold heartbeat. destruct (Qltb _ _); simpl;
      (split; [reflexivity|]; split; [eauto|]; discriminate).
  - split; [reflexivity|]. split; [|intros _; reflexivity].
    destruct (_ <=? _); simpl; eauto.
  - split; [reflexivity|]. split; [eauto|]. intros _. lia.
Qed.

(** X12. The loop never spins: as long as it is not stopped, every pass ends in
    exactly one sleep, of 10 seconds, the reconnect interval or twice the
    reconnect interval, and the loop keeps running. *)
Theorem every_pass_sleeps_once (st : MonitorState) (obs : list Observation) :
  exited st = false ->
  forallb (fun o => negb (MonitorObs.is_stop o)) obs = true ->
  let out := run cfg st obs in
  length (sleeps out.2) = length obs /\
  exited out.1 = false /\
  Forall (fun d => d = 10 \/ d = reconnect_interval cfg
                   \/ d = reconnect_interval cfg * 2) (sleeps out.2).
Proof.
  revert st. induction obs as [|o obs IH]; intros st Hst Hobs; cbv zeta.
  - simpl. auto.
  - simpl in Hobs. apply andb_true_iff in Hobs as [Ho Hobs].
    apply negb_true_iff in Ho.
    rewrite (run_cons st o obs Hst). cbn [fst snd].
    destruct (step_pass st o Ho) as (Hex & (d & Hd & Hdv) & _).
    destruct (IH (step cfg st o).1 Hex Hobs) as (Hlen & Hex' & Hall).
    rewrite sleeps_app, Hd. simpl. rewrite Hlen.
    repeat split; [exact Hex'|]. constructor; assumption.
Qed.

(** X13. The failure counter counts the failed reconnects since the last
    successful one: passes that find the socket connected, or that end in
    the [except] clause, leave it as it is. *)
Theorem failure_counter_counts_failures
    (st : MonitorState) (obs : list Observation) :
  exited st = false ->
  forallb MonitorObs.no_reset obs = true ->
  reconnect_attempts (run cfg st obs).1
  = reconnect_attempts st + length (List.filter MonitorObs.is_failure obs).
Proof.
  revert st. induction obs as [|o obs IH]; intros st Hst Hobs.
  - simpl. lia.
  - simpl in Hobs. apply andb_true_iff in Hobs as [Ho Hobs].
    assert (Hs : MonitorObs.is_stop o = false) by (destruct o; auto; discriminate).
    rewrite (run_cons st o obs Hst). cbn [fst].
    destruct (step_pass st o Hs) as (Hex & _ & Hc).
    rewrite (IH _ Hex Hobs), (Hc Ho). simpl.
    destruct (MonitorObs.is_failure o); simpl; lia.
Qed.

(** X14. Once the running flag is read as false the loop ends: whatever would
    have been observed afterwards, nothing more is logged, attempted or
    slept. *)
Theorem nothing_happens_after_stop
    (st : MonitorState) (before after : list Observation) :
  let out := run cfg st (before ++ Stopped :: after) in
  out.2 = (run cfg st before).2 /\
  (exited st = false -> exited out.1 = true).
Proof.
  revert st. induction before as [|o before IH]; intros st; cbv zeta.
  - cbn [app]. destruct (exited st) eqn:Hst.
    + rewrite run_exited by exact Hst. simpl. split; [reflexivity|discriminate].
    + rewrite (run_cons st Stopped after Hst). cbn [step fst snd].
      rewrite run_exited by reflexivity. simpl. auto.
  - cbn [app]. destruct (exited st) eqn:Hst.
    + rewrite !run_exited by exact Hst. split; [reflexivity|discriminate].
    + rewrite !(run_cons st o _ Hst). cbn [fst snd].
      destruct (IH (step cfg st o).1) as [Hacts Hex]. rewrite Hacts.
      split; [reflexivity|]. intros _.
      destruct (exited (step cfg st o).1) eqn:E; [|auto].
      rewrite run_exited by exact E. exact E.
Qed.

End MonitorPasses.

Lemma every_pass_sleeps_once_witness :
  let obs := [Monitor.ReconnectFailed; Monitor.Connected 5;
              Monitor.Reconnected 40; Monitor.Crashed] in
  let out := Monitor.run Monitor.default_config Monitor.initial_state obs in
  length (Monitor.sleeps out.2) = length obs /\
  Monitor.exited out.1 = false /\
  Forall (fun d => d = 10
                   \/ d = Monitor.reconnect_interval Monitor.default_config
                   \/ d = Monitor.reconnect_interval Monitor.default_config * 2)
         (Monitor.sleeps out.2).
Proof.
  intros obs.
  apply (every_pass_sleeps_once Monitor.default_config Monitor.initial_state obs);
    reflexivity.
Defined.

Lemma failure_counter_counts_failures_witness :
  Monitor.reconnect_attempts
    (Monitor.run Monitor.default_config Monitor.initial_state
       [Monitor.ReconnectFailed; Monitor.Connected 5;
        Monitor.ReconnectFailed; Monitor.Crashed]).1
  = Monitor.reconnect_attempts Monitor.initial_state + 2.
Proof.
  apply (failure_counter_counts_failures Monitor.default_config
           Monitor.initial_state
           [Monitor.ReconnectFailed; Monitor.Connected 5;
            Monitor.ReconnectFailed; Monitor.Crashed]); reflexivity.
Defined.

Lemma nothing_happens_after_stop_witness :
  Monitor.exited
    (Monitor.run Monitor.default_config Monitor.initial_state
       ([Monitor.ReconnectFailed] ++ Monitor.Stopped
        :: [Monitor.ReconnectFailed])).1 = true.
Proof.
  apply (nothing_happens_after_stop Monitor.default_config
           Monitor.initial_state [Monitor.ReconnectFailed]
           [Monitor.ReconnectFailed]).
  reflexivity.
Defined.

(** ** The retry decorator *)

Section RetryDecorator.
Import Decorators.
Context {A : Type}.
Variable func : nat -> result A.
Variable max_attempts : nat.
Variable delay : Q.
Variable exponential_backoff : bool.
Variable allowed_exceptions : AllowedExceptions.

Local Abbreviation attempts_of :=
  (attempts func max_attempts delay exponential_backoff allowed_exceptions).
Local Abbreviation delay_of := (current_delay delay exponential_backoff).
Local Abbreviation stops := (stops_at func max_attempts allowed_exceptions).

Lemma current_delay_nonneg k : (0 <= delay)%Q -> (0 <= delay_of k)%Q.
Proof.
  intros Hd. unfold current_delay. destruct exponential_backoff; [|exact Hd].
  apply Qmult_le_0_compat; [exact Hd|].
  replace 0%Q with (inject_Z 0) by reflexivity.
  rewrite <- Zle_Qle. apply Z.pow_nonneg. lia.
Qed.

(** The attempt that stops the loop decides the outcome. *)
Lemma attempts_decided n start last_exception k :
  (0 <= delay)%Q ->
  start <= k < start + n ->
  (forall j, start <= j < k -> stops j = false) ->
  stops k = true ->
  attempts_of (seq start n) last_exception =
  {| outcome := func k; calls := S (k - start);
     slept := delay_of <$> seq start (k - start) |}.
Proof.
  intros Hd. revert start last_exception.
  induction n as [|n IH]; intros start last_exception Hk Hbefore Hstop; [lia|].
  cbn [seq attempts].
  destruct (decide (start = k)) as [->|Hne].
  - replace (k - k) with 0 by lia. unfold stops_at in Hstop.
    destruct (func k) as [e|a]; [|reflexivity].
    destruct (negb (should_retry allowed_exceptions e)); [reflexivity|].
    simpl in Hstop. rewrite Hstop. reflexivity.
  - assert (Hs : stops start = false) by (apply Hbefore; lia).
    unfold stops_at in Hs.
    destruct (func start) as [e|a]; [|discriminate].
    apply orb_false_iff in Hs as [Hs1 Hs2]. rewrite Hs1, Hs2.
    assert (Hq : Qltb (delay_of start) 0 = false).
    { apply Qltb_false. apply current_delay_nonneg, Hd. }
    rewrite Hq.
    rewrite (IH (S start) (Some e)); [|lia|intros j Hj; apply Hbefore; lia|exact Hstop].
    replace (k - start) with (S (k - S start)) by lia.
    reflexivity.
Qed.

(** The shape of every run of the loop. *)
Lemma attempts_shape n start last_exception :
  let r := attempts_of (seq start n) last_exception in
  slept r = delay_of <$> seq start (length (slept r)) /\
  calls r <= n /\
  (0 < n -> start + n = S max_attempts -> calls r = S (length (slept r))).
Proof.
  revert start last_exception. induction n as [|n IH];
    intros start last_exception; cbv zeta.
  - simpl. repeat split; lia.
  - cbn [seq attempts].
    destruct (func start) as [e|a]; [|simpl; repeat split; lia].
    destruct (negb (should_retry allowed_exceptions e));
      [simpl; repeat split; lia|].
    destruct (start =? max_attempts) eqn:Emax; [simpl; repeat split; lia|].
    destruct (Qltb (delay_of start) 0); [simpl; repeat split; lia|].
    destruct (IH (S start) (Some e)) as (Hsl & Hc & Hlen).
    cbn [outcome calls slept length]. split; [|split].
    + cbn [seq fmap list_fmap]. f_equal. exact Hsl.
    + lia.
    + intros _ Hsum. apply Nat.eqb_neq in Emax. f_equal. apply Hlen; lia.
Qed.

(** X15. The loop ends at the first attempt that returns, raises an exception
    that is not to be retried, or is the last one; the wrapper then returns
    or raises what that call did, having called the function once per
    attempt and slept the scheduled delay after each earlier attempt. *)
Theorem retry_is_decided_by_the_first_stopping_attempt (k : nat) :
  (0 <= delay)%Q ->
  1 <= k <= max_attempts ->
  (forall j, 1 <= j < k -> stops j = false) ->
  stops k = true ->
  retry func max_attempts delay exponential_backoff allowed_exceptions =
  {| outcome := func k; calls := k; slept := delay_of <$> seq 1 (k - 1) |}.
Proof.
  intros Hd Hk Hbefore Hstop. unfold retry.
  rewrite (attempts_decided max_attempts 1 None k Hd); [|lia|exact Hbefore|exact Hstop].
  replace (S (k - 1)) with k by lia. reflexivity.
Qed.

(** X16. Whatever the wrapped function does, with at least one attempt allowed
    it is called at least once and at most [max_attempts] times, with
    exactly one sleep between consecutive calls and none after the last;
    the sleeps follow the schedule, which doubles from one attempt to the
    next under exponential backoff. *)
Theorem retry_calls_and_sleeps :
  1 <= max_attempts ->
  let r := retry func max_attempts delay exponential_backoff
             allowed_exceptions in
  1 <= calls r <= max_attempts /\
  length (slept r) = calls r - 1 /\
  slept r = delay_of <$> seq 1 (calls r - 1) /\
  (exponential_backoff = true ->
   forall k, 1 <= k -> (delay_of (S k) == 2 * delay_of k)%Q).
Proof.
  intros Hmax. cbv zeta. unfold retry.
  destruct (attempts_shape max_attempts 1 None) as (Hsl & Hc & Hlen).
  specialize (Hlen ltac:(lia) ltac:(lia)).
  rewrite Hlen. replace (S _ - 1) with
    (length (slept (attempts_of (seq 1 max_attempts) None))) by lia.
  repeat split; try lia; [exact Hsl|].
  intros -> k Hk. unfold current_delay.
  replace (S k - 1) with (S (k - 1)) by lia.
  rewrite Nat2Z.inj_succ, Z.pow_succ_r by lia.
  rewrite inject_Z_mult. ring.
Qed.

(** X17. Two edges.  With no attempt allowed the function is never called and
    the wrapper raises TypeError (it raises the [None] it started with).
    With a negative delay the first failure that would be retried ends in
    the ValueError of the sleep: the function is called once and its own
    exception is lost. *)
Theorem retry_edges :
  (max_attempts = 0 ->
   retry func max_attempts delay exponential_backoff allowed_exceptions
   = {| outcome := Raise TypeError; calls := 0; slept := [] |}) /\
  ((delay < 0)%Q -> 2 <= max_attempts -> stops 1 = false ->
   retry func max_attempts delay exponential_backoff allowed_exceptions
   = {| outcome := Raise ValueError; calls := 1; slept := [] |}).
Proof.
  split.
  - intros ->. reflexivity.
  - intros Hd Hmax Hs. unfold retry.
    destruct max_attempts as [|m]; [lia|]. cbn [seq attempts].
    unfold stops_at in Hs. destruct (func 1) as [e|a]; [|discriminate].
    apply orb_false_iff in Hs as [Hs1 Hs2]. rewrite Hs1, Hs2.
    assert (Hq : Qltb (delay_of 1) 0 = true).
    { apply Qltb_true. unfold current_delay.
      destruct exponential_backoff; [|exact Hd].
      change (inject_Z (2 ^ Z.of_nat (1 - 1))) with 1%Q.
      rewrite Qmult_1_r. exact Hd. }
    rewrite Hq. reflexivity.
Qed.

End RetryDecorator.

Lemma retry_is_decided_by_the_first_stopping_attempt_witness :
  Decorators.retry
    (fun k => if k <? 3 then Raise RuntimeError else Return k) 5 2 true None =
  {| Decorators.outcome := Return 3; Decorators.calls := 3;
     Decorators.slept := Decorators.current_delay 2 true <$> seq 1 (3 - 1) |}.
Proof.
  apply (retry_is_decided_by_the_first_stopping_attempt
           (fun k => if k <? 3 then Raise RuntimeError else Return k)
           5 2 true None 3).
  - discriminate.
  - lia.
  - intros j Hj. assert (j = 1 \/ j = 2) as [->| ->] by lia; reflexivity.
  - reflexivity.
Defined.

Lemma retry_calls_and_sleeps_witness :
  let r := Decorators.retry (fun _ : nat => @Raise nat RuntimeError) 3 2 true
             None in
  1 <= Decorators.calls r <= 3 /\
  length (Decorators.slept r) = Decorators.calls r - 1 /\
  Decorators.slept r
    = Decorators.current_delay 2 true <$> seq 1 (Decorators.calls r - 1) /\
  (true = true ->
   forall k, 1 <= k ->
     (Decorators.current_delay 2 true (S k)
      == 2 * Decorators.current_delay 2 true k)%Q).
Proof.
  apply (retry_calls_and_sleeps (fun _ : nat => @Raise nat RuntimeError)
           3 2 true None).
  lia.
Defined.

Lemma retry_edges_witness :
  Decorators.retry (fun _ : nat => @Raise nat RuntimeError) 3 (-1) false None
  = {| Decorators.outcome := Raise ValueError; Decorators.calls := 1;
       Decorators.slept := [] |}.
Proof.
  apply (proj2 (retry_edges (fun _ : nat => @Raise nat RuntimeError)
                  3 (-1) false None)).
  - reflexivity.
  - lia.
  - reflexivity.
Defined.

(** ** The API-call decorator *)

Section SafeApiCall.
Import Decorators.
Context {P : Type}.

(** X18. For a wrapped function that has a [__name__] the wrapper never
    raises; without one, an exception of the wrapped call (the first, or
    the repeated one after a rate limit) comes out as AttributeError.  The
    wrapper returns [None] exactly when the first call raised (and the
    function has a name), or returned [None], or returned a response with
    return code 0 whose "result" entry is [None], or a non-zero return code
    that is not a rate limit, or hit a rate limit and the repeated call
    returned [None] or raised.  A response with return code 0 is unwrapped
    to its "result" entry when it has one. *)
Theorem safe_api_call_returns
    (has_name : bool) (first second : result (PyValue P)) :
  let r := safe_api_call has_name first second in
  (has_name = true -> exists v, outcome r = Return v) /\
  (forall e, outcome r = Raise e <->
     e = AttributeError /\ has_name = false /\
     ((exists e1, first = Raise e1) \/
      (exists code res e2,
         first = Return (JsonDict (Some code) res) /\ code <> 0%Z /\
         is_rate_limit code = true /\ second = Raise e2))) /\
  (outcome r = Return PyNone <->
   (has_name = true /\ exists e, first = Raise e) \/
   first = Return PyNone \/
   (exists code res, first = Return (JsonDict (Some code) res) /\
      ((code = 0%Z /\ res = Some EntryNone) \/
       (code <> 0%Z /\ is_rate_limit code = false) \/
       (code <> 0%Z /\ is_rate_limit code = true /\
        (second = Return PyNone \/
         (has_name = true /\ exists e, second = Raise e)))))) /\
  (forall res, first = Return (JsonDict (Some 0%Z) res) ->
     outcome r = Return (get_result (Some 0%Z) res) /\ calls r = 1).
Proof.
  cbv zeta. unfold safe_api_call, on_exception, is_rate_limit.
  destruct first as [e1|[|[code|] res|v]].
  - (* the first call raised *)
    destruct has_name.
    + split; [eauto|]. split; [|split].
      * intros e. split; [intros [=]|intros (_ & [=] & _)].
      * split; [intros _; left; eauto|reflexivity].
      * intros res [=].
    + split; [intros [=]|]. split; [|split].
      * intros e. split.
        -- intros [= <-]. repeat split. left. eauto.
        -- intros (-> & _ & _). reflexivity.
      * split; [intros [=]|].
        intros [[[=] _]|[[=]|(c & r & [=] & _)]].
      * intros res [=].
  - (* the response is None *)
    split; [eauto|]. split; [|split].
    + intros e. split; [intros [=]|].
      intros (_ & _ & [[e1 [=]]|(c & r & e2 & [=] & _)]).
    + split; [intros _; right; left; reflexivity|reflexivity].
    + intros res [=].
  - (* a dictionary with a return code *)
    destruct (code =? 0)%Z eqn:E0.
    { apply Z.eqb_eq in E0. subst code.
      split; [eauto|]. split; [|split].
      - intros e. split; [intros [=]|].
        intros (_ & _ & [[e1 [=]]|(c & r & e2 & [= <- <-] & Hc & _)]). lia.
      - split.
        + destruct res as [[|p]|]; cbn [get_result outcome]; intros [=].
          right. right. exists 0%Z, (Some EntryNone).
          split; [reflexivity|]. left. split; reflexivity.
        + intros [[_ [e [=]]]|[[=]|(c & r & [= <- <-] & H)]].
          destruct H as [[_ ->]|[[Hc _]|[Hc _]]]; [reflexivity|lia|lia].
      - intros res' [= <-]. split; reflexivity. }
    apply Z.eqb_neq in E0.
    destruct (code =? 10001)%Z eqn:E1.
    { apply Z.eqb_eq in E1.
      assert (Hrl : (code =? 10006)%Z || (code =? 10016)%Z = false)
        by (subst code; reflexivity).
      split; [eauto|]. split; [|split].
      - intros e. split; [intros [=]|].
        intros (_ & _ & [[e1 [=]]|(c & r & e2 & [= <- <-] & _ & Hr & _)]).
        congruence.
      - split; [|reflexivity]. intros _. right. right.
        exists code, res. split; [reflexivity|]. right. left. auto.
      - intros res' [= Hc]. lia. }
    destruct (code =? 10003)%Z eqn:E3.
    { apply Z.eqb_eq in E3.
      assert (Hrl : (code =? 10006)%Z || (code =? 10016)%Z = false)
        by (subst code; reflexivity).
      split; [eauto|]. split; [|split].
      - intros e. split; [intros [=]|].
        intros (_ & _ & [[e1 [=]]|(c & r & e2 & [= <- <-] & _ & Hr & _)]).
        congruence.
      - split; [|reflexivity]. intros _. right. right.
        exists code, res. split; [reflexivity|]. right. left. auto.
      - intros res' [= Hc]. lia. }
    destruct ((code =? 10006)%Z || (code =? 10016)%Z) eqn:Er.
    + (* rate limit: the call is repeated *)
      cbn [outcome calls].
      split; [|split; [|split]].
      * intros ->. destruct second; eauto.
      * intros e. split.
        -- destruct second as [e2|r2]; [|intros [=]].
           destruct has_name; intros [= <-]. repeat split.
           right. exists code, res, e2. auto.
        -- intros (-> & -> & [[e1 [=]]|(c & r & e2 & [= <- <-] & _ & _ & ->)]).
           reflexivity.
      * split.
        -- destruct second as [e2|r2].
           ++ destruct has_name; intros [=]. right. right.
              exists code, res. split; [reflexivity|]. right. right.
              repeat split; auto. right. split; eauto.
           ++ intros [= ->]. right. right.
              exists code, res. split; [reflexivity|]. right. right.
              repeat split; auto.
        -- intros [[_ [e [=]]]|[[=]|(c & r & [= <- <-] & H)]].
           destruct H as [[Hc _]|[[_ Hr]|(_ & _ & [->|[-> [e ->]]])]];
             [lia|congruence|reflexivity|reflexivity].
      * intros res' [= Hc]. lia.
    + (* any other error code *)
      split; [eauto|]. split; [|split].
      * intros e. split; [intros [=]|].
        intros (_ & _ & [[e1 [=]]|(c & r & e2 & [= <- <-] & _ & Hr & _)]).
        congruence.
      * split; [|reflexivity]. intros _. right. right.
        exists code, res. split; [reflexivity|]. right. left. auto.
      * intros res' [= Hc]. lia.
  - (* a dictionary without a return code *)
    split; [eauto|]. split; [|split].
    + intros e. split; [intros [=]|].
      intros (_ & _ & [[e1 [=]]|(c & r & e2 & [=] & _)]).
    + split; [intros [=]|].
      intros [[_ [e [=]]]|[[=]|(c & r & [=] & _)]].
    + intros res' [=].
  - (* any other value *)
    split; [eauto|]. split; [|split].
    + intros e. split; [intros [=]|].
      intros (_ & _ & [[e1 [=]]|(c & r & e2 & [=] & _)]).
    + split; [intros [=]|].
      intros [[_ [e [=]]]|[[=]|(c & r & [=] & _)]].
    + intros res' [=].
Qed.

(** X19. On a rate-limit code (10006 or 10016) the wrapper sleeps 2 seconds,
    calls the function a second and last time, and returns that response as
    it came: a successful one is not unwrapped to its "result" entry, and
    an error response, or another rate limit, reaches the caller instead
    of [None]. *)
Theorem safe_api_call_rate_limit
    (has_name : bool) (code : Z) (res : option (ResultEntry P))
    (second : PyValue P) :
  code = 10006%Z \/ code = 10016%Z ->
  safe_api_call has_name (Return (JsonDict (Some code) res)) (Return second)
  = {| outcome := Return second; calls := 2; slept := [2%Q] |}.
Proof.
  intros [-> | ->]; reflexivity.
Qed.

End SafeApiCall.

Lemma safe_api_call_rate_limit_witness :
  Decorators.safe_api_call true
    (Return (Decorators.JsonDict (Some 10006%Z)
               (None : option (Decorators.ResultEntry nat))))
    (Return (Decorators.JsonDict (Some 10006%Z) None))
  = {| Decorators.outcome :=
         Return (Decorators.JsonDict (Some 10006%Z) None);
       Decorators.calls := 2; Decorators.slept := [2%Q] |}.
Proof.
  apply (safe_api_call_rate_limit true 10006 None
           (Decorators.JsonDict (Some 10006%Z) None)).
  left. reflexivity.
Defined.

Lemma safe_api_call_returns_witness :
  (exists v : Decorators.PyValue nat,
     Decorators.outcome
       (Decorators.safe_api_call true (Raise RuntimeError)
          (Raise RuntimeError)) = Return v) /\
  (let r := Decorators.safe_api_call true
              (Return (Decorators.JsonDict (Some 0%Z)
                         (Some (Decorators.EntryValue 7))))
              (Raise RuntimeError) in
   Decorators.outcome r = Return (Decorators.Opaque 7) /\
   Decorators.calls r = 1).
Proof.
  split.
  - apply (proj1 (safe_api_call_returns true (Raise RuntimeError)
                    (Raise RuntimeError))).
    reflexivity.
  - apply (proj2 (proj2 (proj2 (safe_api_call_returns true
             (Return (Decorators.JsonDict (Some 0%Z)
                        (Some (Decorators.EntryValue 7))))
             (Raise RuntimeError))))
             (Some (Decorators.EntryValue 7))).
    reflexivity.
Defined.

(** ** Subscriptions and dispatch *)

Section Subscriptions.
Import WebSocket.

Lemma split_no_dot (s : string) :
  PyStr.has_dot s = false -> PyStr.split s = [s].
Proof.
  induction s as [|c s IH]; [reflexivity|].
  cbn [PyStr.has_dot PyStr.split]. intros H.
  apply orb_false_iff in H as [Hc Hs].
  rewrite Hc, (IH Hs). reflexivity.
Qed.

Lemma split_app_dot (a b : string) :
  PyStr.has_dot a = false ->
  PyStr.split (a +:+ String PyStr.dot b) = a :: PyStr.split b.
Proof.
  induction a as [|c a IH]; intros H.
  - reflexivity.
  - cbn [PyStr.has_dot] in H. apply orb_false_iff in H as [Hc Ha].
    change (String c a +:+ String PyStr.dot b)
      with (String c (a +:+ String PyStr.dot b)).
    change (PyStr.split (String c (a +:+ String PyStr.dot b)))
      with (if Ascii.eqb c PyStr.dot
            then EmptyString :: PyStr.split (a +:+ String PyStr.dot b)
            else match PyStr.split (a +:+ String PyStr.dot b) with
                 | piece :: pieces => String c piece :: pieces
                 | [] => [String c EmptyString]
                 end).
    rewrite Hc, (IH Ha). reflexivity.
Qed.

Lemma route_kline (interval symbol : string) :
  PyStr.has_dot interval = false -> PyStr.has_dot symbol = false ->
  route_topic ("kline." +:+ interval +:+ "." +:+ symbol)
  = ToStream (KlineStream interval symbol).
Proof.
  intros Hi Hs.
  change (route_topic ("kline." +:+ interval +:+ "." +:+ symbol))
    with (match PyStr.split ("kline" +:+ String PyStr.dot
                               (interval +:+ String PyStr.dot symbol)) with
          | [_; i; s] => ToStream (KlineStream i s)
          | _ => InvalidKline
          end).
  rewrite (split_app_dot "kline") by reflexivity.
  rewrite (split_app_dot interval) by assumption.
  rewrite (split_no_dot symbol) by assumption. reflexivity.
Qed.

Lemma route_ticker (symbol : string) :
  route_topic ("ticker." +:+ symbol)
  = match symbol with
    | EmptyString => InvalidTicker
    | String _ _ => ToStream (TickerStream symbol)
    end.
Proof. destruct symbol; reflexivity. Qed.

Lemma _subscribe_topic_connected (sock : Socket) (conn : Connection)
    (topic : string) (callback : option Callback) :
  ws sock = Some conn ->
  _subscribe_topic sock topic callback
  = let sock1 := match callback with
                 | Some cb => with_callback sock topic cb
                 | None => sock
                 end in
    match stream_on conn topic with
    | Some s => (with_opened sock1 s, true)
    | None => (sock1, false)
    end.
Proof.
  intros H. unfold _subscribe_topic, stream_on. rewrite H. cbv zeta.
  destruct (route_topic topic); [destruct (stream_ok conn s)|..]; reflexivity.
Qed.

Lemma accepted_stream_on (conn : Connection) (topic : string) :
  accepted conn topic = true <-> is_Some (stream_on conn topic).
Proof.
  unfold accepted. split.
  - intros H. apply (bool_decide_unpack _). rewrite H. exact I.
  - intros H. apply bool_decide_eq_true. exact H.
Qed.

Lemma accepted_Some (conn : Connection) (topic : string) (s : Stream) :
  stream_on conn topic = Some s -> accepted conn topic = true.
Proof. intros H. apply accepted_stream_on. eauto. Qed.

Lemma accepted_None (conn : Connection) (topic : string) :
  stream_on conn topic = None -> accepted conn topic = false.
Proof.
  intros H. destruct (accepted conn topic) eqn:E; [|reflexivity].
  apply accepted_stream_on in E as [s Hs]. congruence.
Qed.

Lemma subscribe_loop_spec (conn : Connection) (callback : option Callback)
    (todo : list string) :
  forall (sock : Socket) (success : bool),
  ws sock = Some conn ->
  let r := subscribe_loop sock todo callback success in
  r.2 = success && forallb (accepted conn) todo /\
  (forall t, t ∈ topics r.1 <->
             t ∈ topics sock \/ (t ∈ todo /\ accepted conn t = true)) /\
  opened r.1 = opened sock ++ omap (stream_on conn) todo /\
  (forall t, callbacks r.1 !! t = stored callback todo (callbacks sock) t) /\
  ws r.1 = ws sock /\ is_running r.1 = is_running sock /\
  monitor_alive r.1 = monitor_alive sock /\
  websocket_class r.1 = websocket_class sock.
Proof.
  induction todo as [|topic rest IH]; intros sock success Hws; cbv zeta.
  - cbn [subscribe_loop fst snd forallb omap]. rewrite andb_true_r, app_nil_r.
    repeat split; try reflexivity.
    + intros H; left; exact H.
    + intros [H|[H _]]; [exact H|]. inversion H.
    + intros t. unfold stored. destruct callback; [|reflexivity].
      rewrite bool_decide_eq_false_2; [reflexivity|]. intros H; inversion H.
  - cbn [subscribe_loop]. rewrite (_subscribe_topic_connected _ conn) by exact Hws.
    cbv zeta.
    set (sock1 := match callback with
                  | Some cb => with_callback sock topic cb
                  | None => sock
                  end).
    assert (Hws1 : ws sock1 = Some conn) by (subst sock1; destruct callback; exact Hws).
    assert (Hcb1 : forall t, callbacks sock1 !! t
                   = stored callback [topic] (callbacks sock) t).
    { intros t. subst sock1. unfold stored. destruct callback as [cb|]; [|reflexivity].
      cbn [with_callback callbacks].
      destruct (decide (t = topic)) as [->|Hne].
      - rewrite lookup_insert_eq, bool_decide_eq_true_2; [reflexivity|].
        apply list_elem_of_singleton. reflexivity.
      - rewrite lookup_insert_ne by congruence.
        rewrite bool_decide_eq_false_2; [reflexivity|].
        rewrite list_elem_of_singleton. exact Hne. }
    assert (Hw1 : ws sock1 = ws sock) by (subst sock1; destruct callback; reflexivity).
    assert (Hrest1 : topics sock1 = topics sock /\ opened sock1 = opened sock /\
                     is_running sock1 = is_running sock /\
                     monitor_alive sock1 = monitor_alive sock /\
                     websocket_class sock1 = websocket_class sock)
      by (subst sock1; destruct callback; repeat split; reflexivity).
    destruct Hrest1 as (Ht1 & Ho1 & Hr1 & Hm1 & Hc1).
    assert (Hstored : forall t s2,
              (forall t, callbacks s2 !! t = callbacks sock1 !! t) ->
              stored callback rest (callbacks s2) t
              = stored callback (topic :: rest) (callbacks sock) t).
    { intros t s2 H2. unfold stored. destruct callback as [cb|].
      - destruct (bool_decide (t ∈ rest)) eqn:Er.
        + apply bool_decide_eq_true in Er.
          rewrite bool_decide_eq_true_2; [reflexivity|].
          apply list_elem_of_further. exact Er.
        + apply bool_decide_eq_false in Er. rewrite H2, Hcb1. unfold stored.
          destruct (decide (t = topic)) as [->|Hne].
          * rewrite !bool_decide_eq_true_2; [reflexivity|..];
              try apply list_elem_of_here;
              apply list_elem_of_singleton; reflexivity.
          * rewrite !bool_decide_eq_false_2; [reflexivity|..].
            -- rewrite elem_of_cons. intros [H|H]; contradiction.
            -- rewrite list_elem_of_singleton. exact Hne.
      - rewrite H2, Hcb1. reflexivity. }
    destruct (stream_on conn topic) as [s|] eqn:Es.
    + pose proof (accepted_Some _ _ _ Es) as Ha.
      specialize (IH (with_topic (with_opened sock1 s) topic) (success && true)
                     Hws1).
      cbv zeta in IH.
      destruct IH as (I1 & I2 & I3 & I4 & I5 & I6 & I7 & I8).
      split; [|split; [|split; [|split; [|repeat split]]]].
      * rewrite I1. cbn [forallb]. rewrite Ha, andb_true_r. reflexivity.
      * intros t. rewrite I2. cbn [with_topic with_opened topics].
        rewrite Ht1, elem_of_union, elem_of_singleton, elem_of_cons.
        split.
        -- intros [[->|H]|[H1 H2]]; auto.
        -- intros [H|[[->|H1] H2]]; auto.
      * rewrite I3. cbn [with_topic with_opened opened omap list_omap].
        rewrite Es, Ho1, <- app_assoc. reflexivity.
      * intros t. rewrite I4. apply Hstored. reflexivity.
      * rewrite I5. exact Hw1.
      * rewrite I6. exact Hr1.
      * rewrite I7. exact Hm1.
      * rewrite I8. exact Hc1.
    + pose proof (accepted_None _ _ Es) as Ha.
      specialize (IH sock1 (success && false) Hws1).
      cbv zeta in IH.
      destruct IH as (I1 & I2 & I3 & I4 & I5 & I6 & I7 & I8).
      split; [|split; [|split; [|split; [|repeat split]]]].
      * rewrite I1. cbn [forallb]. rewrite Ha.
        destruct success; reflexivity.
      * intros t. rewrite I2, Ht1, elem_of_cons.
        split.
        -- intros [H|[H1 H2]]; auto.
        -- intros [H|[[->|H1] H2]]; auto. congruence.
      * rewrite I3. cbn [omap list_omap]. rewrite Es, Ho1. reflexivity.
      * intros t. rewrite I4. apply Hstored. reflexivity.
      * rewrite I5. exact Hw1.
      * rewrite I6. exact Hr1.
      * rewrite I7. exact Hm1.
      * rewrite I8. exact Hc1.
Qed.

Lemma subscribe_one (sock : Socket) (conn : Connection) (topic : string)
    (cb : Callback) :
  ws sock = Some conn ->
  subscribe sock [topic] (Some cb)
  = match stream_on conn topic with
    | Some s =>
        (with_topic (with_opened (with_callback sock topic cb) s) topic, true)
    | None => (with_callback sock topic cb, false)
    end.
Proof.
  intros Hws. unfold subscribe. rewrite Hws. cbn [subscribe_loop].
  rewrite (_subscribe_topic_connected _ conn) by exact Hws. cbv zeta.
  destruct (stream_on conn topic); reflexivity.
Qed.

Lemma foldl_without_topic (old_topics : list string) :
  forall sock : Socket,
  let r := foldl without_topic sock old_topics in
  (forall t, t ∈ topics r <-> t ∈ topics sock /\ t ∉ old_topics) /\
  (forall t, callbacks r !! t
             = if bool_decide (t ∈ old_topics) then None
               else callbacks sock !! t) /\
  opened r = opened sock /\ ws r = ws sock /\
  is_running r = is_running sock /\ monitor_alive r = monitor_alive sock.
Proof.
  induction old_topics as [|topic rest IH]; intros sock; cbv zeta.
  - cbn [foldl]. split; [|split; [|repeat split]].
    + intros t. split; [intros H; split; [exact H|intros H'; inversion H']|].
      intros [H _]; exact H.
    + intros t. rewrite bool_decide_eq_false_2; [reflexivity|].
      intros H; inversion H.
  - cbn [foldl]. specialize (IH (without_topic sock topic)). cbv zeta in IH.
    destruct IH as (I1 & I2 & I3 & I4 & I5 & I6).
    split; [|split; [|repeat split]]; try assumption.
    + intros t. rewrite I1. cbn [without_topic topics].
      rewrite elem_of_difference, elem_of_singleton, not_elem_of_cons.
      tauto.
    + intros t. rewrite I2. cbn [without_topic callbacks].
      destruct (bool_decide (t ∈ rest)) eqn:Er.
      * apply bool_decide_eq_true in Er.
        rewrite bool_decide_eq_true_2; [reflexivity|].
        apply list_elem_of_further. exact Er.
      * apply bool_decide_eq_false in Er.
        destruct (decide (t = topic)) as [->|Hne].
        -- rewrite lookup_delete_eq, bool_decide_eq_true_2; [reflexivity|].
           apply list_elem_of_here.
        -- rewrite lookup_delete_ne by congruence.
           rewrite bool_decide_eq_false_2; [reflexivity|].
           rewrite elem_of_cons. intros [H|H]; contradiction.
Qed.

Lemma resubscribe_spec (conn : Connection) (todo : list string) :
  forall sock : Socket,
  ws sock = Some conn ->
  let r := foldl (fun s topic => (_subscribe_topic s topic None).1) sock todo in
  opened r = opened sock ++ omap (stream_on conn) todo /\
  topics r = topics sock /\ callbacks r = callbacks sock /\
  ws r = ws sock /\ is_running r = is_running sock /\
  monitor_alive r = monitor_alive sock /\
  websocket_class r = websocket_class sock.
Proof.
  induction todo as [|topic rest IH]; intros sock Hws; cbv zeta.
  - cbn [foldl omap list_omap]. rewrite app_nil_r. repeat split.
  - cbn [foldl]. rewrite (_subscribe_topic_connected _ conn) by exact Hws.
    cbv zeta. cbn [omap list_omap].
    destruct (stream_on conn topic) as [s|]; cbn [fst].
    + destruct (IH (with_opened sock s) Hws) as (I1 & I2 & I3 & I4 & I5 & I6 & I7).
      rewrite I1, I2, I3, I4, I5, I6, I7. cbn [with_opened opened].
      rewrite <- app_assoc. repeat split.
    + apply IH. exact Hws.
Qed.

(** X20. [subscribe] on a connected socket answers whether every topic was
    accepted, adds exactly the accepted topics to the registered ones and
    opens their streams in order; the callback, when one is given, ends up
    stored under every listed topic, accepted or not. *)
Theorem subscribe_registers_accepted_topics
    (sock : Socket) (conn : Connection) (new_topics : list string)
    (callback : option Callback) :
  ws sock = Some conn ->
  let r := subscribe sock new_topics callback in
  r.2 = forallb (accepted conn) new_topics /\
  (forall t, t ∈ topics r.1 <->
             t ∈ topics sock \/ (t ∈ new_topics /\ accepted conn t = true)) /\
  opened r.1 = opened sock ++ omap (stream_on conn) new_topics /\
  (forall t, callbacks r.1 !! t
             = stored callback new_topics (callbacks sock) t).
Proof.
  intros Hws. cbv zeta. unfold subscribe. rewrite Hws.
  destruct (subscribe_loop_spec conn callback new_topics sock true Hws)
    as (H1 & H2 & H3 & H4 & _).
  split; [exact H1|]. split; [exact H2|]. split; [exact H3|exact H4].
Qed.

Lemma subscribe_registers_accepted_topics_witness :
  let r := subscribe fresh_socket ["order"; "depth.BTCUSDT"] (Some 1) in
  r.2 = forallb (accepted open_connection) ["order"; "depth.BTCUSDT"] /\
  (forall t, t ∈ topics r.1 <->
             t ∈ topics fresh_socket \/
             (t ∈ ["order"; "depth.BTCUSDT"] /\
              accepted open_connection t = true)) /\
  opened r.1 = opened fresh_socket
               ++ omap (stream_on open_connection) ["order"; "depth.BTCUSDT"] /\
  (forall t, callbacks r.1 !! t
             = stored (Some 1) ["order"; "depth.BTCUSDT"]
                      (callbacks fresh_socket) t).
Proof.
  apply (subscribe_registers_accepted_topics fresh_socket open_connection
           ["order"; "depth.BTCUSDT"] (Some 1)).
  reflexivity.
Defined.

(** X21. A topic that [subscribe] rejects (unknown format, malformed, or a
    stream call that raises) is not registered and opens nothing, but its
    callback has already been stored and stays until [unsubscribe]. *)
Theorem rejected_topic_keeps_its_callback
    (sock : Socket) (conn : Connection) (topic : string) (cb : Callback) :
  ws sock = Some conn ->
  accepted conn topic = false ->
  let r := subscribe sock [topic] (Some cb) in
  r.2 = false /\ topics r.1 = topics sock /\ opened r.1 = opened sock /\
  callbacks r.1 !! topic = Some cb /\
  callbacks (unsubscribe r.1 [topic]).1 !! topic = None.
Proof.
  intros Hws Hrej. cbv zeta. rewrite (subscribe_one _ conn) by exact Hws.
  destruct (stream_on conn topic) as [s|] eqn:Es.
  { rewrite (accepted_Some _ _ _ Es) in Hrej. discriminate. }
  cbn [fst snd with_callback topics opened callbacks].
  repeat split.
  - apply lookup_insert_eq.
  - unfold unsubscribe. cbn [ws with_callback]. rewrite Hws.
    cbn [fst foldl without_topic callbacks]. apply lookup_delete_eq.
Qed.

Lemma rejected_topic_keeps_its_callback_witness :
  let r := subscribe fresh_socket ["kline.5"] (Some 1) in
  r.2 = false /\ topics r.1 = topics fresh_socket /\
  opened r.1 = opened fresh_socket /\
  callbacks r.1 !! "kline.5" = Some 1 /\
  callbacks (unsubscribe r.1 ["kline.5"]).1 !! "kline.5" = None.
Proof.
  apply (rejected_topic_keeps_its_callback fresh_socket open_connection
           "kline.5" 1); reflexivity.
Defined.

(** X22. Subscribing "kline.<interval>.<symbol>" with a callback, for an
    interval and a symbol without dots, opens the kline stream for that
    pair, and the kline handler then finds this callback for every message
    whose data carry that symbol and interval. *)
Theorem kline_subscription_round_trip
    (sock : Socket) (conn : Connection) (interval symbol : string)
    (cb : Callback) (message : Message) :
  ws sock = Some conn ->
  PyStr.has_dot interval = false ->
  PyStr.has_dot symbol = false ->
  stream_ok conn (KlineStream interval symbol) = true ->
  data_symbol message = Some symbol ->
  data_interval message = Some interval ->
  let topic := "kline." +:+ interval +:+ "." +:+ symbol in
  let r := subscribe sock [topic] (Some cb) in
  r.2 = true /\ topic ∈ topics r.1 /\
  opened r.1 = opened sock ++ [KlineStream interval symbol] /\
  _on_kline_update r.1 message = Some cb.
Proof.
  intros Hws Hi Hs Hok Hms Hmi. cbv zeta.
  rewrite (subscribe_one _ conn) by exact Hws.
  unfold stream_on. rewrite (route_kline _ _ Hi Hs), Hok.
  cbn [fst snd with_topic with_opened with_callback topics opened callbacks].
  split; [reflexivity|]. split; [set_solver|]. split; [reflexivity|].
  unfold _on_kline_update.
  cbn [with_topic with_opened with_callback callbacks].
  rewrite Hms, Hmi. cbn [default]. apply lookup_insert_eq.
Qed.

Lemma kline_subscription_round_trip_witness :
  let topic := "kline." +:+ "5" +:+ "." +:+ "BTCUSDT" in
  let r := subscribe fresh_socket [topic] (Some 1) in
  r.2 = true /\ topic ∈ topics r.1 /\
  opened r.1 = opened fresh_socket ++ [KlineStream "5" "BTCUSDT"] /\
  _on_kline_update r.1 {| data_symbol := Some "BTCUSDT";
                          data_interval := Some "5" |} = Some 1.
Proof.
  apply (kline_subscription_round_trip fresh_socket open_connection
           "5" "BTCUSDT" 1
           {| data_symbol := Some "BTCUSDT"; data_interval := Some "5" |});
    reflexivity.
Defined.

(** X23. Subscribing "ticker.<symbol>" with a callback, for a non-empty symbol,
    opens the ticker stream for that symbol, and the ticker handler then
    finds this callback for every message whose data carry the symbol.
    With an empty symbol the topic is rejected. *)
Theorem ticker_subscription_round_trip
    (sock : Socket) (conn : Connection) (symbol : string)
    (cb : Callback) (message : Message) :
  ws sock = Some conn ->
  stream_ok conn (TickerStream symbol) = true ->
  data_symbol message = Some symbol ->
  let topic := "ticker." +:+ symbol in
  let r := subscribe sock [topic] (Some cb) in
  r.2 = negb (bool_decide (symbol = EmptyString)) /\
  (symbol <> EmptyString ->
   topic ∈ topics r.1 /\
   opened r.1 = opened sock ++ [TickerStream symbol] /\
   _on_ticker_update r.1 message = Some cb).
Proof.
  intros Hws Hok Hms. cbv zeta.
  rewrite (subscribe_one _ conn) by exact Hws.
  unfold stream_on. rewrite route_ticker.
  destruct symbol as [|c rest].
  - split; [reflexivity|]. intros H. contradiction.
  - rewrite Hok.
    cbn [fst snd with_topic with_opened with_callback topics opened callbacks].
    split; [reflexivity|]. intros _.
    split; [set_solver|]. split; [reflexivity|].
    unfold _on_ticker_update.
    cbn [with_topic with_opened with_callback callbacks].
    rewrite Hms. cbn [default]. apply lookup_insert_eq.
Qed.

Lemma ticker_subscription_round_trip_witness :
  let topic := "ticker." +:+ "BTCUSDT" in
  let r := subscribe fresh_socket [topic] (Some 1) in
  r.2 = negb (bool_decide ("BTCUSDT" = EmptyString)) /\
  ("BTCUSDT" <> EmptyString ->
   topic ∈ topics r.1 /\
   opened r.1 = opened fresh_socket ++ [TickerStream "BTCUSDT"] /\
   _on_ticker_update r.1 {| data_symbol := Some "BTCUSDT";
                            data_interval := None |} = Some 1).
Proof.
  apply (ticker_subscription_round_trip fresh_socket open_connection
           "BTCUSDT" 1
           {| data_symbol := Some "BTCUSDT"; data_interval := None |});
    reflexivity.
Defined.

(** X24. A topic routed to one of the four private streams is accepted whatever
    follows the word it starts with, but the stream's handler looks the
    callback up under the bare word: after the subscription it finds the new
    callback only if the topic is exactly "position", "execution", "order"
    or "wallet", and otherwise whatever was stored under the bare word. *)
Theorem private_handler_uses_bare_word
    (sock : Socket) (conn : Connection) (topic key : string) (s : Stream)
    (cb : Callback) (message : Message) :
  ws sock = Some conn ->
  route_topic topic = ToStream s ->
  private_key s = Some key ->
  stream_ok conn s = true ->
  let r := subscribe sock [topic] (Some cb) in
  r.2 = true /\ topic ∈ topics r.1 /\
  callbacks r.1 !! topic = Some cb /\
  PyStr.startswith topic key = true /\
  handler_of s r.1 message
  = if decide (topic = key) then Some cb else callbacks sock !! key.
Proof.
  intros Hws Hroute Hkey Hok. cbv zeta.
  rewrite (subscribe_one _ conn) by exact Hws.
  unfold stream_on. rewrite Hroute, Hok.
  cbn [fst snd with_topic with_opened with_callback topics opened callbacks].
  split; [reflexivity|]. split; [set_solver|].
  split; [apply lookup_insert_eq|].
  assert (Hlook : forall k,
            (<[topic := cb]> (callbacks sock) : gmap string Callback) !! k
            = if decide (topic = k) then Some cb else callbacks sock !! k).
  { intros k. destruct (decide (topic = k)) as [->|Hne].
    - apply lookup_insert_eq.
    - apply lookup_insert_ne. exact Hne. }
  unfold route_topic in Hroute.
  destruct (PyStr.startswith topic "position") eqn:E1.
  { injection Hroute as <-. injection Hkey as <-.
    split; [exact E1|apply Hlook]. }
  destruct (PyStr.startswith topic "execution") eqn:E2.
  { injection Hroute as <-. injection Hkey as <-.
    split; [exact E2|apply Hlook]. }
  destruct (PyStr.startswith topic "order") eqn:E3.
  { injection Hroute as <-. injection Hkey as <-.
    split; [exact E3|apply Hlook]. }
  destruct (PyStr.startswith topic "wallet") eqn:E4.
  { injection Hroute as <-. injection Hkey as <-.
    split; [exact E4|apply Hlook]. }
  destruct (PyStr.startswith topic "ticker").
  { destruct (PyStr.after_first_dot topic) as [[|c rest]|];
      try discriminate Hroute.
    injection Hroute as <-. discriminate Hkey. }
  destruct (PyStr.startswith topic "kline"); [|discriminate Hroute].
  destruct (PyStr.split topic) as [|p1 [|p2 [|p3 [|p4 ps]]]];
    try discriminate Hroute.
  injection Hroute as <-. discriminate Hkey.
Qed.

Lemma private_handler_uses_bare_word_witness :
  let r := subscribe fresh_socket ["order.linear"] (Some 1) in
  r.2 = true /\ "order.linear" ∈ topics r.1 /\
  callbacks r.1 !! "order.linear" = Some 1 /\
  PyStr.startswith "order.linear" "order" = true /\
  handler_of OrderStream r.1 {| data_symbol := None; data_interval := None |}
  = if decide ("order.linear" = "order") then Some 1
    else callbacks fresh_socket !! "order".
Proof.
  apply (private_handler_uses_bare_word fresh_socket open_connection
           "order.linear" "order" OrderStream 1
           {| data_symbol := None; data_interval := None |});
    reflexivity.
Defined.

(** X25. [unsubscribe] on a connected socket removes exactly the listed topics
    from the registered topics and from the callbacks and answers [True];
    it closes no stream.  Without a connection it answers [False] and
    changes nothing. *)
Theorem unsubscribe_scope (sock : Socket) (old_topics : list string) :
  let r := unsubscribe sock old_topics in
  opened r.1 = opened sock /\ ws r.1 = ws sock /\
  match ws sock with
  | Some _ =>
      r.2 = true /\
      (forall t, t ∈ topics r.1 <-> t ∈ topics sock /\ t ∉ old_topics) /\
      (forall t, callbacks r.1 !! t
                 = if bool_decide (t ∈ old_topics) then None
                   else callbacks sock !! t)
  | None => r = (sock, false)
  end.
Proof.
  cbv zeta. unfold unsubscribe.
  destruct (ws sock) as [conn|] eqn:Hws.
  - destruct (foldl_without_topic old_topics sock) as (H1 & H2 & H3 & H4 & _).
    cbn [fst snd]. rewrite H3, H4.
    split; [reflexivity|]. split; [exact Hws|].
    split; [reflexivity|]. split; assumption.
  - cbn [fst snd]. repeat split. exact Hws.
Qed.

(** X26. A successful [connect] opens, on the new connection, the stream of
    every registered topic the connection accepts, in the order of the
    topic set, keeps the registered topics and callbacks as they were (also
    the topics it could not reopen) and leaves a monitor running.  When the
    constructor call had to be repeated with the minimal arguments,
    [connect] also answers [True], but reopens nothing and starts no
    monitor. *)
Theorem connect_reopens_registered_topics (sock : Socket) (c : Connection) :
  websocket_class sock = true ->
  (sock_connected c = true ->
   let r := connect (Constructed c) sock in
   r.2 = true /\ ws r.1 = Some c /\
   opened r.1 = omap (stream_on c) (elements (topics sock)) /\
   topics r.1 = topics sock /\ callbacks r.1 = callbacks sock /\
   monitor_alive r.1 = true /\
   is_running r.1 = (if monitor_alive sock then is_running sock else true)) /\
  (let r := connect (ConstructorTypeError (Some c)) sock in
   r.2 = true /\ ws r.1 = Some c /\ opened r.1 = [] /\
   topics r.1 = topics sock /\ callbacks r.1 = callbacks sock /\
   monitor_alive r.1 = monitor_alive sock /\
   is_running r.1 = is_running sock).
Proof.
  intros Hcls. split.
  - intros Hconn. cbv zeta. unfold connect. rewrite Hcls, Hconn.
    cbn [negb].
    match goal with |- context [foldl _ ?s0 _] => set (sock0 := s0) end.
    destruct (resubscribe_spec c (elements (topics sock)) sock0 eq_refl)
      as (H1 & H2 & H3 & H4 & H5 & H6 & H7).
    cbv zeta in H1, H2, H3, H4, H5, H6, H7.
    rewrite H6. cbn [sock0 monitor_alive].
    destruct (monitor_alive sock);
      cbn [fst snd ws opened topics callbacks monitor_alive is_running];
      rewrite ?H1, ?H2, ?H3, ?H4, ?H5, ?H6; repeat split.
  - cbv zeta. unfold connect. rewrite Hcls. cbn [negb fst snd].
    repeat split.
Qed.

Lemma connect_reopens_registered_topics_witness :
  (sock_connected selective_connection = true ->
   let r := connect (Constructed selective_connection) registered_socket in
   r.2 = true /\ ws r.1 = Some selective_connection /\
   opened r.1
   = omap (stream_on selective_connection)
          (elements (topics registered_socket)) /\
   topics r.1 = topics registered_socket /\
   callbacks r.1 = callbacks registered_socket /\
   monitor_alive r.1 = true /\
   is_running r.1 = (if monitor_alive registered_socket
                     then is_running registered_socket else true)) /\
  (let r := connect (ConstructorTypeError (Some selective_connection))
                    registered_socket in
   r.2 = true /\ ws r.1 = Some selective_connection /\ opened r.1 = [] /\
   topics r.1 = topics registered_socket /\
   callbacks r.1 = callbacks registered_socket /\
   monitor_alive r.1 = monitor_alive registered_socket /\
   is_running r.1 = is_running registered_socket).
Proof.
  apply (connect_reopens_registered_topics registered_socket
           selective_connection).
  reflexivity.
Defined.

(** X27. After [close] the socket refuses [subscribe] and [unsubscribe] without
    touching anything, and keeps its registered topics and callbacks, so a
    later successful [connect] reopens their streams.  The running flag
    that [close] cleared comes back only if the monitor thread had already
    ended: a [connect] that still sees it alive leaves the flag off. *)
Theorem close_then_connect
    (sock : Socket) (c : Connection) (some_topics : list string)
    (callback : option Callback) :
  websocket_class sock = true ->
  sock_connected c = true ->
  let closed := (close sock).1 in
  (close sock).2 = true /\
  subscribe closed some_topics callback = (closed, false) /\
  unsubscribe closed some_topics = (closed, false) /\
  let r := connect (Constructed c) closed in
  r.2 = true /\
  opened r.1 = omap (stream_on c) (elements (topics sock)) /\
  callbacks r.1 = callbacks sock /\
  is_running r.1 = negb (monitor_alive sock).
Proof.
  intros Hcls Hconn. cbv zeta.
  split; [reflexivity|]. split; [reflexivity|]. split; [reflexivity|].
  unfold connect, close. cbn [fst websocket_class topics callbacks].
  rewrite Hcls, Hconn. cbn [negb].
  match goal with |- context [foldl _ ?s0 _] => set (sock0 := s0) end.
  destruct (resubscribe_spec c (elements (topics sock)) sock0 eq_refl)
    as (H1 & H2 & H3 & H4 & H5 & H6 & H7).
  cbv zeta in H1, H2, H3, H4, H5, H6, H7.
  rewrite H6. cbn [sock0 monitor_alive].
  destruct (monitor_alive sock);
    cbn [fst snd ws opened topics callbacks monitor_alive is_running negb];
    rewrite ?H1, ?H3, ?H5, ?H6; repeat split.
Qed.

Lemma close_then_connect_witness :
  let closed := (close monitored_socket).1 in
  (close monitored_socket).2 = true /\
  subscribe closed ["wallet"] (Some 2) = (closed, false) /\
  unsubscribe closed ["order"] = (closed, false) /\
  let r := connect (Constructed selective_connection) closed in
  r.2 = true /\
  opened r.1
  = omap (stream_on selective_connection)
         (elements (topics monitored_socket)) /\
  callbacks r.1 = callbacks monitored_socket /\
  is_running r.1 = negb (monitor_alive monitored_socket).
Proof.
  apply (close_then_connect monitored_socket selective_connection
           ["wallet"] (Some 2));
    reflexivity.
Defined.

End Subscriptions.
